(** * movie_showtimes_console: a shallow embedding and its properties

    The development follows [movie_showtimes_console.py]:

    - [Py]          the fragment of Python's object model the script relies
                    on: JSON values, truthiness, [or], [.get], [len],
                    indexing, iteration, exceptions;
    - [Normalizer]  [normalize_showtimes];
    - [Flattener]   [flatten_movies] and the closure [group_movies_by_theater];
    - [Engine]      the cache store, [fetch_all], [load_entries_for_today],
                    the renderer and one iteration of the display loop of
                    [run_display], over an explicit world;
    - [Spec]        the definitions the properties are stated with;
    - [Samples]     the data the properties are instantiated on.

    Definitions come first, the theorems about them follow. *)

From stdpp Require Import gmap strings list pretty.
From Stdlib Require Import ZArith Ascii String Lia.

Set Warnings "-register-all".

Local Open Scope Z_scope.
Local Open Scope string_scope.
Local Open Scope list_scope.

(* ===================================================================== *)
(** ** Python values, exceptions and the builtins used by the script      *)
(* ===================================================================== *)

Module Py.

(** A binary floating point number as [json.load] can produce it: a NaN, an
    infinity, or a signed mantissa scaled by a power of two. The script only
    ever tests such a number for truth. *)
Inductive pyfloat : Type :=
| FNaN
| FInf (negative : bool)
| FFinite (negative : bool) (mantissa : N) (exponent : Z).

(** What [json.load] returns: [None], [bool], [int], [float], [str], [list]
    and [dict] with string keys. A [dict] keeps its insertion order, which
    iteration exposes, hence the association list; a key is bound at most
    once in a dictionary built by [json.load], and lookup takes the first
    binding. Characters of a [str] are the [ascii] of the [string]. *)
Inductive value : Type :=
| VNone
| VBool (b : bool)
| VInt (z : Z)
| VFloat (f : pyfloat)
| VStr (s : string)
| VList (l : list value)
| VDict (d : list (string * value)).

(** The exceptions of class [Exception] that the script can meet.
    [RuntimeError] carries its argument. *)
Inductive exn : Type :=
| AttributeError
| TypeError
| KeyError
| IndexError
| ValueError
| ZeroDivisionError
| OSError
| RuntimeError (detail : value).

(** A computation either returns or raises. *)
Inductive result (A : Type) : Type :=
| Ok (a : A)
| Raise (e : exn).
Arguments Ok {A} a.
Arguments Raise {A} e.

Definition bind {A B} (m : result A) (k : A -> result B) : result B :=
  match m with
  | Ok a => k a
  | Raise e => Raise e
  end.

Definition returns {A} (m : result A) : bool :=
  match m with Ok _ => true | Raise _ => false end.

Definition fmap_result {A B} (f : A -> B) (m : result A) : result B :=
  bind m (fun a => Ok (f a)).

(** [bool(v)] *)
Definition truthy (v : value) : bool :=
  match v with
  | VNone => false
  | VBool b => b
  | VInt z => negb (Z.eqb z 0)
  | VFloat (FFinite _ 0%N _) => false
  | VFloat _ => true
  | VStr s => negb (String.eqb s "")
  | VList l => match l with [] => false | _ => true end
  | VDict d => match d with [] => false | _ => true end
  end.

(** [a or b] on values already computed. *)
Definition py_or (a b : value) : value := if truthy a then a else b.

(** [a or b] where evaluating [a] or [b] may raise; [b] is evaluated only
    when [a] is falsy. *)
Definition or_else (a b : result value) : result value :=
  bind a (fun v => if truthy v then Ok v else b).

(** [d.get(k)] and [d.get(k, dflt)] on the bindings of a dictionary. *)
Fixpoint lookup_key (d : list (string * value)) (k : string) : option value :=
  match d with
  | [] => None
  | (k', v) :: rest => if String.eqb k k' then Some v else lookup_key rest k
  end.

Definition dict_get (d : list (string * value)) (k : string) (dflt : value) : value :=
  match lookup_key d k with
  | Some v => v
  | None => dflt
  end.

(** [v.get(k, dflt)]: only a [dict] has the attribute. *)
Definition py_get_default (v : value) (k : string) (dflt : value) : result value :=
  match v with
  | VDict d => Ok (dict_get d k dflt)
  | _ => Raise AttributeError
  end.

(** [v.get(k)] *)
Definition py_get (v : value) (k : string) : result value :=
  py_get_default v k VNone.

(** The characters of a string, each as a string of length one. *)
Fixpoint chars (s : string) : list value :=
  match s with
  | EmptyString => []
  | String c rest => VStr (String c EmptyString) :: chars rest
  end.

(** [len(v)] *)
Definition py_len (v : value) : result Z :=
  match v with
  | VStr s => Ok (Z.of_nat (String.length s))
  | VList l => Ok (Z.of_nat (List.length l))
  | VDict d => Ok (Z.of_nat (List.length d))
  | _ => Raise TypeError
  end.

(** [v[0]]. A dictionary loaded from JSON has string keys only, so the key
    [0] is never bound. *)
Definition py_first (v : value) : result value :=
  match v with
  | VList (x :: _) => Ok x
  | VList [] => Raise IndexError
  | VStr (String c _) => Ok (VStr (String c EmptyString))
  | VStr EmptyString => Raise IndexError
  | VDict _ => Raise KeyError
  | _ => Raise TypeError
  end.

(** The items a [for] loop over [v] visits: the elements of a list, the keys
    of a dictionary, the characters of a string. *)
Definition py_iter (v : value) : result (list value) :=
  match v with
  | VList l => Ok l
  | VDict d => Ok (map (fun kv => VStr (fst kv)) d)
  | VStr s => Ok (chars s)
  | _ => Raise TypeError
  end.

(** [v == s] for a string [s]. *)
Definition eq_str (v : value) (s : string) : bool :=
  match v with
  | VStr s' => String.eqb s' s
  | _ => false
  end.

(** A [for] loop whose body updates an accumulator and may raise. *)
Fixpoint for_each {A S} (body : S -> A -> result S) (xs : list A) (acc : S)
  : result S :=
  match xs with
  | [] => Ok acc
  | x :: rest => bind (body acc x) (for_each body rest)
  end.

End Py.

Import Py.

Notation "'let*' x := m 'in' k" := (bind m (fun x => k))
  (at level 10, x name, m at level 100, k at level 200).
Infix "|||" := or_else (at level 50, left associativity).

(* ===================================================================== *)
(** ** normalize_showtimes                                                *)
(* ===================================================================== *)

Section Normalizer.

(** [repr] of a float, a list or a dictionary: Python's builtin, whose text
    the script never inspects. *)
Variable repr : value -> string.

(** [str(v)], which is what an f-string field without a format does. *)
Definition py_str (v : value) : string :=
  match v with
  | VNone => "None"
  | VBool true => "True"
  | VBool false => "False"
  | VInt z => pretty z
  | VStr s => s
  | _ => repr v
  end.

(** The body of [for tb in time_blocks] (lines 72-79). *)
Definition time_block (times : list value) (tb : value) : list value :=
  match tb with
  | VDict d =>
      let t_val :=
        py_or (py_or (py_or (dict_get d "time" VNone) (dict_get d "start_time" VNone))
                     (dict_get d "start" VNone)) (VStr "") in
      let t_type :=
        py_or (py_or (dict_get d "type" VNone) (dict_get d "format" VNone))
              (dict_get d "ticket_type" VNone) in
      if truthy t_val then
        times ++ [if truthy t_type
                  then VStr (py_str t_val ++ " (" ++ py_str t_type ++ ")")
                  else t_val]
      else times
  | VStr _ => times ++ [tb]
  | _ => times
  end.

(** The body of [for movie in movies] (lines 68-84). *)
Definition movie_row (movie_rows : list value) (movie : value) : result (list value) :=
  let* title := (py_get movie "title" ||| py_get movie "name" ||| py_get movie "film_name"
            ||| Ok (VStr "(title unknown)")) in
  let* time_blocks := (py_get movie "showtimes" ||| py_get movie "times"
                  ||| py_get movie "showing" ||| Ok (VList [])) in
  let* tbs := py_iter time_blocks in
  let times := fold_left time_block tbs [] in
  Ok (movie_rows ++ [VDict [("title", title); ("times", VList (firstn 8 times))]]).

(** Lines 63-64: a day-partitioned movie list is cut to its first day. *)
Definition todays_movies (movies : value) : value :=
  match movies with
  | VList (VList first :: _) => VList first
  | _ => movies
  end.

(** The body of [for entry in theaters] (lines 58-90). *)
Definition normalize_entry (normalized : list value) (entry : value)
  : result (list value) :=
  let* theater_name := (py_get entry "theater_name" ||| py_get entry "name"
                   ||| Ok (VStr "Unknown Theater")) in
  let* address := (py_get entry "address" ||| py_get entry "address_line"
              ||| py_get entry "full_address" ||| Ok (VStr "")) in
  let* movies := (py_get entry "movies" ||| py_get entry "showing" ||| Ok (VList [])) in
  let* ms := py_iter (todays_movies movies) in
  let* movie_rows := for_each movie_row ms [] in
  Ok (normalized ++ [VDict [("theater", theater_name);
                            ("address", address);
                            ("movies", VList movie_rows)]]).

(** Lines 54-55: [if theaters and len(theaters) > 0: theaters = [theaters[0]]]. *)
Definition first_theater (theaters : value) : result value :=
  if truthy theaters then
    let* n := py_len theaters in
    if Z.ltb 0 n then (let* x := py_first theaters in Ok (VList [x])) else Ok theaters
  else Ok theaters.

Definition normalize_showtimes (payload : value) : result (list value) :=
  let* theaters := (py_get payload "showtimes" ||| Ok (VList [])) in
  let* theaters := first_theater theaters in
  let* es := py_iter theaters in
  for_each normalize_entry es [].

End Normalizer.

(* ===================================================================== *)
(** ** flatten_movies and group_movies_by_theater                         *)
(* ===================================================================== *)

(** What [resolve_timezone] returns. *)
Inductive tzinfo : Type :=
| ZoneInfo (name : string)
| FixedOffset (hours : value)
| UTC.

(** The dictionary both flattening functions build for one movie: a literal
    with these eight keys. *)
Record FlatMovieItem : Type := mkItem {
  theater_label : value;
  location_label : value;
  theater_name : value;
  address : value;
  title : value;
  times : value;
  now_str : value;
  tz : option tzinfo;
}.

Section Flattener.

(** The [tz] argument of [flatten_movies]; [group_movies_by_theater] closes
    over the [tz] of [run_display]. *)
Variable tz : option tzinfo.

(** *** flatten_movies (lines 151-171) *)

Definition flatten_movie (theater_label location_label theater_name address now_str : value)
  (movies : list FlatMovieItem) (movie : value) : result (list FlatMovieItem) :=
  let* title := (py_get movie "title" ||| Ok (VStr "(title unknown)")) in
  let* times := (py_get movie "times" ||| Ok (VList [])) in
  Ok (movies ++ [mkItem theater_label location_label theater_name address
                        title times now_str tz]).

Definition flatten_theater (theater_label location_label now_str : value)
  (movies : list FlatMovieItem) (theater : value) : result (list FlatMovieItem) :=
  let theater_name := py_or theater_label (VStr "Unknown Theater") in
  let* address := (py_get theater "address" ||| Ok (VStr "")) in
  let* listed := py_get_default theater "movies" (VList []) in
  let* ms := py_iter listed in
  for_each (flatten_movie theater_label location_label theater_name address now_str)
           ms movies.

Definition flatten_entry (now_str : value)
  (movies : list FlatMovieItem) (entry : value) : result (list FlatMovieItem) :=
  let* theater_label := py_get_default entry "theater_label" (VStr "") in
  let* location_label := py_get_default entry "location_label" (VStr "") in
  let* showtimes := py_get_default entry "showtimes" (VList []) in
  let* ts := py_iter showtimes in
  for_each (flatten_theater theater_label location_label now_str) ts movies.

Definition flatten_movies (entries : value) (now_str : value)
  : result (list FlatMovieItem) :=
  let* es := py_iter entries in
  for_each (flatten_entry now_str) es [].

(** *** group_movies_by_theater (lines 264-287) *)

Definition group_movie (theater_label location_label theater_name address now_str : value)
  (theater_movies : list FlatMovieItem) (movie : value) : result (list FlatMovieItem) :=
  let* title := (py_get movie "title" ||| Ok (VStr "(title unknown)")) in
  let* times := (py_get movie "times" ||| Ok (VList [])) in
  Ok (theater_movies ++ [mkItem theater_label location_label theater_name address
                                title times now_str tz]).

Definition group_theater (theater_label location_label now_str : value)
  (theater_movies : list FlatMovieItem) (theater : value) : result (list FlatMovieItem) :=
  let theater_name := py_or theater_label (VStr "Unknown Theater") in
  let* address := (py_get theater "address" ||| Ok (VStr "")) in
  let* listed := py_get_default theater "movies" (VList []) in
  let* ms := py_iter listed in
  for_each (group_movie theater_label location_label theater_name address now_str)
           ms theater_movies.

(** The movies of one entry, the [theater_movies] list of the source. *)
Definition group_entry_movies (now_str : value) (entry : value)
  : result (list FlatMovieItem) :=
  let* theater_label := py_get_default entry "theater_label" (VStr "") in
  let* location_label := py_get_default entry "location_label" (VStr "") in
  let* showtimes := py_get_default entry "showtimes" (VList []) in
  let* ts := py_iter showtimes in
  for_each (group_theater theater_label location_label now_str) ts [].

Definition group_entry (now_str : value)
  (theater_groups : list (list FlatMovieItem)) (entry : value)
  : result (list (list FlatMovieItem)) :=
  let* theater_movies := group_entry_movies now_str entry in
  match theater_movies with
  | [] => Ok theater_groups
  | _ => Ok (theater_groups ++ [theater_movies])
  end.

Definition group_movies_by_theater (entries : value) (now_str : value)
  : result (list (list FlatMovieItem)) :=
  let* es := py_iter entries in
  for_each (group_entry now_str) es [].

End Flattener.

(* ===================================================================== *)
(** ** The engine: cache store, fetching, rendering, the display loop     *)
(* ===================================================================== *)

Module Engine.

(** A cache file on disk either parses as JSON or cannot be read as such. *)
Inductive file : Type :=
| Json (v : value)
| Unreadable.

(** The query parameters of one call to the search API (lines 32-38). *)
Record request : Type := mkRequest {
  q : value;
  location : value;
  hl : value;
  gl : value;
  api_key : value;
}.

(** A reading of the wall clock in a time zone, through the two formats the
    script prints it in. *)
Record instant : Type := mkInstant {
  date_str : string;   (* strftime("%Y-%m-%d") *)
  stamp : string;      (* strftime("%Y-%m-%d %H:%M:%S %Z") *)
}.

(** Everything the script can observe or change outside its own variables. *)
Record world : Type := mkWorld {
  files : gmap string file;    (* the files that exist, by path *)
  clock_reads : nat;           (* calls of [now_in_tz] so far *)
  requests : list request;     (* calls of the search API so far *)
  sleeps : list value;         (* durations of the [time.sleep] calls so far *)
  printed : list string;       (* arguments of the [print] calls so far *)
}.

(** What lies outside the repository: Python's [repr] and the text of an
    exception, the wall clock, the search API, and [time.sleep], which
    rejects some arguments and can be cut short by the user's interrupt.
    Sleeping for the literal 5 is never rejected. *)
Record platform : Type := mkPlatform {
  repr : value -> string;
  exn_text : exn -> string;
  now_at : nat -> option tzinfo -> instant;
  http_get : nat -> request -> result value;
  sleep_rejects : value -> option exn;
  interrupts : nat -> bool;
  sleep_five : sleep_rejects (VInt 5) = None;
}.

(** What can go wrong with the terminal and with the disk. [print] raises
    when standard output is closed or broken; the oracle is asked with what
    has been printed so far and the text to print. Writing the cache file
    (lines 220-221, which have no handler) raises either in [open], which
    leaves the disk as it was, or inside [json.dump] (a string that cannot
    be encoded, a value that cannot be serialised, a full disk), which
    leaves the file just opened empty or partly written: no JSON document. *)
Inductive write_failure : Type :=
| OpenFails (e : exn)
| DumpFails (e : exn).

Record faults : Type := mkFaults {
  print_fails : list string -> string -> option exn;
  write_fails : string -> value -> option write_failure;
}.

(** A terminal that takes every line and a disk that takes every write. *)
Definition reliable : faults := mkFaults (fun _ _ => None) (fun _ _ => None).

(** How a computation over the world ends: it returns, it raises an
    [Exception], or a [KeyboardInterrupt] unwinds it. *)
Inductive outcome (A : Type) : Type :=
| Done (a : A) (w : world)
| Raised (e : exn) (w : world)
| Interrupted (w : world).
Arguments Done {A} a w.
Arguments Raised {A} e w.
Arguments Interrupted {A} w.

Definition M (A : Type) : Type := world -> outcome A.

Definition ret {A} (a : A) : M A := fun w => Done a w.

Definition raise {A} (e : exn) : M A := fun w => Raised e w.

Definition bindM {A B} (m : M A) (k : A -> M B) : M B :=
  fun w =>
    match m w with
    | Done a w' => k a w'
    | Raised e w' => Raised e w'
    | Interrupted w' => Interrupted w'
    end.

Definition lift {A} (r : result A) : M A :=
  match r with
  | Ok a => ret a
  | Raise e => raise e
  end.

(** [try: m except Exception as e: handler e]. A [KeyboardInterrupt] is not
    an [Exception] and passes through. *)
Definition try_except {A} (m : M A) (handler : exn -> M A) : M A :=
  fun w =>
    match m w with
    | Raised e w' => handler e w'
    | o => o
    end.

Fixpoint for_eachM {A S} (body : S -> A -> M S) (xs : list A) (acc : S) : M S :=
  match xs with
  | [] => ret acc
  | x :: rest => bindM (body acc x) (for_eachM body rest)
  end.

Notation "'run' x := m 'in' k" := (bindM m (fun x => k))
  (at level 10, x name, m at level 100, k at level 200).
Notation "m ';;;' k" := (bindM m (fun _ => k))
  (at level 100, k at level 200, right associativity).

Definition DEFAULT_REFRESH : value := VInt 10.
Definition DEFAULT_CACHE_FILE : string := "showtimes_cache.json".

Definition newline : string := String "010"%char EmptyString.
Definition escape : string := String "027"%char EmptyString.

Fixpoint times_char (n : nat) (c : ascii) : string :=
  match n with
  | O => EmptyString
  | S n' => String c (times_char n' c)
  end.

(** ["=" * 100] *)
Definition rule : string := times_char 100 "="%char.

Section WithPlatform.

Variable P : platform.
Variable F : faults.

(** *** Primitive effects *)

Definition print (text : string) : M unit :=
  fun w =>
    match print_fails F (printed w) text with
    | Some e => Raised e w
    | None => Done tt (mkWorld (files w) (clock_reads w) (requests w) (sleeps w)
                               (printed w ++ [text]))
    end.

Definition now_in_tz (tz : option tzinfo) : M instant :=
  fun w => Done (now_at P (clock_reads w) tz)
                (mkWorld (files w) (S (clock_reads w)) (requests w) (sleeps w)
                         (printed w)).

Definition time_sleep (secs : value) : M unit :=
  fun w =>
    match sleep_rejects P secs with
    | Some e => Raised e w
    | None =>
        let w' := mkWorld (files w) (clock_reads w) (requests w)
                          (sleeps w ++ [secs]) (printed w) in
        if interrupts P (List.length (sleeps w)) then Interrupted w' else Done tt w'
    end.

(** [fetch_showtimes] (lines 31-46): one request, answered by the API or
    failing with the transport's exception. *)
Definition fetch_showtimes (api_key theater location hl gl : value) : M value :=
  fun w =>
    let req := mkRequest theater location hl gl api_key in
    let w' := mkWorld (files w) (clock_reads w) (requests w ++ [req]) (sleeps w)
                      (printed w) in
    match http_get P (List.length (requests w)) req with
    | Ok raw => Done raw w'
    | Raise e => Raised e w'
    end.

(** *** Cache store (lines 204-221)

    [load_cached] turns every failure to open or parse the file into [None].
    [save_cached] overwrites the file and lets a failure to do so escape. *)

Definition load_cached (path : string) : M value :=
  fun w =>
    if String.eqb path "" then Done VNone w
    else match files w !! path with
         | Some (Json v) => Done v w
         | _ => Done VNone w
         end.

Definition save_cached (path : string) (date_str : string) (entries : list value)
  : M unit :=
  fun w =>
    if String.eqb path "" then Done tt w
    else
      let payload := VDict [("date", VStr date_str); ("entries", VList entries)] in
      let written content :=
        mkWorld (<[path := content]> (files w)) (clock_reads w) (requests w)
                (sleeps w) (printed w) in
      match write_fails F path payload with
      | None => Done tt (written (Json payload))
      | Some (OpenFails e) => Raised e w
      | Some (DumpFails e) => Raised e (written Unreadable)
      end.

(** *** fetch_all (lines 224-242) *)

Definition fetch_entry (api_key hl gl : value) (entries : list value) (entry : value)
  : M (list value) :=
  run theater_name := lift (py_get entry "name" ||| py_get entry "theater"
                            ||| py_get entry "query") in
  run location := lift (py_get entry "location" ||| Ok (VStr "")) in
  if negb (truthy theater_name) || negb (truthy location) then
    print "Skipping malformed theater entry (needs 'name' and 'location')" ;;;
    ret entries
  else
    run raw := fetch_showtimes api_key theater_name location hl gl in
    run error := lift (py_get raw "error") in
    if truthy error then raise (RuntimeError error)
    else
      run normalized := lift (normalize_showtimes (repr P) raw) in
      ret (entries ++ [VDict [("theater_label", theater_name);
                              ("location_label", location);
                              ("showtimes", VList normalized)]]).

Definition fetch_all (api_key hl gl theaters : value) : M (list value) :=
  run ts := lift (py_iter theaters) in
  for_eachM (fetch_entry api_key hl gl) ts [].

(** *** format_single_movie_display (lines 174-201) *)

(** [v[:60]]. Slicing a dictionary raises [TypeError] up to Python 3.11 and
    [KeyError] from 3.12 on; the loop treats both alike. *)
Definition first_60 (v : value) : result value :=
  match v with
  | VStr s => Ok (VStr (String.substring 0 60 s))
  | VList l => Ok (VList (firstn 60 l))
  | _ => Raise TypeError
  end.

Definition print_time (t : value) : M unit :=
  print ("  - " ++ py_str (repr P) t).

Definition format_single_movie_display (item : FlatMovieItem) : M unit :=
  print (escape ++ "[2J" ++ escape ++ "[H") ;;;
  print (newline ++ rule) ;;;
  run now_time := now_in_tz (tz item) in
  print ("MOVIE SHOWTIMES @ " ++ stamp now_time) ;;;
  print rule ;;;
  print ("Location: " ++ py_str (repr P) (location_label item)) ;;;
  let theater_display :=
    py_or (py_or (theater_label item) (theater_name item)) (VStr "") in
  print ("Theater: " ++ py_str (repr P) theater_display) ;;;
  (if truthy (address item)
   then print ("Address: " ++ py_str (repr P) (address item))
   else ret tt) ;;;
  print rule ;;;
  run title := lift (first_60 (py_or (title item) (VStr "(title unknown)"))) in
  let times := py_or (times item) (VList []) in
  print (py_str (repr P) title) ;;;
  (if truthy times then
     print "Times:" ;;;
     run ts := lift (py_iter times) in
     for_eachM (fun _ t => print_time t) ts tt
   else print "Times: (none listed)") ;;;
  print rule.

(** *** run_display (lines 245-334) *)

(** The variables [run_display] sets up before its loop (lines 246-253). *)
Record locals : Type := mkLocals {
  config_api_key : value;
  config_hl : value;
  config_gl : value;
  theaters : value;
  cycle_delay : value;
  cache_path : string;
  display_tz : tzinfo;
}.

(** Line 251: the command line, then the configuration, then the default. *)
Definition choose_cycle_delay (refresh config_refresh : value) : value :=
  py_or (py_or refresh config_refresh) DEFAULT_REFRESH.

(** Line 252, for a command line option and a configuration entry that are
    strings when present. *)
Definition choose_cache_path (cache_file config_cache_file : option string) : string :=
  match py_or (py_or (from_option VStr VNone cache_file)
                     (from_option VStr VNone config_cache_file))
              (VStr DEFAULT_CACHE_FILE) with
  | VStr s => s
  | _ => DEFAULT_CACHE_FILE
  end.

Variable L : locals.

(** The closure of lines 255-262; it returns the pair [(entries, date)]. *)
Definition load_entries_for_today : M (value * value) :=
  run now := now_in_tz (Some (display_tz L)) in
  let today_str := date_str now in
  run cached_local := load_cached (cache_path L) in
  run hit := lift (if truthy cached_local
                   then let* date := py_get cached_local "date" in
                        Ok (eq_str date today_str)
                   else Ok false) in
  if hit then
    run entries := lift (py_get cached_local "entries" ||| Ok (VList [])) in
    run date := lift (py_get_default cached_local "date" (VStr today_str)) in
    ret (entries, date)
  else
    run fresh := fetch_all (config_api_key L) (config_hl L) (config_gl L) (theaters L) in
    save_cached (cache_path L) today_str fresh ;;;
    ret (VList fresh, VStr today_str).

(** The variables the loop updates. *)
Record loop_state : Type := mkState {
  theater_groups : list (list FlatMovieItem);
  theater_idx : Z;
  movie_idx : Z;
}.

(** Lines 289-296: the first load. [None] when there is nothing to display
    and [run_display] returns. *)
Definition startup : M (option loop_state) :=
  run loaded := load_entries_for_today in
  run groups := lift (group_movies_by_theater (Some (display_tz L))
                        (fst loaded) (snd loaded)) in
  match groups with
  | [] => print "No movies found to display. Check your config or cache." ;;;
          ret None
  | _ => ret (Some (mkState groups 0 0))
  end.

(** Lines 303-306, the body of the [try] of the daily refresh. *)
Definition refresh : M loop_state :=
  run loaded := load_entries_for_today in
  run groups := lift (group_movies_by_theater (Some (display_tz L))
                        (fst loaded) (snd loaded)) in
  ret (mkState groups 0 0).

(** [a % b] on integers *)
Definition py_mod (a b : Z) : result Z :=
  if Z.eqb b 0 then Raise ZeroDivisionError else Ok (a mod b).

(** [l[i]] on a list: a negative index counts from the end. *)
Definition py_index {A} (l : list A) (i : Z) : result A :=
  let j := if Z.ltb i 0 then i + Z.of_nat (List.length l) else i in
  if Z.ltb j 0 then Raise IndexError
  else match nth_error l (Z.to_nat j) with
       | Some x => Ok x
       | None => Raise IndexError
       end.

(** Lines 317-320: the item the cursor points at. *)
Record selection : Type := mkSelection {
  theater_idx_normalized : Z;
  current_theater : list FlatMovieItem;
  movie_idx_normalized : Z;
  item : FlatMovieItem;
}.

Definition select (st : loop_state) : result selection :=
  let* ti := py_mod (theater_idx st) (Z.of_nat (List.length (theater_groups st))) in
  let* current := py_index (theater_groups st) ti in
  let* mi := py_mod (movie_idx st) (Z.of_nat (List.length current)) in
  let* it := py_index current mi in
  Ok (mkSelection ti current mi it).

(** Lines 325-330: the cursor moves on. *)
Definition advance (st : loop_state) (current : list FlatMovieItem) : loop_state :=
  let movie_idx' := movie_idx st + 1 in
  if Z.leb (Z.of_nat (List.length current)) movie_idx'
  then mkState (theater_groups st) (theater_idx st + 1) 0
  else mkState (theater_groups st) (theater_idx st) movie_idx'.

(** Lines 299-314. The result is [inl] when the iteration ends in
    [continue], [inr] when it goes on to display. *)
Definition rollover (st : loop_state) : M (loop_state + loop_state) :=
  run now := now_in_tz (Some (display_tz L)) in
  let current_date := date_str now in
  run cached := load_cached (cache_path L) in
  run stale := lift (if truthy cached
                     then let* date := py_get cached "date" in
                          Ok (negb (eq_str date current_date))
                     else Ok true) in
  if stale then
    run refreshed :=
      try_except (run st' := refresh in ret (Some st'))
                 (fun e =>
                    print (newline ++ "Error refreshing daily data: " ++ exn_text P e) ;;;
                    time_sleep (VInt 5) ;;;
                    ret None) in
    match refreshed with
    | None => ret (inl st)
    | Some st' =>
        match theater_groups st' with
        | [] =>
            print "No movies found after refresh. Retrying in 5 seconds..." ;;;
            time_sleep (VInt 5) ;;;
            ret (inl st')
        | _ => ret (inr st')
        end
    end
  else ret (inr st).

(** Lines 322-324, what the [try] of the display protects before the cursor
    moves. *)
Definition show (it : FlatMovieItem) : M unit :=
  format_single_movie_display it ;;;
  time_sleep (cycle_delay L).

(** Lines 316-334. *)
Definition display (st : loop_state) : M loop_state :=
  run sel := lift (select st) in
  try_except (show (item sel) ;;;
              ret (advance st (current_theater sel)))
             (fun e =>
                print (newline ++ "Error displaying movie: " ++ exn_text P e) ;;;
                time_sleep (VInt 5) ;;;
                ret st).

(** One iteration of [while True]. *)
Definition iteration (st : loop_state) : M loop_state :=
  run r := rollover st in
  match r with
  | inl st' => ret st'
  | inr st' => display st'
  end.

(** [n] turns of [while True]; a turn that raises or is interrupted ends
    the loop. *)
Fixpoint iterations (n : nat) (st : loop_state) : M loop_state :=
  match n with
  | O => ret st
  | S n' => run st' := iteration st in iterations n' st'
  end.

End WithPlatform.

(** The cursor alone: one cycle in which nothing raises, and [n] of them. *)
Definition cycle (st : loop_state) : result loop_state :=
  let* sel := select st in
  Ok (advance st (current_theater sel)).

Fixpoint cycles (n : nat) (st : loop_state) : result loop_state :=
  match n with
  | O => Ok st
  | S n' => let* st' := cycle st in cycles n' st'
  end.

End Engine.

(* ===================================================================== *)
(** ** Definitions used to state the properties                           *)
(* ===================================================================== *)

Module Spec.

(** The fallback chains of [normalize_showtimes], read off a dictionary's
    bindings. *)
Definition showtimes_of (d : list (string * value)) : value :=
  py_or (dict_get d "showtimes" VNone) (VList []).

Definition theater_name_of (d : list (string * value)) : value :=
  py_or (py_or (dict_get d "theater_name" VNone) (dict_get d "name" VNone))
        (VStr "Unknown Theater").

Definition address_of (d : list (string * value)) : value :=
  py_or (py_or (py_or (dict_get d "address" VNone) (dict_get d "address_line" VNone))
               (dict_get d "full_address" VNone)) (VStr "").

Definition movies_of (d : list (string * value)) : value :=
  py_or (py_or (dict_get d "movies" VNone) (dict_get d "showing" VNone)) (VList []).

Definition title_of (d : list (string * value)) : value :=
  py_or (py_or (py_or (dict_get d "title" VNone) (dict_get d "name" VNone))
               (dict_get d "film_name" VNone)) (VStr "(title unknown)").

Definition time_blocks_of (d : list (string * value)) : value :=
  py_or (py_or (py_or (dict_get d "showtimes" VNone) (dict_get d "times" VNone))
               (dict_get d "showing" VNone)) (VList []).

Definition time_of (d : list (string * value)) : value :=
  py_or (py_or (py_or (dict_get d "time" VNone) (dict_get d "start_time" VNone))
               (dict_get d "start" VNone)) (VStr "").

Definition label_of (d : list (string * value)) : value :=
  py_or (py_or (dict_get d "type" VNone) (dict_get d "format" VNone))
        (dict_get d "ticket_type" VNone).

(** The display string of one time entry, as the specification words it:
    a structured entry with a time value gives ["<time> (<type>)"] when it
    has a label and the bare time when it has none, a plain string gives
    itself, and an entry without a time value gives nothing. *)
Definition display_time (repr : value -> string) (tb : value) : option value :=
  match tb with
  | VDict d =>
      if truthy (time_of d) then
        if truthy (label_of d)
        then Some (VStr (py_str repr (time_of d) ++ " (" ++ py_str repr (label_of d) ++ ")"))
        else Some (time_of d)
      else None
  | VStr s => Some (VStr s)
  | _ => None
  end.

Fixpoint surviving_times (repr : value -> string) (tbs : list value) : list value :=
  match tbs with
  | [] => []
  | tb :: rest =>
      match display_time repr tb with
      | Some t => t :: surviving_times repr rest
      | None => surviving_times repr rest
      end
  end.





(** The item either flattening function builds for one movie. *)
Definition movie_item (tz : option tzinfo) (tl ll tn addr now movie : value)
  : result (list FlatMovieItem) :=
  let* title := (py_get movie "title" ||| Ok (VStr "(title unknown)")) in
  let* times := (py_get movie "times" ||| Ok (VList [])) in
  Ok [mkItem tl ll tn addr title times now tz].

(** The labels every item of one entry carries. *)
Definition labelled (tl tn : value) (it : FlatMovieItem) : Prop :=
  theater_label it = tl /\ theater_name it = tn.

Definition nonempty {A} (l : list A) : bool := negb (Nat.eqb (List.length l) 0).

(** A dataset entry with a label that is not empty. *)
Definition has_label (entry : value) : Prop :=
  exists d, entry = VDict d /\ truthy (dict_get d "theater_label" (VStr "")) = true.

(** The world once the clock has been read. *)
Definition after_clock_read (w : Engine.world) : Engine.world :=
  Engine.mkWorld (Engine.files w) (S (Engine.clock_reads w)) (Engine.requests w)
                 (Engine.sleeps w) (Engine.printed w).

(** The date the next reading of the clock gives. *)
Definition today (P : Engine.platform) (L : Engine.locals) (w : Engine.world) : string :=
  Engine.date_str (Engine.now_at P (Engine.clock_reads w) (Some (Engine.display_tz L))).

(** The cache document for a date and the world in which it is on disk. *)
Definition cache_document (date : string) (entries : list value) : Engine.file :=
  Engine.Json (VDict [("date", VStr date); ("entries", VList entries)]).

Definition with_file (path : string) (content : Engine.file) (w : Engine.world)
  : Engine.world :=
  Engine.mkWorld (<[path := content]> (Engine.files w)) (Engine.clock_reads w)
                 (Engine.requests w) (Engine.sleeps w) (Engine.printed w).

(** The world after the report of a display error and its backoff. *)
Definition after_backoff (P : Engine.platform) (e : exn) (w : Engine.world)
  : Engine.world :=
  Engine.mkWorld (Engine.files w) (Engine.clock_reads w) (Engine.requests w)
    (Engine.sleeps w ++ [VInt 5])
    (Engine.printed w ++
       [(Engine.newline ++ "Error displaying movie: " ++ Engine.exn_text P e)%string]).

End Spec.

(** Data the examples below are run on. *)
Module Samples.

Definition plain_repr : value -> string := fun _ => "".

Definition dune : value :=
  VDict [("title", VStr "Dune");
         ("showtimes", VList [VDict [("time", VStr "7:30 PM"); ("type", VStr "IMAX")];
                              VStr "9:45 PM";
                              VDict [("time", VStr "10:15 PM")];
                              VDict [("type", VStr "3D")]])].

Definition today_entry : list (string * value) :=
  [("theater_name", VStr "AMC Barton Creek");
   ("movies", VList [VList [dune]; VList [VDict [("title", VStr "Tomorrow")]]])].

Definition two_days : list (string * value) :=
  [("showtimes", VList [VDict today_entry; VDict [("name", VStr "next day")]])].

Definition labelled_entry : value :=
  VDict [("theater_label", VStr "Alamo");
         ("location_label", VStr "Austin");
         ("showtimes",
          VList [VDict [("theater", VStr "AMC Barton Creek");
                        ("address", VStr "");
                        ("movies", VList [VDict [("title", VStr "Dune");
                                                 ("times", VList [])]])]])].

Definition empty_entry : value :=
  VDict [("theater_label", VStr "Closed");
         ("location_label", VStr "Austin");
         ("showtimes", VList [VDict [("theater", VStr "Closed");
                                     ("address", VStr "");
                                     ("movies", VList [])]])].

Definition day : value := VStr "2024-05-01".

Definition nine_times : list value :=
  [VStr "1"; VStr "2"; VStr "3"; VStr "4"; VStr "5"; VStr "6"; VStr "7"; VStr "8";
   VStr "9"].

Definition marathon : value := VDict [("times", VList nine_times)].

(** A platform whose clock stands at noon of one day, whose API answers
    every request with [two_days], and where nobody interrupts. *)
Definition quiet : Engine.platform :=
  Engine.mkPlatform plain_repr (fun _ => "error")
    (fun _ _ => Engine.mkInstant "2024-05-01" "2024-05-01 12:00:00 UTC")
    (fun _ _ => Ok (VDict two_days))
    (fun secs => match secs with VInt _ => None | _ => Some TypeError end)
    (fun _ => false)
    eq_refl.

Definition settings : Engine.locals :=
  Engine.mkLocals (VStr "key") (VStr "en") (VStr "us")
    (VList [VDict [("name", VStr "Alamo"); ("location", VStr "Austin")]])
    (VInt 10) "showtimes_cache.json" UTC.

Definition no_cache : Engine.world := Engine.mkWorld ∅ 0 [] [] [].

Definition cache_of (date : string) : Engine.world :=
  Engine.mkWorld
    {[ "showtimes_cache.json" :=
         Engine.Json (VDict [("date", VStr date); ("entries", VList [labelled_entry])]) ]}
    0 [] [] [].

(** An item whose title is a number, as a cache file can hold it: slicing
    the title raises. *)
Definition numbered : FlatMovieItem :=
  mkItem (VStr "Alamo") (VStr "Austin") (VStr "Alamo") (VStr "") (VInt 5) (VList [])
         day (Some UTC).

Definition showing_numbered : Engine.loop_state := Engine.mkState [[numbered]] 0 0.

(** The world in which the renderer gives up on [numbered]: the header is
    printed, the title is not. *)
Definition half_rendered : Engine.world :=
  Engine.mkWorld (Engine.files (cache_of "2024-05-01")) 2 [] []
    [(Engine.escape ++ "[2J" ++ Engine.escape ++ "[H")%string;
     (Engine.newline ++ Engine.rule)%string;
     "MOVIE SHOWTIMES @ 2024-05-01 12:00:00 UTC";
     Engine.rule;
     "Location: Austin";
     "Theater: Alamo";
     Engine.rule].

(** What [fetch_all] brings back for [settings] on the [quiet] platform, and
    the world after its single request. *)
Definition fetched : list value :=
  [VDict [("theater_label", VStr "Alamo");
          ("location_label", VStr "Austin");
          ("showtimes",
           VList [VDict [("theater", VStr "AMC Barton Creek");
                         ("address", VStr "");
                         ("movies",
                          VList [VDict [("title", VStr "Dune");
                                        ("times", VList [VStr "7:30 PM (IMAX)";
                                                         VStr "9:45 PM";
                                                         VStr "10:15 PM"])]])]])]].

Definition after_fetch (w : Engine.world) : Engine.world :=
  Engine.mkWorld (Engine.files w) 1
    [Engine.mkRequest (VStr "Alamo") (VStr "Austin") (VStr "en") (VStr "us") (VStr "key")]
    [] [].

End Samples.

(* ===================================================================== *)
(** ** load_config                                                        *)
(* ===================================================================== *)

Module Config.
Import Engine.

Definition DEFAULT_CONGIG_FILE : string := "showtimes_config.json".

(** [needle in v] for a string [needle]: a key of a dictionary, an element
    of a list, a substring of a string. *)
Definition py_in (needle : string) (v : value) : result bool :=
  match v with
  | VDict d => Ok (match lookup_key d needle with Some _ => true | None => false end)
  | VList l => Ok (existsb (fun x => eq_str x needle) l)
  | VStr s => Ok (match String.index 0 needle s with Some _ => true | None => false end)
  | _ => Raise TypeError
  end.

(** [v[k]] for a string [k]: only a dictionary can be indexed by a string. *)
Definition py_item (v : value) (k : string) : result value :=
  match v with
  | VDict d => match lookup_key d k with
               | Some x => Ok x
               | None => Raise KeyError
               end
  | _ => Raise TypeError
  end.

(** Lines 22-23: [open] fails on a path that names no file, [json.load] on
    content that is not JSON (a [JSONDecodeError] is a [ValueError]). *)
Definition read_json (path : string) : M value :=
  fun w =>
    if String.eqb path "" then Raised OSError w
    else match files w !! path with
         | Some (Json data) => Done data w
         | Some Unreadable => Raised ValueError w
         | None => Raised OSError w
         end.

(** Lines 21-28. *)
Definition load_config (path : string) : M value :=
  run data := read_json path in
  run has_api_key := lift (py_in "api_key" data) in
  if negb has_api_key then raise ValueError
  else
    run has_theaters := lift (py_in "theaters" data) in
    run missing :=
      (if negb has_theaters then ret true
       else run listed := lift (py_item data "theaters") in
            ret (negb (match listed with VList _ => true | _ => false end))) in
    if missing then raise ValueError else ret data.

End Config.

(* ===================================================================== *)
(** ** format_showtime_display                                            *)
(* ===================================================================== *)

Module Table.
Import Engine Config.

(** ["-" * 100] *)
Definition dashes : string := times_char 100 "-"%char.

(** What [v[:59]] can be: a string or a list. *)
Inductive sliced : Type :=
| SlicedStr (s : string)
| SlicedList (l : list value).

(** [v[:59]] *)
Definition first_59 (v : value) : result sliced :=
  match v with
  | VStr s => Ok (SlicedStr (String.substring 0 59 s))
  | VList l => Ok (SlicedList (firstn 59 l))
  | _ => Raise TypeError
  end.

(** [s] filled with spaces on the right up to 60 characters. *)
Definition left_in_60 (s : string) : string :=
  s ++ times_char (60 - String.length s) " "%char.

(** [f"{title:<60}"] for a sliced title: a list has no such format. *)
Definition title_cell (title : sliced) : result string :=
  match title with
  | SlicedStr s => Ok (left_in_60 s)
  | SlicedList _ => Raise TypeError
  end.

(** [v[1:]] for what [v[0]] exists of. *)
Definition py_rest (v : value) : result (list value) :=
  match v with
  | VList l => Ok (tail l)
  | VStr s => Ok (tail (chars s))
  | _ => Raise TypeError
  end.

Section WithPlatform.

Variable P : platform.
Variable F : faults.

Definition print_extra_time (extra_time : value) : M unit :=
  print F (left_in_60 "" ++ " " ++ py_str (repr P) extra_time).

(** The body of [for movie in theater.get("movies", [])] (lines 118-126). *)
Definition show_movie (total : Z) (movie : value) : M Z :=
  run raw := lift (py_item movie "title") in
  run title := lift (first_59 raw) in
  run times := lift (py_get movie "times" ||| Ok (VList [])) in
  if negb (truthy times) then
    run cell := lift (title_cell title) in
    print F (cell ++ " (no times)") ;;;
    ret total
  else
    run cell := lift (title_cell title) in
    run first := lift (py_first times) in
    print F (cell ++ " " ++ py_str (repr P) first) ;;;
    run rest := lift (py_rest times) in
    for_eachM (fun _ t => print_extra_time t) rest tt ;;;
    run n := lift (py_len times) in
    ret (total + n).

(** The body of [for theater in showtimes] (lines 114-127). *)
Definition show_theater (total : Z) (theater : value) : M Z :=
  run name := lift (py_item theater "theater") in
  print F (py_str (repr P) name) ;;;
  run addr := lift (py_get theater "address") in
  (if truthy addr
   then run shown := lift (py_item theater "address") in
        print F ("  " ++ py_str (repr P) shown)
   else ret tt) ;;;
  run listed := lift (py_get_default theater "movies" (VList [])) in
  run ms := lift (py_iter listed) in
  run total' := for_eachM show_movie ms total in
  print F dashes ;;;
  ret total'.

(** Lines 94-130. *)
Definition format_showtime_display (theater_label location_label showtimes : value)
  (tz : option tzinfo) : M unit :=
  print F (escape ++ "[2J" ++ escape ++ "[H") ;;;
  print F (newline ++ rule) ;;;
  run now_time := now_in_tz P tz in
  print F ("MOVIE SHOWTIMES @ " ++ stamp now_time) ;;;
  print F rule ;;;
  print F ("Theater query: " ++ py_str (repr P) theater_label) ;;;
  print F ("Location: " ++ py_str (repr P) location_label) ;;;
  print F rule ;;;
  print F (left_in_60 "MOVIE" ++ " TIMES") ;;;
  print F dashes ;;;
  if negb (truthy showtimes) then print F "No showtimes found"
  else
    run ts := lift (py_iter showtimes) in
    run total := for_eachM show_theater ts 0 in
    print F ("Total showtime entries: " ++ pretty total) ;;;
    print F rule.

End WithPlatform.

End Table.

(* ===================================================================== *)
(** ** Definitions used to state further properties                       *)
(* ===================================================================== *)

Module Props.
Import Spec.

(** A row as [normalize_showtimes] builds it: a title that is not empty and
    at most 8 times. *)
Definition row_ok (row : value) : Prop :=
  exists t ts, row = VDict [("title", t); ("times", VList ts)] /\
               truthy t = true /\ (List.length ts <= 8)%nat.

(** A theater entry as [normalize_showtimes] builds it: a name that is not
    empty, an address that is a value or the empty string, and rows. *)
Definition theater_ok (entry : value) : Prop :=
  exists name addr rows,
    entry = VDict [("theater", name); ("address", addr); ("movies", VList rows)] /\
    truthy name = true /\ (truthy addr = true \/ addr = VStr "") /\
    Forall row_ok rows.

(** The row of one movie of the payload. *)
Definition row_of (repr : value -> string) (movie row : value) : Prop :=
  exists d tbs,
    movie = VDict d /\ py_iter (time_blocks_of d) = Ok tbs /\
    row = VDict [("title", title_of d);
                 ("times", VList (firstn 8 (surviving_times repr tbs)))].

(** A dataset entry as [fetch_all] builds it. *)
Definition built_entry (entry : value) : Prop :=
  exists tl ll normalized,
    entry = VDict [("theater_label", tl); ("location_label", ll);
                   ("showtimes", VList normalized)] /\
    truthy tl = true /\ truthy ll = true /\
    Forall theater_ok normalized /\ (List.length normalized <= 1)%nat.

(** The value under a key of a dictionary. *)
Definition field (k : string) (v : value) : value :=
  match v with
  | VDict d => dict_get d k VNone
  | _ => VNone
  end.

Definition elements (v : value) : list value :=
  match v with
  | VList l => l
  | _ => []
  end.

(** The item of one row: the labels of the entry, the address of the
    theater, the title and the times of the row as they are. *)
Definition item_of_row (tz : option tzinfo) (now entry theater row : value)
  : FlatMovieItem :=
  mkItem (field "theater_label" entry) (field "location_label" entry)
         (py_or (field "theater_label" entry) (VStr "Unknown Theater"))
         (field "address" theater) (field "title" row) (field "times" row) now tz.

Definition theater_items (tz : option tzinfo) (now entry theater : value)
  : list FlatMovieItem :=
  map (item_of_row tz now entry theater) (elements (field "movies" theater)).

Definition entry_items (tz : option tzinfo) (now entry : value) : list FlatMovieItem :=
  flat_map (theater_items tz now entry) (elements (field "showtimes" entry)).

(** What every item of a flattening run carries. *)
Definition stamped (zone : option tzinfo) (now : value) (it : FlatMovieItem) : Prop :=
  now_str it = now /\ tz it = zone /\ truthy (title it) = true /\
  (truthy (times it) = true \/ times it = VList []).

(** What [fetch_all] reads off one configured theater. *)
Definition theater_query (t : value) : value :=
  py_or (py_or (field "name" t) (field "theater" t)) (field "query" t).

Definition theater_location (t : value) : value :=
  py_or (field "location" t) (VStr "").

Definition valid_theater (t : value) : bool :=
  truthy (theater_query t) && truthy (theater_location t).

Definition request_of (api_key hl gl t : value) : Engine.request :=
  Engine.mkRequest (theater_query t) (theater_location t) hl gl api_key.

Definition skip_notice : string :=
  "Skipping malformed theater entry (needs 'name' and 'location')".

(** The number of items in the groups before the [i]-th. *)
Definition offset (groups : list (list FlatMovieItem)) (i : nat) : nat :=
  List.length (List.concat (firstn i groups)).

(** The cursor points into the groups: the theater index is not negative and
    the movie index lies within the group it selects. *)
Definition in_range (groups : list (list FlatMovieItem)) (st : Engine.loop_state)
  : Prop :=
  Engine.theater_groups st = groups /\
  0 <= Engine.theater_idx st /\
  exists g,
    nth_error groups
      (Z.to_nat (Engine.theater_idx st mod Z.of_nat (List.length groups))) = Some g /\
    0 <= Engine.movie_idx st < Z.of_nat (List.length g).

(** The place of the cursor in the concatenation of the groups. *)
Definition linear (groups : list (list FlatMovieItem)) (st : Engine.loop_state) : nat :=
  offset groups (Z.to_nat (Engine.theater_idx st mod Z.of_nat (List.length groups)))
  + Z.to_nat (Engine.movie_idx st).

(** From [w] to [w'] only requests and output were added. *)
Definition only_requests_and_output (w w' : Engine.world) : Prop :=
  Engine.files w' = Engine.files w /\
  Engine.clock_reads w' = Engine.clock_reads w /\
  Engine.sleeps w' = Engine.sleeps w /\
  (exists rs, Engine.requests w' = Engine.requests w ++ rs) /\
  (exists ps, Engine.printed w' = Engine.printed w ++ ps).

(** The world at the end of a computation, however it ends. *)
Definition world_of {A} (o : Engine.outcome A) : Engine.world :=
  match o with
  | Engine.Done _ w => w
  | Engine.Raised _ w => w
  | Engine.Interrupted w => w
  end.

(** The cache file is absent, unreadable, or holds an object that is not
    dated [date]. *)
Definition stale (path date : string) (w : Engine.world) : Prop :=
  Engine.files w !! path = None \/
  Engine.files w !! path = Some Engine.Unreadable \/
  exists d, Engine.files w !! path = Some (Engine.Json (VDict d)) /\
            eq_str (dict_get d "date" VNone) date = false.

(** The world after the report of a failed refresh and its backoff. *)
Definition after_refresh_backoff (P : Engine.platform) (e : exn) (w : Engine.world)
  : Engine.world :=
  Engine.mkWorld (Engine.files w) (Engine.clock_reads w) (Engine.requests w)
    (Engine.sleeps w ++ [VInt 5])
    (Engine.printed w ++
       [(Engine.newline ++ "Error refreshing daily data: " ++ Engine.exn_text P e)%string]).

(** The world after the notice that a refresh found no movie and its
    backoff. *)
Definition after_empty_refresh (w : Engine.world) : Engine.world :=
  Engine.mkWorld (Engine.files w) (Engine.clock_reads w) (Engine.requests w)
    (Engine.sleeps w ++ [VInt 5])
    (Engine.printed w ++ ["No movies found after refresh. Retrying in 5 seconds..."]).

(** The world after an item was shown for the cycle delay: the clock read
    twice (date check and frame), the frame printed, the delay slept. *)
Definition after_show (w : Engine.world) (delay : value) (lines : list string)
  : Engine.world :=
  Engine.mkWorld (Engine.files w) (S (S (Engine.clock_reads w))) (Engine.requests w)
                 (Engine.sleeps w ++ [delay]) (Engine.printed w ++ lines).

(** A state the display can start from: the cursor at (0,0) over groups
    that exist and have items. *)
Definition fresh_state (st : Engine.loop_state) : Prop :=
  Engine.theater_idx st = 0 /\ Engine.movie_idx st = 0 /\
  Forall (fun g : list FlatMovieItem => g <> []) (Engine.theater_groups st).

(** The world with some more lines of output. *)
Definition add_lines (w : Engine.world) (lines : list string) : Engine.world :=
  Engine.mkWorld (Engine.files w) (Engine.clock_reads w) (Engine.requests w)
                 (Engine.sleeps w) (Engine.printed w ++ lines).

(** The frame of one item: the lines [format_single_movie_display] prints
    for the title [shown] and the times [ts], with the clock at [stamp]. *)
Definition frame_lines (P : Engine.platform) (stamp : string) (it : FlatMovieItem)
  (shown : value) (ts : list value) : list string :=
  [(Engine.escape ++ "[2J" ++ Engine.escape ++ "[H")%string;
   (Engine.newline ++ Engine.rule)%string;
   ("MOVIE SHOWTIMES @ " ++ stamp)%string;
   Engine.rule;
   ("Location: " ++ py_str (Engine.repr P) (location_label it))%string;
   ("Theater: " ++ py_str (Engine.repr P)
       (py_or (py_or (theater_label it) (theater_name it)) (VStr "")))%string]
  ++ (if truthy (address it)
      then [("Address: " ++ py_str (Engine.repr P) (address it))%string]
      else [])
  ++ [Engine.rule; py_str (Engine.repr P) shown]
  ++ (if truthy (times it)
      then "Times:" :: map (fun t => ("  - " ++ py_str (Engine.repr P) t)%string) ts
      else ["Times: (none listed)"])
  ++ [Engine.rule].

(** The table of [format_showtime_display] for theaters with string titles
    and lists of times. *)
Definition table_header (P : Engine.platform) (stamp : string)
  (theater_label location_label : value) : list string :=
  [(Engine.escape ++ "[2J" ++ Engine.escape ++ "[H")%string;
   (Engine.newline ++ Engine.rule)%string;
   ("MOVIE SHOWTIMES @ " ++ stamp)%string;
   Engine.rule;
   ("Theater query: " ++ py_str (Engine.repr P) theater_label)%string;
   ("Location: " ++ py_str (Engine.repr P) location_label)%string;
   Engine.rule;
   (Table.left_in_60 "MOVIE" ++ " TIMES")%string;
   Table.dashes].

Definition title_text (row : value) : string :=
  match field "title" row with
  | VStr s => String.substring 0 59 s
  | _ => ""
  end.

Definition movie_lines (P : Engine.platform) (row : value) : list string :=
  match elements (field "times" row) with
  | [] => [(Table.left_in_60 (title_text row) ++ " (no times)")%string]
  | t :: rest =>
      (Table.left_in_60 (title_text row) ++ " " ++ py_str (Engine.repr P) t)%string
      :: map (fun x => (Table.left_in_60 "" ++ " " ++ py_str (Engine.repr P) x)%string)
             rest
  end.

Definition theater_lines (P : Engine.platform) (theater : value) : list string :=
  [py_str (Engine.repr P) (field "theater" theater)]
  ++ (if truthy (field "address" theater)
      then [("  " ++ py_str (Engine.repr P) (field "address" theater))%string]
      else [])
  ++ flat_map (movie_lines P) (elements (field "movies" theater))
  ++ [Table.dashes].

(** The number of times of a list of rows, and of a list of theaters. *)
Definition count_times (rows : list value) : Z :=
  fold_right (fun row n => Z.of_nat (List.length (elements (field "times" row))) + n)
             0 rows.

Definition count_all_times (theaters : list value) : Z :=
  fold_right (fun th n => count_times (elements (field "movies" th)) + n) 0 theaters.

(** A row with a string for a title and a list of times; a theater of such
    rows. *)
Definition listed_row (row : value) : Prop :=
  exists s ts, row = VDict [("title", VStr s); ("times", VList ts)].

Definition listed_theater (theater : value) : Prop :=
  exists name addr rows,
    theater = VDict [("theater", name); ("address", addr); ("movies", VList rows)] /\
    Forall listed_row rows.

(** The lines printed before the title is looked at. *)
Definition header_lines (P : Engine.platform) (stamp : string) (it : FlatMovieItem)
  : list string :=
  [(Engine.escape ++ "[2J" ++ Engine.escape ++ "[H")%string;
   (Engine.newline ++ Engine.rule)%string;
   ("MOVIE SHOWTIMES @ " ++ stamp)%string;
   Engine.rule;
   ("Location: " ++ py_str (Engine.repr P) (location_label it))%string;
   ("Theater: " ++ py_str (Engine.repr P)
       (py_or (py_or (theater_label it) (theater_name it)) (VStr "")))%string]
  ++ (if truthy (address it)
      then [("Address: " ++ py_str (Engine.repr P) (address it))%string]
      else [])
  ++ [Engine.rule].

(** An item the renderer can show: the title can be cut and the times
    iterated. *)
Definition renderable (it : FlatMovieItem) : Prop :=
  (exists shown,
      Engine.first_60 (py_or (title it) (VStr "(title unknown)")) = Ok shown) /\
  (exists ts, py_iter (py_or (times it) (VList [])) = Ok ts).

(** A run on one day that nothing disturbs: the clock gives the date [day]
    at every reading, [time.sleep] accepts the cycle delay, and nobody
    interrupts. *)
Definition undisturbed (P : Engine.platform) (L : Engine.locals) (day : string) : Prop :=
  (forall n, Engine.date_str (Engine.now_at P n (Some (Engine.display_tz L))) = day) /\
  Engine.sleep_rejects P (Engine.cycle_delay L) = None /\
  (forall n, Engine.interrupts P n = false).

(** The cache file holds an object dated [day]. *)
Definition cached_for (path day : string) (w : Engine.world) : Prop :=
  exists d, Engine.files w !! path = Some (Engine.Json (VDict d)) /\
            dict_get d "date" VNone = VStr day.

(** The computation was ended by a [print] that raised. *)
Definition output_failed (F : Engine.faults) {A} (o : Engine.outcome A) : Prop :=
  exists e w text,
    o = Engine.Raised e w /\ Engine.print_fails F (Engine.printed w) text = Some e.

(** [m] does what [m'] does unless a [print] raises. *)
Definition but_for_output (F : Engine.faults) {A} (m m' : Engine.M A) : Prop :=
  forall w, m w = m' w \/ output_failed F (m w).

(** However [m] ends, it has written no file, made no request and slept
    for no time; it has read the clock at most [n] times and what it
    printed was added to the output. *)
Definition output_and_clock (n : nat) {A} (m : Engine.M A) : Prop :=
  forall w,
    Engine.files (world_of (m w)) = Engine.files w /\
    Engine.requests (world_of (m w)) = Engine.requests w /\
    Engine.sleeps (world_of (m w)) = Engine.sleeps w /\
    (Engine.clock_reads w <= Engine.clock_reads (world_of (m w))
       <= Engine.clock_reads w + n)%nat /\
    (exists ps, Engine.printed (world_of (m w)) = Engine.printed w ++ ps).

End Props.

Import Props.

(** More data for the examples. *)
Module Cases.
Import Spec.

Definition three_times : value :=
  VList [VStr "7:30 PM (IMAX)"; VStr "9:45 PM"; VStr "10:15 PM"].

(** What [normalize_showtimes] makes of [Samples.two_days]. *)
Definition normalized : list value :=
  [VDict [("theater", VStr "AMC Barton Creek");
          ("address", VStr "");
          ("movies", VList [VDict [("title", VStr "Dune"); ("times", three_times)]])]].

Definition built : value :=
  VDict [("theater_label", VStr "Alamo");
         ("location_label", VStr "Austin");
         ("showtimes", VList normalized)].

Definition dune_item (zone : option tzinfo) (now : value) : FlatMovieItem :=
  mkItem (VStr "Alamo") (VStr "Austin") (VStr "Alamo") (VStr "") (VStr "Dune")
         three_times now zone.

Definition plain_item : FlatMovieItem :=
  mkItem (VStr "Alamo") (VStr "Austin") (VStr "Alamo") (VStr "") (VStr "Dune")
         (VList []) Samples.day None.

(** Two configured theaters, the second without a location. *)
Definition two_theaters : list value :=
  [VDict [("name", VStr "Alamo"); ("location", VStr "Austin")];
   VDict [("name", VStr "Nowhere")]].

Definition alamo_request : Engine.request :=
  Engine.mkRequest (VStr "Alamo") (VStr "Austin") (VStr "en") (VStr "us") (VStr "key").

(** The [quiet] platform with a search API that cannot be reached, and with
    one that answers with an error. *)
Definition unreachable : Engine.platform :=
  Engine.mkPlatform Samples.plain_repr (fun _ => "error")
    (fun _ _ => Engine.mkInstant "2024-05-01" "2024-05-01 12:00:00 UTC")
    (fun _ _ => Raise OSError)
    (fun secs => match secs with VInt _ => None | _ => Some TypeError end)
    (fun _ => false)
    eq_refl.

(** The [quiet] platform with a search API that knows no showtimes. *)
Definition nothing_on : Engine.platform :=
  Engine.mkPlatform Samples.plain_repr (fun _ => "error")
    (fun _ _ => Engine.mkInstant "2024-05-01" "2024-05-01 12:00:00 UTC")
    (fun _ _ => Ok (VDict [("search_metadata", VDict [])]))
    (fun secs => match secs with VInt _ => None | _ => Some TypeError end)
    (fun _ => false)
    eq_refl.

(** What [fetch_all] returns on it, and the world after the refresh. *)
Definition nothing_fetched : list value :=
  [VDict [("theater_label", VStr "Alamo"); ("location_label", VStr "Austin");
          ("showtimes", VList [])]].


(** The world after [n] readings of the clock and the one request. *)
Definition requested (n : nat) (w : Engine.world) : Engine.world :=
  Engine.mkWorld (Engine.files w) n [alamo_request] [] [].

(** The world after a refresh that fetched and wrote the cache. *)
Definition refreshed (w : Engine.world) : Engine.world :=
  with_file "showtimes_cache.json" (cache_document "2024-05-01" Samples.fetched)
            (requested 2 w).

Definition nothing_refreshed (w : Engine.world) : Engine.world :=
  with_file "showtimes_cache.json" (cache_document "2024-05-01" nothing_fetched)
            (requested 2 w).

Definition showing_dune : Engine.loop_state :=
  Engine.mkState [[dune_item (Some UTC) (VStr "2024-05-01")]] 0 0.

(** A cache file that holds an array. *)
Definition array_cache : Engine.world :=
  Engine.mkWorld {[ "showtimes_cache.json" := Engine.Json (VList [VInt 1]) ]} 0 [] [] [].

(** A terminal that is closed once [n] lines are out; a cache path that
    cannot be opened for writing; a disk that is full. *)
Definition closed_after (n : nat) : Engine.faults :=
  Engine.mkFaults
    (fun out _ => if Nat.leb n (List.length out) then Some OSError else None)
    (fun _ _ => None).

Definition read_only : Engine.faults :=
  Engine.mkFaults (fun _ _ => None) (fun _ _ => Some (Engine.OpenFails OSError)).

Definition full_disk : Engine.faults :=
  Engine.mkFaults (fun _ _ => None) (fun _ _ => Some (Engine.DumpFails OSError)).

(** A configuration file. *)
Definition configuration : list (string * value) :=
  [("api_key", VStr "key"); ("theaters", VList two_theaters)].

Definition configured : Engine.world :=
  Engine.mkWorld {[ "showtimes_config.json" := Engine.Json (VDict configuration) ]}
                 0 [] [] [].

End Cases.

Import Spec.

(* ===================================================================== *)
(** ** Properties of the Python fragment                                  *)
(* ===================================================================== *)

Lemma bind_ok {A B} (m : result A) (k : A -> result B) (b : B) :
  bind m k = Ok b -> exists a, m = Ok a /\ k a = Ok b.
Proof. destruct m as [a|e]; simpl; intros H; [eauto | discriminate]. Qed.

Lemma or_else_values (a b : value) : (Ok a ||| Ok b) = Ok (py_or a b).
Proof. unfold or_else, py_or; simpl. now destruct (truthy a). Qed.

Lemma py_get_dict d k : py_get (VDict d) k = Ok (dict_get d k VNone).
Proof. reflexivity. Qed.

Lemma py_get_returns v k : returns (py_get v k) = true -> exists d, v = VDict d.
Proof. destruct v as [| | | | | |d]; simpl; try discriminate. eauto. Qed.

Lemma or_else_get_raises v k (b : result value) :
  (forall d, v <> VDict d) -> (py_get v k ||| b) = Raise AttributeError.
Proof. intros H. destruct v as [| | | | | |d]; try reflexivity. now destruct (H d). Qed.

Lemma py_or_truthy a b : truthy b = true -> truthy (py_or a b) = true.
Proof. unfold py_or. intros Hb. now destruct (truthy a) eqn:Ha. Qed.

Lemma py_or_falsy a b : truthy (py_or a b) = false -> py_or a b = b.
Proof. unfold py_or. destruct (truthy a) eqn:Ha; [congruence | reflexivity]. Qed.

Lemma for_each_snoc {A S} (body : S -> A -> result S) xs x acc :
  for_each body (xs ++ [x]) acc = bind (for_each body xs acc) (fun s => body s x).
Proof.
  revert acc. induction xs as [|y ys IH]; intros acc; simpl.
  - now destruct (body acc x).
  - destruct (body acc y); simpl; [apply IH | reflexivity].
Qed.

(** Evaluate the lookups and fallback chains on a dictionary. *)
Ltac py_chain := repeat (rewrite py_get_dict || rewrite or_else_values).

(* ===================================================================== *)
(** ** Properties of normalize_showtimes                                  *)
(* ===================================================================== *)

Section NormalizerFacts.

Variable repr : value -> string.

Lemma time_block_display times tb :
  time_block repr times tb =
  times ++ match display_time repr tb with Some t => [t] | None => [] end.
Proof.
  destruct tb as [|b|z|f|s|l|d]; simpl; try reflexivity; try (now rewrite app_nil_r).
  fold (time_of d) (label_of d).
  destruct (truthy (time_of d)); [|now rewrite app_nil_r].
  now destruct (truthy (label_of d)).
Qed.

Lemma fold_time_block tbs times :
  fold_left (time_block repr) tbs times = times ++ surviving_times repr tbs.
Proof.
  revert times. induction tbs as [|tb rest IH]; intros times; simpl.
  - now rewrite app_nil_r.
  - rewrite IH, time_block_display.
    destruct (display_time repr tb); simpl.
    + now rewrite <- app_assoc.
    + now rewrite app_nil_r.
Qed.

Lemma movie_row_dict rows d :
  movie_row repr rows (VDict d) =
  let* tbs := py_iter (time_blocks_of d) in
  Ok (rows ++ [VDict [("title", title_of d);
                      ("times", VList (firstn 8 (surviving_times repr tbs)))]]).
Proof.
  unfold movie_row. py_chain. simpl bind.
  fold (title_of d) (time_blocks_of d).
  destruct (py_iter (time_blocks_of d)) as [tbs|e]; simpl; [|reflexivity].
  now rewrite fold_time_block.
Qed.

Lemma movie_row_not_dict rows movie :
  (forall d, movie <> VDict d) -> movie_row repr rows movie = Raise AttributeError.
Proof. intros H. destruct movie as [| | | | | |d]; try reflexivity. now destruct (H d). Qed.



Lemma movie_rows_length ms rows l :
  for_each (movie_row repr) ms rows = Ok l ->
  List.length l = (List.length rows + List.length ms)%nat.
Proof.
  revert rows. induction ms as [|m rest IH]; intros rows; simpl.
  - intros [= <-]. lia.
  - intros H. apply bind_ok in H as (rows' & Hrow & Hrest).
    apply IH in Hrest. rewrite Hrest.
    destruct m as [|b|z|f|s|l'|d]; try discriminate.
    rewrite movie_row_dict in Hrow.
    apply bind_ok in Hrow as (tbs & _ & [= <-]).
    rewrite length_app. simpl. lia.
Qed.

Lemma normalize_entry_dict normalized d :
  normalize_entry repr normalized (VDict d) =
  let* ms := py_iter (todays_movies (movies_of d)) in
  let* movie_rows := for_each (movie_row repr) ms [] in
  Ok (normalized ++ [VDict [("theater", theater_name_of d);
                            ("address", address_of d);
                            ("movies", VList movie_rows)]]).
Proof. unfold normalize_entry. py_chain. reflexivity. Qed.

Lemma chars_nonempty s : s <> "" -> exists c rest, chars s = VStr c :: rest.
Proof. destruct s as [|a s']; [congruence | simpl; eauto]. Qed.

(** A fallback chain that ends in the empty list is truthy or that list. *)
Lemma or_empty_list_cases a :
  truthy (py_or a (VList [])) = true \/ py_or a (VList []) = VList [].
Proof. unfold py_or. destruct (truthy a) eqn:Ha; [left | right]; auto. Qed.



Lemma normalize_entries_length es normalized l :
  for_each (normalize_entry repr) es normalized = Ok l ->
  List.length l = (List.length normalized + List.length es)%nat.
Proof.
  revert normalized. induction es as [|e rest IH]; intros normalized; simpl.
  - intros [= <-]. lia.
  - intros H. apply bind_ok in H as (n' & Hent & Hrest).
    apply IH in Hrest. rewrite Hrest.
    destruct e as [|b|z|f|s|l'|d]; try discriminate.
    rewrite normalize_entry_dict in Hent.
    apply bind_ok in Hent as (ms & _ & Hent).
    apply bind_ok in Hent as (rows & _ & [= <-]).
    rewrite length_app. simpl. lia.
Qed.

Lemma normalize_showtimes_dict d :
  normalize_showtimes repr (VDict d) =
  let* theaters := first_theater (showtimes_of d) in
  let* es := py_iter theaters in
  for_each (normalize_entry repr) es [].
Proof. unfold normalize_showtimes. py_chain. reflexivity. Qed.

(** What is left of the theaters after lines 54-55. *)
Lemma first_theater_cases theaters r :
  first_theater theaters = Ok r ->
  (truthy theaters = false /\ r = theaters) \/
  (exists x, py_first theaters = Ok x /\ r = VList [x]).
Proof.
  unfold first_theater. destruct (truthy theaters) eqn:Ht; [|intros [= <-]; auto].
  intros H. apply bind_ok in H as (n & Hn & H).
  destruct (Z.ltb 0 n) eqn:Hlt.
  - apply bind_ok in H as (x & Hx & [= <-]). eauto.
  - injection H as <-. exfalso.
    apply Z.ltb_ge in Hlt.
    destruct theaters as [|b|z|f|s|l|dd]; simpl in *; try discriminate;
      injection Hn as <-.
    + destruct s; [discriminate | simpl in Hlt; lia].
    + destruct l; [discriminate | simpl in Hlt; lia].
    + destruct dd; [discriminate | simpl in Hlt; lia].
Qed.

Lemma first_theater_list entry rest :
  first_theater (VList (entry :: rest)) = Ok (VList [entry]).
Proof.
  unfold first_theater. simpl.
  destruct (Z.ltb 0 (Z.pos (Pos.of_succ_nat (List.length rest)))) eqn:H;
    [reflexivity | apply Z.ltb_ge in H; lia].
Qed.

End NormalizerFacts.

Section NormalizerClaims.

Variable repr : value -> string.

(** C4. [normalize_showtimes] looks at the first entry of the payload's
    [showtimes] list only: the result is the one of the payload that holds
    just that entry. When the entry's movie list is a list of lists, the
    rows are those of the first sublist: the result is determined by the
    entry's name, its address and that sublist, whatever follows them. *)
Theorem normalize_today_only :
  (forall d entry rest,
      dict_get d "showtimes" VNone = VList (entry :: rest) ->
      normalize_showtimes repr (VDict d) =
      normalize_showtimes repr (VDict [("showtimes", VList [entry])]))
  /\
  (forall d e first more rest,
      dict_get d "showtimes" VNone = VList (VDict e :: rest) ->
      movies_of e = VList (VList first :: more) ->
      normalize_showtimes repr (VDict d) =
      let* rows := for_each (movie_row repr) first [] in
      Ok [VDict [("theater", theater_name_of e);
                 ("address", address_of e);
                 ("movies", VList rows)]]).
Proof.
  split.
  - intros d entry rest Hd.
    rewrite !normalize_showtimes_dict. unfold showtimes_of at 1. rewrite Hd.
    change (py_or (VList (entry :: rest)) (VList [])) with (VList (entry :: rest)).
    change (showtimes_of [("showtimes", VList [entry])]) with (VList [entry]).
    now rewrite !first_theater_list.
  - intros d e first more rest Hd He.
    rewrite normalize_showtimes_dict. unfold showtimes_of. rewrite Hd.
    change (py_or (VList (VDict e :: rest)) (VList [])) with (VList (VDict e :: rest)).
    rewrite first_theater_list.
    simpl. rewrite normalize_entry_dict, He. simpl.
    now destruct (for_each (movie_row repr) first []).
Qed.

(** C5. In the loop over a movie's time entries, a structured entry with a
    time value and a label appends ["<time> (<type>)"], one with a time
    value and no label appends the bare time, a plain string is appended
    unchanged, a structured entry without a time value appends nothing;
    the row keeps the first 8 of the entries that survive, all of them
    when they are fewer. *)
Theorem normalize_times_composed :
  (forall times d,
      truthy (time_of d) = true -> truthy (label_of d) = true ->
      time_block repr times (VDict d) =
      times ++ [VStr (py_str repr (time_of d) ++ " (" ++ py_str repr (label_of d) ++ ")")])
  /\
  (forall times d,
      truthy (time_of d) = true -> truthy (label_of d) = false ->
      time_block repr times (VDict d) = times ++ [time_of d])
  /\
  (forall times s, time_block repr times (VStr s) = times ++ [VStr s])
  /\
  (forall times d,
      truthy (time_of d) = false -> time_block repr times (VDict d) = times)
  /\
  (forall rows d tbs,
      py_iter (time_blocks_of d) = Ok tbs ->
      movie_row repr rows (VDict d) =
      Ok (rows ++ [VDict [("title", title_of d);
                          ("times", VList (firstn 8 (surviving_times repr tbs)))]])
      /\ List.length (firstn 8 (surviving_times repr tbs)) =
         Nat.min 8 (List.length (surviving_times repr tbs))
      /\ ((List.length (surviving_times repr tbs) <= 8)%nat ->
          firstn 8 (surviving_times repr tbs) = surviving_times repr tbs)).
Proof.
  repeat split.
  - intros times d Ht Hl. rewrite time_block_display. simpl. now rewrite Ht, Hl.
  - intros times d Ht Hl. rewrite time_block_display. simpl. now rewrite Ht, Hl.
  - intros times d Ht. rewrite time_block_display. simpl.
    rewrite Ht. apply app_nil_r.
  - rewrite movie_row_dict, H. reflexivity.
  - apply length_firstn.
  - intros Hle. now apply firstn_all2.
Qed.


(** C10. The list [normalize_showtimes] returns has at most one entry. *)
Theorem normalize_at_most_one payload l :
  normalize_showtimes repr payload = Ok l -> (List.length l <= 1)%nat.
Proof.
  intros H. destruct payload as [|b|z|f|s|l0|d]; try discriminate.
  rewrite normalize_showtimes_dict in H.
  apply bind_ok in H as (theaters & Hfirst & H).
  apply bind_ok in H as (es & Hes & H).
  apply normalize_entries_length in H. rewrite H. simpl.
  apply first_theater_cases in Hfirst as [[Hf ->] | (x & _ & ->)].
  - destruct (or_empty_list_cases (dict_get d "showtimes" VNone)) as [Ht | He];
      fold (showtimes_of d) in *; [congruence|].
    rewrite He in Hes. injection Hes as <-. simpl. lia.
  - injection Hes as <-. simpl. lia.
Qed.

End NormalizerClaims.


(* ===================================================================== *)
(** ** Properties of the two flattening functions                         *)
(* ===================================================================== *)

(** A loop whose body only appends to its accumulator can be run from the
    empty list and its result appended afterwards. *)
Lemma for_each_append {A B} (body : list B -> A -> result (list B))
      (g : A -> result (list B)) :
  (forall acc x, body acc x = bind (g x) (fun ys => Ok (acc ++ ys))) ->
  forall xs acc,
    for_each body xs acc = bind (for_each body xs []) (fun r => Ok (acc ++ r)).
Proof.
  intros Hbody. induction xs as [|x rest IH]; intros acc; simpl.
  - now rewrite app_nil_r.
  - rewrite (Hbody acc x), (Hbody [] x).
    destruct (g x) as [ys|e]; simpl; [|reflexivity].
    rewrite (IH (acc ++ ys)), (IH ys).
    destruct (for_each body rest []) as [r|e]; simpl; [|reflexivity].
    now rewrite app_assoc.
Qed.

Section FlattenerFacts.

Variable tz : option tzinfo.

Lemma flatten_movie_appends tl ll tn addr now acc movie :
  flatten_movie tz tl ll tn addr now acc movie =
  bind (movie_item tz tl ll tn addr now movie) (fun ys => Ok (acc ++ ys)).
Proof.
  unfold flatten_movie, movie_item.
  destruct (py_get movie "title" ||| _) as [t|e]; simpl; [|reflexivity].
  now destruct (py_get movie "times" ||| _).
Qed.

Lemma group_movie_is_flatten_movie tl ll tn addr now :
  group_movie tz tl ll tn addr now = flatten_movie tz tl ll tn addr now.
Proof. reflexivity. Qed.

Lemma group_theater_is_flatten_theater tl ll now :
  group_theater tz tl ll now = flatten_theater tz tl ll now.
Proof. reflexivity. Qed.

Lemma flatten_theater_appends tl ll now acc theater :
  flatten_theater tz tl ll now acc theater =
  bind (flatten_theater tz tl ll now [] theater) (fun ys => Ok (acc ++ ys)).
Proof.
  unfold flatten_theater.
  destruct (py_get theater "address" ||| _) as [addr|e]; simpl; [|reflexivity].
  destruct (py_get_default theater "movies" _) as [listed|e]; simpl; [|reflexivity].
  destruct (py_iter listed) as [ms|e]; simpl; [|reflexivity].
  apply for_each_append
    with (g := movie_item tz tl ll (py_or tl (VStr "Unknown Theater")) addr now).
  apply flatten_movie_appends.
Qed.

Lemma flatten_entry_appends now acc entry :
  flatten_entry tz now acc entry =
  bind (group_entry_movies tz now entry) (fun ys => Ok (acc ++ ys)).
Proof.
  unfold flatten_entry, group_entry_movies.
  destruct (py_get_default entry "theater_label" _) as [tl|e]; simpl; [|reflexivity].
  destruct (py_get_default entry "location_label" _) as [ll|e]; simpl; [|reflexivity].
  destruct (py_get_default entry "showtimes" _) as [sh|e]; simpl; [|reflexivity].
  destruct (py_iter sh) as [ts|e]; simpl; [|reflexivity].
  change (group_theater tz tl ll now) with (flatten_theater tz tl ll now).
  apply for_each_append with (g := flatten_theater tz tl ll now []).
  apply flatten_theater_appends.
Qed.

Lemma flatten_entries_concat now es groups :
  for_each (flatten_entry tz now) es (List.concat groups) =
  fmap_result (@List.concat _) (for_each (group_entry tz now) es groups).
Proof.
  revert groups. induction es as [|entry rest IH]; intros groups; simpl.
  - reflexivity.
  - rewrite flatten_entry_appends. unfold group_entry at 1.
    destruct (group_entry_movies tz now entry) as [ms|e]; simpl; [|reflexivity].
    destruct ms as [|m ms'].
    + rewrite app_nil_r. apply IH.
    + simpl. rewrite <- IH, concat_app. simpl. now rewrite app_nil_r.
Qed.

End FlattenerFacts.

Section FlattenerClaims.

Variable tz : option tzinfo.

Lemma group_movies_labelled tl ll tn addr now ms acc r :
  for_each (group_movie tz tl ll tn addr now) ms acc = Ok r ->
  Forall (labelled tl tn) acc -> Forall (labelled tl tn) r.
Proof.
  revert acc. induction ms as [|m rest IH]; intros acc; simpl.
  - now intros [= <-].
  - intros H Hacc. apply bind_ok in H as (acc' & Hm & Hrest).
    apply (IH acc' Hrest).
    unfold group_movie in Hm.
    apply bind_ok in Hm as (t & _ & Hm). apply bind_ok in Hm as (ts & _ & [= <-]).
    apply Forall_app; split; [assumption|].
    constructor; [split; reflexivity | constructor].
Qed.

Lemma group_theaters_labelled tl ll now ts acc r :
  for_each (group_theater tz tl ll now) ts acc = Ok r ->
  Forall (labelled tl (py_or tl (VStr "Unknown Theater"))) acc ->
  Forall (labelled tl (py_or tl (VStr "Unknown Theater"))) r.
Proof.
  revert acc. induction ts as [|t rest IH]; intros acc; simpl.
  - now intros [= <-].
  - intros H Hacc. apply bind_ok in H as (acc' & Ht & Hrest).
    apply (IH acc' Hrest).
    unfold group_theater in Ht.
    apply bind_ok in Ht as (addr & _ & Ht).
    apply bind_ok in Ht as (listed & _ & Ht).
    apply bind_ok in Ht as (ms & _ & Ht).
    eapply group_movies_labelled; eauto.
Qed.

Lemma group_entry_labelled now entry items :
  group_entry_movies tz now entry = Ok items ->
  exists d, entry = VDict d /\
            Forall (labelled (dict_get d "theater_label" (VStr ""))
                             (py_or (dict_get d "theater_label" (VStr ""))
                                    (VStr "Unknown Theater"))) items.
Proof.
  intros H. destruct entry as [|b|z|f|s|l|d]; try discriminate.
  exists d. split; [reflexivity|].
  unfold group_entry_movies in H. simpl in H.
  apply bind_ok in H as (ts & _ & H).
  eapply group_theaters_labelled; eauto.
Qed.

(** For an entry with a label, as [fetch_all] builds them, the name shown
    is the label. *)
Lemma labelled_entry_named now entry items :
  has_label entry ->
  group_entry_movies tz now entry = Ok items ->
  Forall (fun it => theater_name it = theater_label it) items.
Proof.
  intros (d & -> & Hd) H.
  apply group_entry_labelled in H as (d' & [= <-] & Hall).
  eapply Forall_impl; [exact Hall|].
  intros it [Hl Hn]. rewrite Hn, Hl. unfold py_or. now rewrite Hd.
Qed.

(** The groups are the movie lists of the entries, in order, without the
    empty ones. *)
Lemma group_entries_filter now es groups r :
  for_each (group_entry tz now) es groups = Ok r ->
  exists per_entry,
    Forall2 (fun entry ms => group_entry_movies tz now entry = Ok ms) es per_entry
    /\ r = groups ++ List.filter nonempty per_entry.
Proof.
  revert groups. induction es as [|entry rest IH]; intros groups; simpl.
  - intros [= <-]. exists []. split; [constructor | now rewrite app_nil_r].
  - intros H. apply bind_ok in H as (groups' & Hentry & Hrest).
    unfold group_entry in Hentry.
    apply bind_ok in Hentry as (ms & Hms & Hentry).
    destruct (IH _ Hrest) as (per & Hper & ->).
    exists (ms :: per). split; [now constructor|].
    destruct ms as [|m ms']; injection Hentry as <-; simpl.
    + reflexivity.
    + now rewrite <- app_assoc.
Qed.

Lemma filter_nonempty {A} (l : list (list A)) :
  Forall (fun g => (1 <= List.length g)%nat) (List.filter nonempty l).
Proof.
  induction l as [|g rest IH]; simpl; [constructor|].
  destruct g as [|x g']; simpl; [assumption|].
  constructor; [simpl; lia | assumption].
Qed.

(** Every item flattened from an entry carries the entry's label, and its
    [theater_name] is that label when the label is not empty and
    ["Unknown Theater"] when it is; the name the payload gave the theater
    plays no part. The same holds on both flattening paths. *)
Lemma item_names_from_label now entry items :
  group_entry_movies tz now entry = Ok items \/
  flatten_entry tz now [] entry = Ok items ->
  exists d, entry = VDict d /\
    forall it, In it items ->
      theater_label it = dict_get d "theater_label" (VStr "") /\
      theater_name it = (if truthy (theater_label it) then theater_label it
                         else VStr "Unknown Theater").
Proof.
  intros H.
  assert (Hg : group_entry_movies tz now entry = Ok items).
  { destruct H as [H|H]; [assumption|].
    rewrite flatten_entry_appends in H.
    now destruct (group_entry_movies tz now entry). }
  apply group_entry_labelled in Hg as (d & -> & Hall).
  exists d. split; [reflexivity|].
  intros it Hin. rewrite Forall_forall in Hall.
  destruct (Hall it) as [Hl Hn]; [now apply list_elem_of_In|].
  split; [assumption|]. now rewrite Hn, Hl.
Qed.

(** C8. The groups are the movie lists of the entries, in the order of the
    entries, with the empty lists left out: every group has a movie. *)
Theorem groups_have_movies entries now groups :
  group_movies_by_theater tz entries now = Ok groups ->
  Forall (fun g => (1 <= List.length g)%nat) groups /\
  exists es per_entry,
    py_iter entries = Ok es /\
    Forall2 (fun entry ms => group_entry_movies tz now entry = Ok ms) es per_entry /\
    groups = List.filter nonempty per_entry.
Proof.
  intros H. unfold group_movies_by_theater in H.
  apply bind_ok in H as (es & Hes & H).
  apply group_entries_filter in H as (per & Hper & ->). simpl.
  split; [apply filter_nonempty|]. eauto.
Qed.

(** C9. [flatten_movies] returns the concatenation of the groups of
    [group_movies_by_theater], and raises what it raises. *)
Theorem flatten_is_concat_of_groups entries now :
  flatten_movies tz entries now =
  fmap_result (@List.concat _) (group_movies_by_theater tz entries now).
Proof.
  unfold flatten_movies, group_movies_by_theater.
  destruct (py_iter entries) as [es|e]; simpl; [|reflexivity].
  apply (flatten_entries_concat tz now es []).
Qed.

End FlattenerClaims.

(** *** The claims above on sample data *)

Lemma normalize_today_only_witness :
  normalize_showtimes Samples.plain_repr (VDict Samples.two_days) =
  normalize_showtimes Samples.plain_repr
    (VDict [("showtimes", VList [VDict Samples.today_entry])])
  /\
  normalize_showtimes Samples.plain_repr (VDict Samples.two_days) =
  Ok [VDict [("theater", VStr "AMC Barton Creek");
             ("address", VStr "");
             ("movies",
              VList [VDict [("title", VStr "Dune");
                            ("times", VList [VStr "7:30 PM (IMAX)";
                                             VStr "9:45 PM";
                                             VStr "10:15 PM"])]])]].
Proof.
  split.
  - exact (proj1 (normalize_today_only Samples.plain_repr)
             Samples.two_days (VDict Samples.today_entry)
             [VDict [("name", VStr "next day")]] eq_refl).
  - exact (proj2 (normalize_today_only Samples.plain_repr)
             Samples.two_days Samples.today_entry [Samples.dune]
             [VList [VDict [("title", VStr "Tomorrow")]]]
             [VDict [("name", VStr "next day")]] eq_refl eq_refl).
Defined.

Lemma normalize_times_composed_witness :
  time_block Samples.plain_repr []
    (VDict [("time", VStr "7:30 PM"); ("type", VStr "IMAX")]) = [VStr "7:30 PM (IMAX)"]
  /\ time_block Samples.plain_repr [] (VDict [("time", VStr "10:15 PM")]) = [VStr "10:15 PM"]
  /\ time_block Samples.plain_repr [] (VDict [("type", VStr "3D")]) = []
  /\ movie_row Samples.plain_repr [] Samples.marathon =
     Ok [VDict [("title", VStr "(title unknown)");
                ("times", VList [VStr "1"; VStr "2"; VStr "3"; VStr "4";
                                 VStr "5"; VStr "6"; VStr "7"; VStr "8"])]].
Proof.
  destruct (normalize_times_composed Samples.plain_repr) as (H1 & H2 & _ & H4 & H5).
  split; [|split; [|split]].
  - exact (H1 [] [("time", VStr "7:30 PM"); ("type", VStr "IMAX")] eq_refl eq_refl).
  - exact (H2 [] [("time", VStr "10:15 PM")] eq_refl eq_refl).
  - exact (H4 [] [("type", VStr "3D")] eq_refl).
  - exact (proj1 (H5 [] [("times", VList Samples.nine_times)] Samples.nine_times eq_refl)).
Defined.

Lemma normalize_at_most_one_witness :
  exists l, normalize_showtimes Samples.plain_repr (VDict Samples.two_days) = Ok l
            /\ (List.length l <= 1)%nat.
Proof.
  eexists. split; [reflexivity|].
  exact (normalize_at_most_one Samples.plain_repr (VDict Samples.two_days) _ eq_refl).
Defined.

Lemma groups_have_movies_witness :
  Forall (fun g => (1 <= List.length g)%nat)
    [[mkItem (VStr "Alamo") (VStr "Austin") (VStr "Alamo") (VStr "")
             (VStr "Dune") (VList []) Samples.day None]]
  /\ exists es per_entry,
    py_iter (VList [Samples.empty_entry; Samples.labelled_entry]) = Ok es /\
    Forall2 (fun entry ms => group_entry_movies None Samples.day entry = Ok ms)
            es per_entry /\
    [[mkItem (VStr "Alamo") (VStr "Austin") (VStr "Alamo") (VStr "")
             (VStr "Dune") (VList []) Samples.day None]]
    = List.filter nonempty per_entry.
Proof.
  exact (groups_have_movies None
           (VList [Samples.empty_entry; Samples.labelled_entry]) Samples.day _ eq_refl).
Defined.

(* ===================================================================== *)
(** ** Properties of the rotation cursor                                  *)
(* ===================================================================== *)

Module CursorFacts.
Import Engine.

Lemma cycles_add n m st :
  cycles (n + m) st = bind (cycles n st) (cycles m).
Proof.
  revert st. induction n as [|n IH]; intros st; simpl; [reflexivity|].
  destruct (cycle st) as [st'|e]; simpl; [apply IH | reflexivity].
Qed.

Lemma py_mod_positive x n : 0 < n -> py_mod x n = Ok (x mod n).
Proof.
  intros Hn. unfold py_mod.
  destruct (Z.eqb n 0) eqn:H; [apply Z.eqb_eq in H; lia | reflexivity].
Qed.

Lemma py_index_in_range {A} (l : list A) i x :
  0 <= i -> nth_error l (Z.to_nat i) = Some x -> py_index l i = Ok x.
Proof.
  intros Hi Hx. unfold py_index.
  destruct (Z.ltb i 0) eqn:H; [apply Z.ltb_lt in H; lia|].
  now rewrite H, Hx.
Qed.

(** The selection, when both lists are long enough. *)
Lemma select_at groups t m current x :
  (0 < List.length groups)%nat ->
  nth_error groups (Z.to_nat (t mod Z.of_nat (List.length groups))) = Some current ->
  (0 < List.length current)%nat ->
  nth_error current (Z.to_nat (m mod Z.of_nat (List.length current))) = Some x ->
  select (mkState groups t m) =
  Ok (mkSelection (t mod Z.of_nat (List.length groups)) current
                  (m mod Z.of_nat (List.length current)) x).
Proof.
  intros Hg Hcur Hc Hx. unfold select. simpl.
  rewrite py_mod_positive by lia. simpl.
  rewrite (py_index_in_range groups _ current); [|apply Z.mod_pos_bound; lia | exact Hcur].
  simpl. rewrite py_mod_positive by lia. simpl.
  rewrite (py_index_in_range current _ x); [|apply Z.mod_pos_bound; lia | exact Hx].
  reflexivity.
Qed.

Section TwoAndThree.

Variables a b c d e : FlatMovieItem.

Let groups : list (list FlatMovieItem) := [[a; b]; [c; d; e]].

Lemma even_round k : (2 * k) mod 2 = 0.
Proof. rewrite Z.mul_comm. apply Z_mod_mult. Qed.

Lemma odd_round k : (2 * k + 1) mod 2 = 1.
Proof. rewrite Z.add_comm, Z.mul_comm, Z_mod_plus_full. reflexivity. Qed.

Lemma select_first_group k m x :
  nth_error [a; b] (Z.to_nat (m mod 2)) = Some x ->
  select (mkState groups (2 * k) m) = Ok (mkSelection 0 [a; b] (m mod 2) x).
Proof.
  intros Hx.
  rewrite (select_at groups (2 * k) m [a; b] x); simpl; try lia.
  - now rewrite even_round.
  - now rewrite even_round.
  - exact Hx.
Qed.

Lemma select_second_group k m x :
  nth_error [c; d; e] (Z.to_nat (m mod 3)) = Some x ->
  select (mkState groups (2 * k + 1) m) = Ok (mkSelection 1 [c; d; e] (m mod 3) x).
Proof.
  intros Hx.
  rewrite (select_at groups (2 * k + 1) m [c; d; e] x); simpl; try lia.
  - now rewrite odd_round.
  - now rewrite odd_round.
  - exact Hx.
Qed.

Lemma cycle_a k : cycle (mkState groups (2 * k) 0) = Ok (mkState groups (2 * k) 1).
Proof. unfold cycle. now rewrite (select_first_group k 0 a eq_refl). Qed.

Lemma cycle_b k : cycle (mkState groups (2 * k) 1) = Ok (mkState groups (2 * k + 1) 0).
Proof. unfold cycle. now rewrite (select_first_group k 1 b eq_refl). Qed.

Lemma cycle_c k : cycle (mkState groups (2 * k + 1) 0) = Ok (mkState groups (2 * k + 1) 1).
Proof. unfold cycle. now rewrite (select_second_group k 0 c eq_refl). Qed.

Lemma cycle_d k : cycle (mkState groups (2 * k + 1) 1) = Ok (mkState groups (2 * k + 1) 2).
Proof. unfold cycle. now rewrite (select_second_group k 1 d eq_refl). Qed.

Lemma cycle_e k :
  cycle (mkState groups (2 * k + 1) 2) = Ok (mkState groups (2 * k + 1 + 1) 0).
Proof. unfold cycle. now rewrite (select_second_group k 2 e eq_refl). Qed.

(** Five cycles from the first item of the first group lead back to it. *)
Lemma one_round k :
  cycles 5 (mkState groups (2 * k) 0) = Ok (mkState groups (2 * (k + 1)) 0).
Proof.
  cbn [cycles]. rewrite cycle_a. cbn [bind]. rewrite cycle_b. cbn [bind].
  rewrite cycle_c. cbn [bind]. rewrite cycle_d. cbn [bind]. rewrite cycle_e.
  cbn [bind]. do 2 f_equal. lia.
Qed.

Lemma rounds q :
  cycles (5 * q) (mkState groups 0 0) = Ok (mkState groups (2 * Z.of_nat q) 0).
Proof.
  induction q as [|q IH]; [reflexivity|].
  replace (5 * S q)%nat with (5 * q + 5)%nat by lia.
  rewrite cycles_add, IH. cbn [bind]. rewrite one_round.
  do 2 f_equal. lia.
Qed.

(** With groups of sizes 2 and 3, [n] cycles of the cursor from (0,0) lead
    to the [n mod 5]-th of: group 0 item 0, group 0 item 1, group 1 item 0,
    group 1 item 1, group 1 item 2. *)
Lemma cycles_two_three (n : nat) :
  exists st sel,
    cycles n (mkState [[a; b]; [c; d; e]] 0 0) = Ok st /\
    select st = Ok sel /\
    (theater_idx_normalized sel, movie_idx_normalized sel) =
      nth (n mod 5)%nat [(0, 0); (0, 1); (1, 0); (1, 1); (1, 2)] (0, 0) /\
    item sel = nth (n mod 5)%nat [a; b; c; d; e] a.
Proof.
  fold groups.
  pose proof (Nat.div_mod_eq n 5) as Hn.
  pose proof (Nat.mod_upper_bound n 5 ltac:(lia)) as Hr.
  set (q := (n / 5)%nat) in *. set (r := (n mod 5)%nat) in *.
  rewrite Hn, cycles_add, rounds. cbn [bind].
  set (k := Z.of_nat q).
  destruct r as [|[|[|[|[|r]]]]]; [| | | | |lia]; cbn [cycles nth].
  - exists (mkState groups (2 * k) 0). eexists.
    split; [reflexivity|]. split; [apply (select_first_group k 0 a eq_refl)|].
    split; reflexivity.
  - rewrite cycle_a. cbn [bind].
    exists (mkState groups (2 * k) 1). eexists.
    split; [reflexivity|]. split; [apply (select_first_group k 1 b eq_refl)|].
    split; reflexivity.
  - rewrite cycle_a. cbn [bind]. rewrite cycle_b. cbn [bind].
    exists (mkState groups (2 * k + 1) 0). eexists.
    split; [reflexivity|]. split; [apply (select_second_group k 0 c eq_refl)|].
    split; reflexivity.
  - rewrite cycle_a. cbn [bind]. rewrite cycle_b. cbn [bind].
    rewrite cycle_c. cbn [bind].
    exists (mkState groups (2 * k + 1) 1). eexists.
    split; [reflexivity|]. split; [apply (select_second_group k 1 d eq_refl)|].
    split; reflexivity.
  - rewrite cycle_a. cbn [bind]. rewrite cycle_b. cbn [bind].
    rewrite cycle_c. cbn [bind]. rewrite cycle_d. cbn [bind].
    exists (mkState groups (2 * k + 1) 2). eexists.
    split; [reflexivity|]. split; [apply (select_second_group k 2 e eq_refl)|].
    split; reflexivity.
Qed.

End TwoAndThree.

End CursorFacts.

(* ===================================================================== *)
(** ** Properties of the engine                                           *)
(* ===================================================================== *)

Module EngineFacts.
Import Engine.

Lemma dict_get_found d k s dflt :
  dict_get d k VNone = VStr s -> dict_get d k dflt = VStr s.
Proof. unfold dict_get. destruct (lookup_key d k); [auto | discriminate]. Qed.

Lemma py_or_list es : py_or (VList es) (VList []) = VList es.
Proof. now destruct es. Qed.

Lemma load_cached_file path w :
  path <> "" ->
  load_cached path w =
  Done (match files w !! path with Some (Json v) => v | _ => VNone end) w.
Proof.
  intros Hp. unfold load_cached.
  destruct (String.eqb path "") eqn:H; [apply String.eqb_eq in H; contradiction|].
  now destruct (files w !! path) as [[v|]|].
Qed.

(** The cache path of [run_display] is never the empty string. *)
Lemma choose_cache_path_nonempty cache_file config_cache_file :
  choose_cache_path cache_file config_cache_file <> "".
Proof.
  unfold choose_cache_path.
  set (v := py_or _ _).
  assert (Hv : truthy v = true) by (apply py_or_truthy; reflexivity).
  destruct v as [|b|z|f|s|l|d]; try discriminate.
  intros ->. discriminate.
Qed.

Section WithPlatform.

Variable P : platform.
Variable F : faults.
Variable L : locals.

(** What [load_entries_for_today] does once the cache has been read. *)
Lemma load_entries_unfold w :
  cache_path L <> "" ->
  load_entries_for_today P F L w =
  let cached := match files w !! cache_path L with Some (Json v) => v | _ => VNone end in
  let w1 := after_clock_read w in
  match (if truthy cached
         then let* date := py_get cached "date" in Ok (eq_str date (today P L w))
         else Ok false) with
  | Raise e => Raised e w1
  | Ok true =>
      (run entries := lift (py_get cached "entries" ||| Ok (VList [])) in
       run date := lift (py_get_default cached "date" (VStr (today P L w))) in
       ret (entries, date)) w1
  | Ok false =>
      (run fresh := fetch_all P F (config_api_key L) (config_hl L) (config_gl L)
                      (theaters L) in
       save_cached F (cache_path L) (today P L w) fresh ;;;
       ret (VList fresh, VStr (today P L w))) w1
  end.
Proof.
  intros Hp. unfold load_entries_for_today, bindM at 1, now_in_tz.
  unfold bindM at 1. rewrite (load_cached_file _ _ Hp). simpl files.
  fold (after_clock_read w). fold (today P L w).
  unfold bindM at 1.
  destruct (if truthy _ then _ else _) as [[|]|e]; reflexivity.
Qed.

(** A cache file that holds JSON other than an object, and not a falsy
    value, makes [load_entries_for_today] raise. *)
Lemma load_entries_non_object w v :
  cache_path L <> "" ->
  files w !! cache_path L = Some (Json v) ->
  truthy v = true -> (forall d, v <> VDict d) ->
  load_entries_for_today P F L w = Raised AttributeError (after_clock_read w).
Proof.
  intros Hp Hf Ht Hv. rewrite (load_entries_unfold w Hp), Hf. cbv zeta. rewrite Ht.
  destruct v as [|b|z|f|s|l|d]; try reflexivity. now destruct (Hv d).
Qed.

(** What [load_entries_for_today] does when the cache is not of today. *)
Lemma load_entries_miss w :
  cache_path L <> "" ->
  files w !! cache_path L = None \/
  files w !! cache_path L = Some Unreadable \/
  (exists v, files w !! cache_path L = Some (Json v) /\ truthy v = false) \/
  (exists d, files w !! cache_path L = Some (Json (VDict d)) /\
             eq_str (dict_get d "date" VNone) (today P L w) = false) ->
  load_entries_for_today P F L w =
    match fetch_all P F (config_api_key L) (config_hl L) (config_gl L) (theaters L)
                    (after_clock_read w) with
    | Done fresh w' =>
        match write_fails F (cache_path L)
                (VDict [("date", VStr (today P L w)); ("entries", VList fresh)]) with
        | None =>
            Done (VList fresh, VStr (today P L w))
                 (with_file (cache_path L) (cache_document (today P L w) fresh) w')
        | Some (OpenFails e) => Raised e w'
        | Some (DumpFails e) => Raised e (with_file (cache_path L) Unreadable w')
        end
    | Raised e w' => Raised e w'
    | Interrupted w' => Interrupted w'
    end.
Proof.
  intros Hp Hmiss. rewrite (load_entries_unfold w Hp). cbv zeta.
  assert (Hfetch :
    (if truthy (match files w !! cache_path L with Some (Json v) => v | _ => VNone end)
     then let* date := py_get (match files w !! cache_path L with
                               | Some (Json v) => v | _ => VNone end) "date" in
          Ok (eq_str date (today P L w))
     else Ok false) = Ok false).
  { destruct Hmiss as [-> | [-> | [(v & -> & ->) | (d & -> & Hne)]]];
      try reflexivity.
    destruct (truthy (VDict d)); [|reflexivity].
    rewrite py_get_dict. cbn [bind]. now rewrite Hne. }
  rewrite Hfetch. unfold bindM at 1.
  destruct (fetch_all P F _ _ _ _ _) as [fresh w'|e w'|w']; try reflexivity.
  unfold bindM, save_cached, ret.
  destruct (String.eqb (cache_path L) "") eqn:H;
    [apply String.eqb_eq in H; contradiction|].
  now destruct (write_fails F _ _) as [[e|e]|].
Qed.

(** C1, as the code has it. When the cache file holds an object dated
    today, [load_entries_for_today] returns the object's entries and the
    only change in the world is the reading of the clock: no request is made
    and no file written. When the file is absent, unreadable, holds a falsy
    JSON value or an object with another date, it runs [fetch_all] once; if
    that returns and the cache file can be written, the fresh entries are
    on disk under today's date and are returned. An exception of
    [fetch_all] propagates and nothing is written; an exception of the
    write propagates too, after the fetch, and a write that failed inside
    [json.dump] leaves the cache file unreadable. When the file holds any
    other JSON (an array that is not empty, a string, a number, [true]),
    the date check raises [AttributeError] and nothing is fetched. *)
Theorem load_entries_policy w :
  cache_path L <> "" ->
  (forall d,
      files w !! cache_path L = Some (Json (VDict d)) ->
      dict_get d "date" VNone = VStr (today P L w) ->
      load_entries_for_today P F L w =
        Done (py_or (dict_get d "entries" VNone) (VList []), VStr (today P L w))
             (after_clock_read w)
      /\ requests (after_clock_read w) = requests w
      /\ files (after_clock_read w) = files w
      /\ forall es, dict_get d "entries" VNone = VList es ->
                    py_or (dict_get d "entries" VNone) (VList []) = VList es)
  /\
  (files w !! cache_path L = None \/
   files w !! cache_path L = Some Unreadable \/
   (exists v, files w !! cache_path L = Some (Json v) /\ truthy v = false) \/
   (exists d, files w !! cache_path L = Some (Json (VDict d)) /\
              eq_str (dict_get d "date" VNone) (today P L w) = false) ->
   load_entries_for_today P F L w =
     match fetch_all P F (config_api_key L) (config_hl L) (config_gl L) (theaters L)
                     (after_clock_read w) with
     | Done fresh w' =>
         match write_fails F (cache_path L)
                 (VDict [("date", VStr (today P L w)); ("entries", VList fresh)]) with
         | None =>
             Done (VList fresh, VStr (today P L w))
                  (with_file (cache_path L) (cache_document (today P L w) fresh) w')
         | Some (OpenFails e) => Raised e w'
         | Some (DumpFails e) => Raised e (with_file (cache_path L) Unreadable w')
         end
     | Raised e w' => Raised e w'
     | Interrupted w' => Interrupted w'
     end)
  /\
  (forall v,
      files w !! cache_path L = Some (Json v) ->
      truthy v = true -> (forall d, v <> VDict d) ->
      load_entries_for_today P F L w = Raised AttributeError (after_clock_read w)
      /\ requests (after_clock_read w) = requests w).
Proof.
  intros Hp. split; [|split].
  - intros d Hf Hdate. split; [|split; [reflexivity|split; [reflexivity|]]].
    + rewrite (load_entries_unfold w Hp), Hf. cbv zeta.
      assert (Ht : truthy (VDict d) = true).
      { destruct d; [discriminate Hdate | reflexivity]. }
      rewrite Ht, py_get_dict. cbn [bind]. rewrite Hdate. simpl eq_str.
      rewrite String.eqb_refl.
      unfold bindM, lift, ret. rewrite py_get_dict, or_else_values. simpl.
      now rewrite (dict_get_found d "date" _ _ Hdate).
    + intros es ->. apply py_or_list.
  - intros Hmiss. exact (load_entries_miss w Hp Hmiss).
  - intros v Hf Ht Hv. split; [|reflexivity].
    now apply (load_entries_non_object w v).
Qed.

(** When nothing raises while an item is shown, the loop moves the cursor as
    [cycle] does. *)
Lemma display_cycles st sel w w' :
  select st = Ok sel ->
  show P F L (item sel) w = Done tt w' ->
  display P F L st w = Done (advance st (current_theater sel)) w' /\
  cycle st = Ok (advance st (current_theater sel)).
Proof.
  intros Hsel Hshow. split.
  - unfold display, bindM at 1. rewrite Hsel. simpl lift. unfold ret at 1.
    unfold try_except, bindM at 1. now rewrite Hshow.
  - unfold cycle. now rewrite Hsel.
Qed.

Lemma show_raises it w e w' :
  format_single_movie_display P F it w = Raised e w' \/
  (exists w1, format_single_movie_display P F it w = Done tt w1 /\
              time_sleep P (cycle_delay L) w1 = Raised e w') ->
  show P F L it w = Raised e w'.
Proof.
  unfold show, bindM. intros [-> | (w1 & -> & ->)]; reflexivity.
Qed.

Lemma backoff_sleep w :
  time_sleep P (VInt 5) w =
  let w' := mkWorld (files w) (clock_reads w) (requests w) (sleeps w ++ [VInt 5])
                    (printed w) in
  if interrupts P (List.length (sleeps w)) then Interrupted w' else Done tt w'.
Proof. unfold time_sleep. now rewrite (sleep_five P). Qed.

(** C3, as the code has it. In an iteration that reaches the display, an
    exception raised by the renderer or by the sleep of the cycle delay is
    caught, and its report is printed. When that print succeeds, the loop
    sleeps 5 and the iteration ends with the groups and the cursor it had,
    ready for the next one; only an interrupt during that sleep ends the
    loop. When the print of the report raises, nothing catches it: the
    exception leaves the loop. *)
Theorem display_error_contained st st1 w w1 sel e w2 :
  rollover P F L st w = Done (inr st1) w1 ->
  select st1 = Ok sel ->
  format_single_movie_display P F (item sel) w1 = Raised e w2 \/
  (exists w', format_single_movie_display P F (item sel) w1 = Done tt w' /\
              time_sleep P (cycle_delay L) w' = Raised e w2) ->
  iteration P F L st w =
    match print_fails F (printed w2)
            (newline ++ "Error displaying movie: " ++ exn_text P e) with
    | Some e' => Raised e' w2
    | None =>
        if interrupts P (List.length (sleeps w2))
        then Interrupted (after_backoff P e w2)
        else Done st1 (after_backoff P e w2)
    end.
Proof.
  intros Hroll Hsel Hraise. apply show_raises in Hraise.
  unfold iteration, bindM at 1. rewrite Hroll.
  unfold display, bindM at 1. rewrite Hsel. simpl lift. unfold ret at 1.
  unfold try_except, bindM at 1. rewrite Hraise.
  unfold bindM at 1, print.
  destruct (print_fails F _ _) as [e'|]; [reflexivity|].
  unfold bindM. rewrite backoff_sleep. simpl.
  unfold after_backoff. now destruct (interrupts P _).
Qed.

(** While the cache holds a document dated today, an iteration does not
    refresh. *)
Lemma rollover_fresh st w d :
  cache_path L <> "" ->
  files w !! cache_path L = Some (Json (VDict d)) ->
  dict_get d "date" VNone = VStr (today P L w) ->
  rollover P F L st w = Done (inr st) (after_clock_read w).
Proof.
  intros Hp Hf Hdate. unfold rollover, bindM at 1, now_in_tz.
  unfold bindM at 1. rewrite (load_cached_file _ _ Hp). simpl files. rewrite Hf.
  fold (today P L w).
  assert (Ht : truthy (VDict d) = true).
  { destruct d; [discriminate Hdate | reflexivity]. }
  rewrite Ht, py_get_dict. cbn [bind]. rewrite Hdate. simpl eq_str.
  rewrite String.eqb_refl. reflexivity.
Qed.

(** Without a refresh and without an exception, an iteration of the loop is
    a [cycle] of the cursor. *)
Lemma iteration_cycles st w w1 sel w2 :
  rollover P F L st w = Done (inr st) w1 ->
  select st = Ok sel ->
  show P F L (item sel) w1 = Done tt w2 ->
  exists st', cycle st = Ok st' /\ iteration P F L st w = Done st' w2.
Proof.
  intros Hroll Hsel Hshow.
  destruct (display_cycles st sel w1 w2 Hsel Hshow) as [Hd Hc].
  exists (advance st (current_theater sel)). split; [exact Hc|].
  unfold iteration, bindM at 1. now rewrite Hroll.
Qed.

(** [fetch_all] skips the theaters without a name, so every entry it builds
    has a label. *)
Lemma fetch_entry_labels k h g entries entry w entries' w' :
  fetch_entry P F k h g entries entry w = Done entries' w' ->
  Forall has_label entries -> Forall has_label entries'.
Proof.
  intros H Hacc. destruct entry as [|b|z|f|s|l|d]; try discriminate.
  unfold fetch_entry in H. rewrite !py_get_dict, !or_else_values in H.
  unfold bindM at 1 in H. simpl lift in H. unfold ret at 1 in H.
  unfold bindM at 1 in H. unfold ret at 1 in H.
  set (name := py_or (py_or (dict_get d "name" VNone) (dict_get d "theater" VNone))
                     (dict_get d "query" VNone)) in *.
  set (loc := py_or (dict_get d "location" VNone) (VStr "")) in *.
  destruct (truthy name) eqn:Hname; simpl in H.
  - destruct (truthy loc) eqn:Hloc; simpl in H.
    + unfold bindM, fetch_showtimes in H.
      destruct (http_get P _ _) as [raw|e]; [|discriminate].
      destruct raw as [|b|z|f|s|l|dr]; try discriminate.
      simpl in H. destruct (truthy (dict_get dr "error" VNone)); [discriminate|].
      destruct (normalize_showtimes _ _) as [normalized|e]; [|discriminate].
      simpl in H. injection H as <- _.
      apply Forall_app; split; [assumption|].
      constructor; [|constructor].
      eexists. split; [reflexivity|]. exact Hname.
    + unfold bindM, print, ret in H.
      destruct (print_fails F _ _); [discriminate|]. now injection H as <- _.
  - unfold bindM, print, ret in H.
    destruct (print_fails F _ _); [discriminate|]. now injection H as <- _.
Qed.

Lemma fetch_entries_labels k h g ts entries w entries' w' :
  for_eachM (fetch_entry P F k h g) ts entries w = Done entries' w' ->
  Forall has_label entries -> Forall has_label entries'.
Proof.
  revert entries w. induction ts as [|t rest IH]; intros entries w; simpl.
  - unfold ret. now intros [= <- _].
  - unfold bindM. destruct (fetch_entry P F k h g entries t w) as [acc w1|e w1|w1] eqn:Ht;
      try discriminate.
    intros Hrest Hacc. eapply IH; [exact Hrest|].
    eapply fetch_entry_labels; eauto.
Qed.

Lemma fetch_all_labels k h g theaters w fresh w' :
  fetch_all P F k h g theaters w = Done fresh w' -> Forall has_label fresh.
Proof.
  unfold fetch_all, bindM. destruct (py_iter theaters) as [ts|e]; [|discriminate].
  simpl. intros H. eapply fetch_entries_labels; [exact H | constructor].
Qed.

End WithPlatform.

End EngineFacts.

(** C7. Every dataset entry [fetch_all] builds has a label that is not
    empty, the configured name of the theater: a theater without one is
    skipped. For every entry with such a label and every item that either
    flattening path makes of it, [theater_name] is the label of the entry,
    whatever name the normalized theaters of the entry carry. *)
Theorem theater_name_is_label :
  (forall P F k h g theaters w fresh w',
      Engine.fetch_all P F k h g theaters w = Engine.Done fresh w' ->
      Forall has_label fresh) /\
  (forall tz now entry items,
      has_label entry ->
      group_entry_movies tz now entry = Ok items \/
      flatten_entry tz now [] entry = Ok items ->
      exists d, entry = VDict d /\
        forall it, In it items ->
          theater_label it = dict_get d "theater_label" (VStr "") /\
          theater_name it = dict_get d "theater_label" (VStr "")).
Proof.
  split.
  - intros P F k h g theaters w fresh w' H.
    exact (EngineFacts.fetch_all_labels P F k h g theaters w fresh w' H).
  - intros tz now entry items (d0 & -> & Hlabel) H.
    destruct (item_names_from_label tz now _ items H) as (d & [= <-] & Hitems).
    exists d0. split; [reflexivity|]. intros it Hin.
    destruct (Hitems it Hin) as [Hl Hn]. split; [exact Hl|].
    rewrite Hn, Hl. now rewrite Hlabel.
Qed.

(** *** The engine claims on sample data *)

Lemma load_entries_policy_witness :
  Engine.load_entries_for_today Samples.quiet Engine.reliable Samples.settings
    (Samples.cache_of "2024-05-01")
  = Engine.Done (VList [Samples.labelled_entry], VStr "2024-05-01")
                (after_clock_read (Samples.cache_of "2024-05-01"))
  /\
  Engine.load_entries_for_today Samples.quiet Engine.reliable Samples.settings
    (Samples.cache_of "2024-04-30")
  = Engine.Done (VList Samples.fetched, VStr "2024-05-01")
      (with_file "showtimes_cache.json" (cache_document "2024-05-01" Samples.fetched)
                 (Samples.after_fetch (Samples.cache_of "2024-04-30")))
  /\
  Engine.load_entries_for_today Samples.quiet Cases.full_disk Samples.settings
    (Samples.cache_of "2024-04-30")
  = Engine.Raised OSError
      (with_file "showtimes_cache.json" Engine.Unreadable
                 (Samples.after_fetch (Samples.cache_of "2024-04-30")))
  /\
  Engine.load_entries_for_today Samples.quiet Engine.reliable Samples.settings
    Cases.array_cache
  = Engine.Raised AttributeError (after_clock_read Cases.array_cache).
Proof.
  assert (Hp : Engine.cache_path Samples.settings <> "") by discriminate.
  assert (Hold : Engine.files (Samples.cache_of "2024-04-30")
                   !! Engine.cache_path Samples.settings
                 = Some (Engine.Json (VDict [("date", VStr "2024-04-30");
                                             ("entries", VList [Samples.labelled_entry])])))
    by (vm_compute; reflexivity).
  split; [|split; [|split]].
  - destruct (EngineFacts.load_entries_policy Samples.quiet Engine.reliable
                Samples.settings (Samples.cache_of "2024-05-01") Hp) as [Hhit _].
    assert (Hfile : Engine.files (Samples.cache_of "2024-05-01")
                      !! Engine.cache_path Samples.settings
                    = Some (Engine.Json (VDict [("date", VStr "2024-05-01");
                                                ("entries", VList [Samples.labelled_entry])])))
      by (vm_compute; reflexivity).
    exact (proj1 (Hhit _ Hfile eq_refl)).
  - destruct (EngineFacts.load_entries_policy Samples.quiet Engine.reliable
                Samples.settings (Samples.cache_of "2024-04-30") Hp) as [_ [Hmiss _]].
    assert (Hfetch :
      Engine.fetch_all Samples.quiet Engine.reliable (VStr "key") (VStr "en") (VStr "us")
        (Engine.theaters Samples.settings)
        (after_clock_read (Samples.cache_of "2024-04-30"))
      = Engine.Done Samples.fetched (Samples.after_fetch (Samples.cache_of "2024-04-30")))
      by (vm_compute; reflexivity).
    rewrite Hmiss.
    + change (Engine.config_api_key Samples.settings) with (VStr "key").
      change (Engine.config_hl Samples.settings) with (VStr "en").
      change (Engine.config_gl Samples.settings) with (VStr "us").
      rewrite Hfetch. reflexivity.
    + right; right; right. eexists. split; [exact Hold | reflexivity].
  - destruct (EngineFacts.load_entries_policy Samples.quiet Cases.full_disk
                Samples.settings (Samples.cache_of "2024-04-30") Hp) as [_ [Hmiss _]].
    assert (Hfetch :
      Engine.fetch_all Samples.quiet Cases.full_disk (VStr "key") (VStr "en") (VStr "us")
        (Engine.theaters Samples.settings)
        (after_clock_read (Samples.cache_of "2024-04-30"))
      = Engine.Done Samples.fetched (Samples.after_fetch (Samples.cache_of "2024-04-30")))
      by (vm_compute; reflexivity).
    rewrite Hmiss.
    + change (Engine.config_api_key Samples.settings) with (VStr "key").
      change (Engine.config_hl Samples.settings) with (VStr "en").
      change (Engine.config_gl Samples.settings) with (VStr "us").
      rewrite Hfetch. reflexivity.
    + right; right; right. eexists. split; [exact Hold | reflexivity].
  - destruct (EngineFacts.load_entries_policy Samples.quiet Engine.reliable
                Samples.settings Cases.array_cache Hp) as [_ [_ Hother]].
    assert (Hfile : Engine.files Cases.array_cache !! Engine.cache_path Samples.settings
                    = Some (Engine.Json (VList [VInt 1])))
      by (vm_compute; reflexivity).
    assert (Hobj : forall d, VList [VInt 1] <> VDict d) by discriminate.
    exact (proj1 (Hother _ Hfile eq_refl Hobj)).
Defined.

(** A cache file that holds an array is neither a document dated today nor
    a reason to fetch: the date check raises and no request is made. And
    with a cache path that cannot be opened for writing, the fetch is made
    and then the exception of [open] is raised: nothing is on disk and
    nothing is returned. *)
Lemma load_entries_neither_cached_nor_fetched :
  Engine.load_entries_for_today Samples.quiet Engine.reliable Samples.settings
    Cases.array_cache
  = Engine.Raised AttributeError (after_clock_read Cases.array_cache)
  /\ Engine.requests (after_clock_read Cases.array_cache) = []
  /\ Engine.load_entries_for_today Samples.quiet Cases.read_only Samples.settings
       Samples.no_cache
     = Engine.Raised OSError (Samples.after_fetch Samples.no_cache)
  /\ Engine.files (Samples.after_fetch Samples.no_cache) !! "showtimes_cache.json" = None.
Proof. repeat split; vm_compute; reflexivity. Qed.

Lemma display_error_contained_witness :
  Engine.iteration Samples.quiet Engine.reliable Samples.settings Samples.showing_numbered
    (Samples.cache_of "2024-05-01")
  = Engine.Done Samples.showing_numbered
      (after_backoff Samples.quiet TypeError Samples.half_rendered).
Proof.
  assert (Hroll :
    Engine.rollover Samples.quiet Engine.reliable Samples.settings Samples.showing_numbered
      (Samples.cache_of "2024-05-01")
    = Engine.Done (inr Samples.showing_numbered)
                  (after_clock_read (Samples.cache_of "2024-05-01")))
    by (vm_compute; reflexivity).
  assert (Hsel :
    Engine.select Samples.showing_numbered
    = Ok (Engine.mkSelection 0 [Samples.numbered] 0 Samples.numbered))
    by (vm_compute; reflexivity).
  assert (Hfmt :
    Engine.format_single_movie_display Samples.quiet Engine.reliable Samples.numbered
      (after_clock_read (Samples.cache_of "2024-05-01"))
    = Engine.Raised TypeError Samples.half_rendered)
    by (vm_compute; reflexivity).
  rewrite (EngineFacts.display_error_contained Samples.quiet Engine.reliable Samples.settings
             _ _ _ _ _ _ _ Hroll Hsel (or_introl Hfmt)).
  reflexivity.
Defined.

(** On a terminal that is closed once the header of the frame is out, the
    renderer raises [TypeError] on the title of [numbered], the handler's
    own [print] raises [OSError], and that exception ends the iteration:
    no backoff, no next iteration. *)
Lemma display_error_escapes :
  Engine.format_single_movie_display Samples.quiet (Cases.closed_after 7)
    Samples.numbered (after_clock_read (Samples.cache_of "2024-05-01"))
  = Engine.Raised TypeError Samples.half_rendered
  /\ Engine.iteration Samples.quiet (Cases.closed_after 7) Samples.settings
       Samples.showing_numbered (Samples.cache_of "2024-05-01")
     = Engine.Raised OSError Samples.half_rendered
  /\ Engine.sleeps Samples.half_rendered = [].
Proof. repeat split; vm_compute; reflexivity. Qed.

Lemma theater_name_is_label_witness :
  Forall has_label Samples.fetched /\
  exists d, Samples.labelled_entry = VDict d /\
    forall it, In it [mkItem (VStr "Alamo") (VStr "Austin") (VStr "Alamo") (VStr "")
                             (VStr "Dune") (VList []) Samples.day None] ->
      theater_label it = dict_get d "theater_label" (VStr "") /\
      theater_name it = dict_get d "theater_label" (VStr "").
Proof.
  destruct theater_name_is_label as [Hbuilt Hnamed]. split.
  - assert (Hfetch :
      Engine.fetch_all Samples.quiet Engine.reliable (VStr "key") (VStr "en") (VStr "us")
        (Engine.theaters Samples.settings) (after_clock_read Samples.no_cache)
      = Engine.Done Samples.fetched (Samples.after_fetch Samples.no_cache))
      by (vm_compute; reflexivity).
    exact (Hbuilt _ _ _ _ _ _ _ _ _ Hfetch).
  - assert (Hlabel : has_label Samples.labelled_entry)
      by (eexists; split; reflexivity).
    exact (Hnamed None Samples.day Samples.labelled_entry _ Hlabel (or_introl eq_refl)).
Defined.

(* ===================================================================== *)
(** ** Further properties of normalize_showtimes                          *)
(* ===================================================================== *)

Section NormalizerShape.

Variable repr : value -> string.

Lemma movie_rows_follow ms rows r :
  for_each (movie_row repr) ms rows = Ok r ->
  exists new, r = rows ++ new /\ Forall2 (row_of repr) ms new.
Proof.
  revert rows. induction ms as [|m rest IH]; intros rows; simpl.
  - intros [= <-]. exists []. split; [now rewrite app_nil_r | constructor].
  - intros H. apply bind_ok in H as (rows' & Hrow & Hrest).
    destruct m as [|b|z|f|s|l|d]; try discriminate.
    rewrite movie_row_dict in Hrow.
    apply bind_ok in Hrow as (tbs & Htbs & [= <-]).
    destruct (IH _ Hrest) as (new & -> & Hnew).
    eexists. split; [now rewrite <- app_assoc|].
    constructor; [|exact Hnew]. exists d, tbs. auto.
Qed.

Lemma or_empty_string_cases a :
  truthy (py_or a (VStr "")) = true \/ py_or a (VStr "") = VStr "".
Proof. unfold py_or. destruct (truthy a) eqn:Ha; [left | right]; auto. Qed.

Lemma row_of_ok movie row : row_of repr movie row -> row_ok row.
Proof.
  intros (d & tbs & _ & _ & ->). eexists _, _. split; [reflexivity|]. split.
  - unfold title_of. now apply py_or_truthy.
  - rewrite length_firstn. lia.
Qed.

Lemma normalize_entries_shape payload l :
  normalize_showtimes repr payload = Ok l -> Forall theater_ok l.
Proof.
  intros H. destruct payload as [|b|z|f|s|l0|d]; try discriminate.
  rewrite normalize_showtimes_dict in H.
  apply bind_ok in H as (theaters & Hfirst & H).
  apply bind_ok in H as (es & Hes & H).
  assert (Hgen : forall es acc r,
             for_each (normalize_entry repr) es acc = Ok r ->
             Forall theater_ok acc -> Forall theater_ok r).
  { clear. induction es as [|e rest IH]; intros acc r; simpl.
    - now intros [= <-].
    - intros H Hacc. apply bind_ok in H as (acc' & He & Hrest).
      apply (IH _ _ Hrest).
      destruct e as [|b|z|f|s|l|d]; try discriminate.
      rewrite normalize_entry_dict in He.
      apply bind_ok in He as (ms & _ & He).
      apply bind_ok in He as (rows & Hrows & [= <-]).
      apply Forall_app; split; [assumption|].
      constructor; [|constructor].
      exists (theater_name_of d), (address_of d), rows.
      split; [reflexivity|]. split; [|split].
      + unfold theater_name_of. now apply py_or_truthy.
      + apply or_empty_string_cases.
      + apply movie_rows_follow in Hrows as (new & -> & Hnew). simpl.
        clear -Hnew. induction Hnew; constructor; eauto using row_of_ok. }
  eapply Hgen; [exact H | constructor].
Qed.

Lemma normalize_length_le payload l :
  normalize_showtimes repr payload = Ok l -> (List.length l <= 1)%nat.
Proof.
  intros H. destruct payload as [|b|z|f|s|l0|d]; try discriminate.
  rewrite normalize_showtimes_dict in H.
  apply bind_ok in H as (theaters & Hfirst & H).
  apply bind_ok in H as (es & Hes & H).
  apply normalize_entries_length in H. rewrite H. simpl.
  apply first_theater_cases in Hfirst as [[Hf ->] | (x & _ & ->)].
  - destruct (or_empty_list_cases (dict_get d "showtimes" VNone)) as [Ht | He];
      fold (showtimes_of d) in *; [congruence|].
    rewrite He in Hes. injection Hes as <-. simpl. lia.
  - injection Hes as <-. simpl. lia.
Qed.

(** X1. Every entry [normalize_showtimes] returns has the three keys
    [theater], [address] and [movies], a theater name that is not empty, an
    address that is not empty or is the empty string, and rows with a title
    that is not empty and at most 8 times. *)
Theorem normalize_output_shape payload l :
  normalize_showtimes repr payload = Ok l -> Forall theater_ok l.
Proof. apply normalize_entries_shape. Qed.

(** X2. With the first entry of [showtimes] a dictionary, the result has one
    row for every movie of today's list, in the order of the payload, none
    left out: the row of a movie holds its title (or the default) and the
    first 8 of its display times. *)
Theorem normalize_rows_follow_movies d e rest ms l :
  dict_get d "showtimes" VNone = VList (VDict e :: rest) ->
  todays_movies (movies_of e) = VList ms ->
  normalize_showtimes repr (VDict d) = Ok l ->
  exists rows,
    l = [VDict [("theater", theater_name_of e);
                ("address", address_of e);
                ("movies", VList rows)]] /\
    Forall2 (row_of repr) ms rows.
Proof.
  intros Hd Hms H.
  rewrite normalize_showtimes_dict in H. unfold showtimes_of in H. rewrite Hd in H.
  change (py_or (VList (VDict e :: rest)) (VList [])) with (VList (VDict e :: rest)) in H.
  rewrite first_theater_list in H. simpl in H.
  rewrite normalize_entry_dict, Hms in H. simpl in H.
  destruct (for_each (movie_row repr) ms []) as [rows|err] eqn:Hrows; [|discriminate].
  simpl in H. injection H as <-.
  apply movie_rows_follow in Hrows as (new & -> & Hnew).
  exists new. split; [reflexivity | exact Hnew].
Qed.

(** X3. On a dictionary, [normalize_showtimes] returns the empty list exactly
    when [showtimes] is absent or falsy. *)
Theorem normalize_empty_iff d :
  normalize_showtimes repr (VDict d) = Ok [] <->
  truthy (dict_get d "showtimes" VNone) = false.
Proof.
  rewrite normalize_showtimes_dict. unfold showtimes_of, py_or. split.
  - intros H. destruct (truthy (dict_get d "showtimes" VNone)) eqn:Ht; [|reflexivity].
    exfalso.
    apply bind_ok in H as (theaters & Hfirst & H).
    apply bind_ok in H as (es & Hes & H).
    apply normalize_entries_length in H. simpl in H.
    apply first_theater_cases in Hfirst as [[Hf _] | (x & _ & ->)]; [congruence|].
    injection Hes as <-. simpl in H. lia.
  - intros ->. reflexivity.
Qed.

End NormalizerShape.

(* ===================================================================== *)
(** ** Further properties of the flattening functions                     *)
(* ===================================================================== *)

Section FlattenerShape.

Variable tz : option tzinfo.

Lemma group_movies_rows tl ll tn addr now rows :
  Forall row_ok rows ->
  for_each (group_movie tz tl ll tn addr now) rows [] =
  Ok (map (fun row => mkItem tl ll tn addr (field "title" row) (field "times" row)
                             now tz) rows).
Proof.
  induction 1 as [|row rest Hrow Hrest IH]; [reflexivity|].
  change (group_movie tz tl ll tn addr now) with (flatten_movie tz tl ll tn addr now) in *.
  simpl for_each.
  rewrite flatten_movie_appends.
  destruct Hrow as (t & ts & -> & Ht & _).
  unfold movie_item. py_chain.
  change (dict_get [("title", t); ("times", VList ts)] "title" VNone) with t.
  change (dict_get [("title", t); ("times", VList ts)] "times" VNone) with (VList ts).
  unfold py_or at 1. rewrite Ht. rewrite EngineFacts.py_or_list. simpl bind.
  rewrite (for_each_append _ _ (flatten_movie_appends tz tl ll tn addr now)), IH.
  reflexivity.
Qed.

Lemma group_theater_rows now entry theater :
  theater_ok theater ->
  group_theater tz (field "theater_label" entry) (field "location_label" entry)
                now [] theater
  = Ok (theater_items tz now entry theater).
Proof.
  intros (name & addr & rows & -> & _ & Haddr & Hrows).
  unfold group_theater. py_chain.
  change (dict_get [("theater", name); ("address", addr); ("movies", VList rows)]
                   "address" VNone) with addr.
  assert (Ha : py_or addr (VStr "") = addr).
  { unfold py_or. destruct Haddr as [-> | ->]; reflexivity. }
  rewrite Ha. simpl bind. rewrite (group_movies_rows _ _ _ _ _ _ Hrows).
  reflexivity.
Qed.

Lemma group_theaters_rows now entry theaters :
  Forall theater_ok theaters ->
  for_each (group_theater tz (field "theater_label" entry)
                          (field "location_label" entry) now) theaters []
  = Ok (flat_map (theater_items tz now entry) theaters).
Proof.
  induction 1 as [|th rest Hth Hrest IH]; [reflexivity|].
  simpl for_each. rewrite (group_theater_rows now entry th Hth). simpl bind.
  change (group_theater tz (field "theater_label" entry)
                        (field "location_label" entry) now)
    with (flatten_theater tz (field "theater_label" entry)
                          (field "location_label" entry) now) in *.
  rewrite (for_each_append _ _ (flatten_theater_appends tz _ _ now)), IH.
  reflexivity.
Qed.

Lemma group_entry_built now entry :
  built_entry entry ->
  group_entry_movies tz now entry = Ok (entry_items tz now entry).
Proof.
  intros (tl & ll & normalized & -> & _ & _ & Hths & _).
  exact (group_theaters_rows now
           (VDict [("theater_label", tl); ("location_label", ll);
                   ("showtimes", VList normalized)]) normalized Hths).
Qed.

(** X4. Flattening a dataset entry that [fetch_all] built does not raise and
    gives one item per row of the normalized theaters, in order: the item
    has the entry's two labels, the theater's address, and the title and
    the times of the row unchanged. *)
Theorem built_entry_flattens now entry :
  built_entry entry ->
  group_entry_movies tz now entry = Ok (entry_items tz now entry) /\
  flatten_entry tz now [] entry = Ok (entry_items tz now entry).
Proof.
  intros Hb. pose proof (group_entry_built now entry Hb) as Hg.
  split; [exact Hg|].
  rewrite flatten_entry_appends, Hg. reflexivity.
Qed.

Lemma group_entries_built now es acc :
  Forall built_entry es ->
  for_each (group_entry tz now) es acc =
  Ok (acc ++ List.filter nonempty (map (entry_items tz now) es)).
Proof.
  intros Hes. revert acc. induction Hes as [|e rest He Hrest IH]; intros acc.
  - simpl. now rewrite app_nil_r.
  - simpl for_each. unfold group_entry at 1.
    rewrite (group_entry_built now e He). simpl bind. simpl map. simpl List.filter.
    destruct (entry_items tz now e) as [|it its]; simpl.
    + apply IH.
    + rewrite IH. now rewrite <- app_assoc.
Qed.

(** X5. On a dataset that [fetch_all] built, [group_movies_by_theater] does
    not raise: its groups are the item lists of the entries that have a
    movie, in the order of the entries, and [flatten_movies] returns their
    concatenation. *)
Theorem built_dataset_groups now es :
  Forall built_entry es ->
  group_movies_by_theater tz (VList es) now =
    Ok (List.filter nonempty (map (entry_items tz now) es)) /\
  flatten_movies tz (VList es) now =
    Ok (List.concat (List.filter nonempty (map (entry_items tz now) es))).
Proof.
  intros Hes.
  assert (Hg : group_movies_by_theater tz (VList es) now =
               Ok (List.filter nonempty (map (entry_items tz now) es))).
  { unfold group_movies_by_theater. simpl. apply (group_entries_built now es [] Hes). }
  split; [exact Hg|].
  unfold flatten_movies. simpl bind.
  change (for_each (flatten_entry tz now) es [])
    with (for_each (flatten_entry tz now) es (List.concat [])).
  rewrite (flatten_entries_concat tz now es []).
  unfold group_movies_by_theater in Hg. simpl in Hg. now rewrite Hg.
Qed.

Lemma or_else_default a b t :
  (a ||| Ok b) = Ok t -> truthy t = true \/ t = b.
Proof.
  unfold or_else. destruct a as [v|e]; simpl; [|discriminate].
  destruct (truthy v) eqn:Hv; intros [= <-]; auto.
Qed.

Lemma group_movies_stamped tl ll tn addr now ms acc r :
  for_each (group_movie tz tl ll tn addr now) ms acc = Ok r ->
  Forall (stamped tz now) acc -> Forall (stamped tz now) r.
Proof.
  revert acc. induction ms as [|m rest IH]; intros acc; simpl.
  - now intros [= <-].
  - intros H Hacc. apply bind_ok in H as (acc' & Hm & Hrest).
    apply (IH acc' Hrest).
    unfold group_movie in Hm.
    apply bind_ok in Hm as (t & Ht & Hm). apply bind_ok in Hm as (ts & Hts & [= <-]).
    apply Forall_app; split; [assumption|].
    constructor; [|constructor].
    repeat split; simpl.
    + apply or_else_default in Ht as [Ht | ->]; [exact Ht | reflexivity].
    + apply or_else_default in Hts. exact Hts.
Qed.

Lemma group_theaters_stamped tl ll now ts acc r :
  for_each (group_theater tz tl ll now) ts acc = Ok r ->
  Forall (stamped tz now) acc -> Forall (stamped tz now) r.
Proof.
  revert acc. induction ts as [|t rest IH]; intros acc; simpl.
  - now intros [= <-].
  - intros H Hacc. apply bind_ok in H as (acc' & Ht & Hrest).
    apply (IH acc' Hrest).
    unfold group_theater in Ht.
    apply bind_ok in Ht as (addr & _ & Ht).
    apply bind_ok in Ht as (listed & _ & Ht).
    apply bind_ok in Ht as (ms & _ & Ht).
    eapply group_movies_stamped; eauto.
Qed.

Lemma group_entry_stamped now entry items :
  group_entry_movies tz now entry = Ok items -> Forall (stamped tz now) items.
Proof.
  unfold group_entry_movies. intros H.
  apply bind_ok in H as (tl & _ & H). apply bind_ok in H as (ll & _ & H).
  apply bind_ok in H as (sh & _ & H). apply bind_ok in H as (ts & _ & H).
  eapply group_theaters_stamped; [exact H | constructor].
Qed.

(** X6. Whatever the entries hold, every item of every group carries the
    date stamp and the time zone of the run and a title that is not empty,
    and its times are not empty or are the empty list; there are no more
    groups than entries. *)
Theorem groups_stamped entries now es groups :
  py_iter entries = Ok es ->
  group_movies_by_theater tz entries now = Ok groups ->
  Forall (Forall (stamped tz now)) groups /\
  (List.length groups <= List.length es)%nat.
Proof.
  intros Hes H. unfold group_movies_by_theater in H. rewrite Hes in H. simpl in H.
  apply group_entries_filter in H as (per & Hper & ->). simpl. split.
  - clear Hes. induction Hper as [|e ms es' per' He Hrest IH]; [constructor|].
    simpl. destruct (nonempty ms); [constructor|]; auto.
    eapply group_entry_stamped; eauto.
  - rewrite (Forall2_length _ _ _ Hper). apply List.filter_length_le.
Qed.

End FlattenerShape.

(* ===================================================================== *)
(** ** Further properties of the cache store and the daily load           *)
(* ===================================================================== *)

Module CacheFacts.
Import Engine.

Section WithPlatform.

Variable P : platform.
Variable F : faults.
Variable L : locals.

Lemma load_entries_hit w d :
  cache_path L <> "" ->
  files w !! cache_path L = Some (Json (VDict d)) ->
  dict_get d "date" VNone = VStr (today P L w) ->
  load_entries_for_today P F L w =
    Done (py_or (dict_get d "entries" VNone) (VList []), VStr (today P L w))
         (after_clock_read w).
Proof.
  intros Hp Hf Hdate.
  rewrite (EngineFacts.load_entries_unfold P F L w Hp), Hf. cbv zeta.
  assert (Ht : truthy (VDict d) = true).
  { destruct d; [discriminate Hdate | reflexivity]. }
  rewrite Ht, py_get_dict. cbn [bind]. rewrite Hdate. simpl eq_str.
  rewrite String.eqb_refl.
  unfold bindM, lift, ret. rewrite py_get_dict, or_else_values. simpl.
  now rewrite (EngineFacts.dict_get_found d "date" _ _ Hdate).
Qed.

Lemma eq_str_true v s : eq_str v s = true -> v = VStr s.
Proof.
  destruct v as [|b|z|f|s'|l|d]; simpl; try discriminate.
  intros H. apply String.eqb_eq in H. now subst.
Qed.

Lemma fetch_and_save day w1 r w' :
  cache_path L <> "" ->
  (run fresh := fetch_all P F (config_api_key L) (config_hl L) (config_gl L)
                  (theaters L) in
   save_cached F (cache_path L) day fresh ;;;
   ret (VList fresh, VStr day)) w1 = Done r w' ->
  exists fresh,
    files w' !! cache_path L = Some (cache_document day fresh) /\
    r = (VList fresh, VStr day).
Proof.
  intros Hp H. unfold bindM at 1 in H.
  destruct (fetch_all P F _ _ _ _ _) as [fresh w2|e w2|w2]; try discriminate.
  unfold bindM, save_cached, ret in H.
  destruct (String.eqb (cache_path L) "") eqn:Hpe;
    [apply String.eqb_eq in Hpe; contradiction|].
  destruct (write_fails F _ _) as [[e|e]|]; try discriminate.
  injection H as <- <-. exists fresh. split; [|reflexivity].
  cbn [files]. now rewrite lookup_insert_eq.
Qed.

(** How a successful [load_entries_for_today] leaves the cache file: it
    holds an object dated today whose entries are the ones returned. *)
Lemma load_entries_leaves_cache w r w' :
  cache_path L <> "" ->
  load_entries_for_today P F L w = Done r w' ->
  exists d,
    files w' !! cache_path L = Some (Json (VDict d)) /\
    dict_get d "date" VNone = VStr (today P L w) /\
    r = (py_or (dict_get d "entries" VNone) (VList []), VStr (today P L w)).
Proof.
  intros Hp H. rewrite (EngineFacts.load_entries_unfold P F L w Hp) in H. cbv zeta in H.
  assert (Hmiss :
    (run fresh := fetch_all P F (config_api_key L) (config_hl L) (config_gl L)
                    (theaters L) in
     save_cached F (cache_path L) (today P L w) fresh ;;;
     ret (VList fresh, VStr (today P L w))) (after_clock_read w) = Done r w' ->
    exists d,
      files w' !! cache_path L = Some (Json (VDict d)) /\
      dict_get d "date" VNone = VStr (today P L w) /\
      r = (py_or (dict_get d "entries" VNone) (VList []), VStr (today P L w))).
  { intros Hm. apply (fetch_and_save _ _ _ _ Hp) in Hm as (fresh & Hf & ->).
    eexists. split; [exact Hf|]. split; [reflexivity|].
    change (dict_get [("date", VStr (today P L w)); ("entries", VList fresh)]
                     "entries" VNone) with (VList fresh).
    now rewrite EngineFacts.py_or_list. }
  destruct (files w !! cache_path L) as [[v|]|] eqn:Hf; cbn [truthy] in H;
    try (apply Hmiss; exact H).
  destruct (truthy v) eqn:Hv; [|apply Hmiss; exact H].
  destruct v as [|b|z|f|s|l|d]; try discriminate.
  rewrite py_get_dict in H. cbn [bind] in H.
  destruct (eq_str (dict_get d "date" VNone) (today P L w)) eqn:Hd;
    [|apply Hmiss; exact H].
  apply eq_str_true in Hd.
  unfold bindM, lift, ret in H. rewrite py_get_dict, or_else_values in H.
  cbn [py_get_default] in H. rewrite (EngineFacts.dict_get_found d "date" _ _ Hd) in H.
  injection H as <- <-. exists d. cbn [files after_clock_read]. auto.
Qed.

(** X8. Once [load_entries_for_today] has returned, a second call on the
    same day returns the same entries and the same date from the cache: it
    reads the clock and nothing else, so no request is made and no file
    written. *)
Theorem load_entries_again w r w' :
  cache_path L <> "" ->
  load_entries_for_today P F L w = Done r w' ->
  today P L w' = today P L w ->
  load_entries_for_today P F L w' = Done r (after_clock_read w').
Proof.
  intros Hp H Hday.
  destruct (load_entries_leaves_cache w r w' Hp H) as (d & Hf & Hdate & ->).
  rewrite <- Hday in *. now apply load_entries_hit.
Qed.

End WithPlatform.

End CacheFacts.

(* ===================================================================== *)
(** ** Further properties of fetch_all                                    *)
(* ===================================================================== *)

Module FetchFacts.
Import Engine.

Section WithPlatform.

Variable P : platform.
Variable F : faults.
Variables k h g : value.

(** [fetch_entry] on a theater that is a dictionary, case by case. *)
Lemma fetch_entry_dict entries d w :
  fetch_entry P F k h g entries (VDict d) w =
  if valid_theater (VDict d) then
    let req := request_of k h g (VDict d) in
    let w1 := mkWorld (files w) (clock_reads w) (requests w ++ [req]) (sleeps w)
                      (printed w) in
    match http_get P (List.length (requests w)) req with
    | Raise e => Raised e w1
    | Ok raw =>
        match py_get raw "error" with
        | Raise e => Raised e w1
        | Ok error =>
            if truthy error then Raised (RuntimeError error) w1
            else match normalize_showtimes (repr P) raw with
                 | Raise e => Raised e w1
                 | Ok normalized =>
                     Done (entries ++
                             [VDict [("theater_label", theater_query (VDict d));
                                     ("location_label", theater_location (VDict d));
                                     ("showtimes", VList normalized)]]) w1
                 end
        end
    end
  else match print_fails F (printed w) skip_notice with
       | Some e => Raised e w
       | None => Done entries (mkWorld (files w) (clock_reads w) (requests w) (sleeps w)
                                       (printed w ++ [skip_notice]))
       end.
Proof.
  unfold fetch_entry. rewrite !py_get_dict, !or_else_values.
  unfold bindM at 1. simpl lift. unfold ret at 1.
  unfold bindM at 1. unfold ret at 1.
  unfold valid_theater, theater_query, theater_location, field.
  set (name := py_or (py_or (dict_get d "name" VNone) (dict_get d "theater" VNone))
                     (dict_get d "query" VNone)).
  set (loc := py_or (dict_get d "location" VNone) (VStr "")).
  destruct (truthy name) eqn:Hname; simpl.
  - destruct (truthy loc) eqn:Hloc; simpl.
    + unfold bindM, fetch_showtimes, request_of, theater_query, theater_location, field.
      fold name loc.
      destruct (http_get P _ _) as [raw|e]; [|reflexivity].
      destruct (py_get raw "error") as [error|e]; simpl; [|reflexivity].
      destruct (truthy error); [reflexivity|].
      now destruct (normalize_showtimes _ _).
    + unfold bindM, print, skip_notice. now destruct (print_fails F _ _).
  - unfold bindM, print, skip_notice. now destruct (print_fails F _ _).
Qed.

Lemma fetch_entry_not_dict entries t w :
  (forall d, t <> VDict d) ->
  fetch_entry P F k h g entries t w = Raised AttributeError w.
Proof.
  intros Ht. destruct t as [|b|z|f|s|l|d]; try reflexivity. now destruct (Ht d).
Qed.

Lemma only_requests_and_output_refl w : only_requests_and_output w w.
Proof.
  repeat split; try (exists []; now rewrite app_nil_r).
Qed.

Lemma only_requests_and_output_trans w1 w2 w3 :
  only_requests_and_output w1 w2 -> only_requests_and_output w2 w3 ->
  only_requests_and_output w1 w3.
Proof.
  intros (Hf & Hc & Hs & (rs & Hr) & (ps & Hp)) (Hf' & Hc' & Hs' & (rs' & Hr') & (ps' & Hp')).
  repeat split; try congruence.
  - exists (rs ++ rs'). rewrite Hr', Hr. now rewrite <- app_assoc.
  - exists (ps ++ ps'). rewrite Hp', Hp. now rewrite <- app_assoc.
Qed.

Lemma fetch_entry_frame entries t w :
  only_requests_and_output w (world_of (fetch_entry P F k h g entries t w)).
Proof.
  destruct t as [|b|z|f|s|l|d]; try apply only_requests_and_output_refl.
  rewrite fetch_entry_dict.
  assert (Hreq : forall req,
             only_requests_and_output w
               (mkWorld (files w) (clock_reads w) (requests w ++ [req]) (sleeps w)
                        (printed w))).
  { intros req. repeat split; simpl; eauto. exists []. now rewrite app_nil_r. }
  destruct (valid_theater (VDict d)); cbv zeta.
  - destruct (http_get P _ _) as [raw|e]; [|apply Hreq].
    destruct (py_get raw "error") as [error|e]; [|apply Hreq].
    destruct (truthy error); [apply Hreq|].
    destruct (normalize_showtimes _ _); apply Hreq.
  - destruct (print_fails F _ _); [apply only_requests_and_output_refl|].
    repeat split; simpl; eauto. exists []. now rewrite app_nil_r.
Qed.

Lemma fetch_entries_frame ts entries w :
  only_requests_and_output w (world_of (for_eachM (fetch_entry P F k h g) ts entries w)).
Proof.
  revert entries w. induction ts as [|t rest IH]; intros entries w; simpl.
  - apply only_requests_and_output_refl.
  - unfold bindM. pose proof (fetch_entry_frame entries t w) as Ht.
    destruct (fetch_entry P F k h g entries t w) as [acc w1|e w1|w1]; simpl in Ht;
      try exact Ht.
    eapply only_requests_and_output_trans; [exact Ht | apply IH].
Qed.

Lemma fetch_all_adds theaters w :
  only_requests_and_output w (world_of (fetch_all P F k h g theaters w)).
Proof.
  unfold fetch_all, bindM.
  destruct (py_iter theaters) as [ts|e]; simpl;
    [apply fetch_entries_frame | apply only_requests_and_output_refl].
Qed.

(** X9. However [fetch_all] ends, it has written no file, read no clock and
    slept for no time: it only adds requests to the log and lines to the
    output. *)
Theorem fetch_all_frame theaters w :
  only_requests_and_output w (world_of (fetch_all P F k h g theaters w)).
Proof. apply fetch_all_adds. Qed.

Lemma fetch_entries_requests ts entries w r w' :
  for_eachM (fetch_entry P F k h g) ts entries w = Done r w' ->
  exists new,
    r = entries ++ new /\
    requests w' = requests w ++ map (request_of k h g) (List.filter valid_theater ts) /\
    map (field "theater_label") new = map theater_query (List.filter valid_theater ts) /\
    map (field "location_label") new =
      map theater_location (List.filter valid_theater ts) /\
    printed w' = printed w ++
      List.repeat skip_notice
        (List.length (List.filter (fun t => negb (valid_theater t)) ts)).
Proof.
  revert entries w. induction ts as [|t rest IH]; intros entries w; simpl.
  - unfold ret. intros [= <- <-]. exists []. now rewrite !app_nil_r.
  - unfold bindM.
    destruct (fetch_entry P F k h g entries t w) as [acc w1|e w1|w1] eqn:Ht;
      try discriminate.
    intros Hrest. destruct (IH _ _ Hrest) as (new & -> & Hreq & Hl & Hloc & Hpr).
    destruct t as [|b|z|f|s|l|d]; try discriminate.
    rewrite fetch_entry_dict in Ht.
    destruct (valid_theater (VDict d)) eqn:Hv; cbv zeta in Ht; simpl negb.
    + destruct (http_get P _ _) as [raw|e]; [|discriminate].
      destruct (py_get raw "error") as [error|e]; [|discriminate].
      destruct (truthy error); [discriminate|].
      destruct (normalize_showtimes _ _) as [normalized|e]; [|discriminate].
      injection Ht as <- <-. simpl in Hreq, Hpr.
      eexists. split; [now rewrite <- app_assoc|].
      simpl. rewrite Hreq, Hl, Hloc, Hpr, <- app_assoc. auto.
    + destruct (print_fails F _ _); [discriminate|].
      injection Ht as <- <-. simpl in Hreq, Hpr.
      exists new. split; [reflexivity|].
      simpl. rewrite Hreq, Hl, Hloc, Hpr, <- app_assoc. auto.
Qed.

(** X10. When [fetch_all] returns, it has made one request for every
    configured theater that has a name and a location, in the order of the
    configuration, and built one entry for each, labelled with that name and
    that location; for every other theater it has printed the notice and
    made no request. *)
Theorem fetch_all_requests ts w fresh w' :
  fetch_all P F k h g (VList ts) w = Done fresh w' ->
  requests w' = requests w ++ map (request_of k h g) (List.filter valid_theater ts) /\
  map (field "theater_label") fresh = map theater_query (List.filter valid_theater ts) /\
  map (field "location_label") fresh =
    map theater_location (List.filter valid_theater ts) /\
  printed w' = printed w ++
    List.repeat skip_notice
      (List.length (List.filter (fun t => negb (valid_theater t)) ts)).
Proof.
  unfold fetch_all, bindM. simpl. intros H.
  apply fetch_entries_requests in H as (new & -> & H). exact H.
Qed.

Lemma fetch_entries_built ts entries w r w' :
  for_eachM (fetch_entry P F k h g) ts entries w = Done r w' ->
  Forall built_entry entries -> Forall built_entry r.
Proof.
  revert entries w. induction ts as [|t rest IH]; intros entries w; simpl.
  - unfold ret. now intros [= <- _].
  - unfold bindM.
    destruct (fetch_entry P F k h g entries t w) as [acc w1|e w1|w1] eqn:Ht;
      try discriminate.
    intros Hrest Hacc. apply (IH _ _ Hrest).
    destruct t as [|b|z|f|s|l|d]; try discriminate.
    rewrite fetch_entry_dict in Ht.
    destruct (valid_theater (VDict d)) eqn:Hv; cbv zeta in Ht.
    + destruct (http_get P _ _) as [raw|e]; [|discriminate].
      destruct (py_get raw "error") as [error|e]; [|discriminate].
      destruct (truthy error); [discriminate|].
      destruct (normalize_showtimes _ _) as [normalized|e] eqn:Hn; [|discriminate].
      injection Ht as <- _.
      apply Forall_app; split; [assumption|]. constructor; [|constructor].
      unfold valid_theater in Hv. apply andb_prop in Hv as [Hq Hl].
      eexists _, _, normalized. split; [reflexivity|].
      split; [exact Hq|]. split; [exact Hl|]. split.
      * eapply normalize_entries_shape; eauto.
      * eapply normalize_length_le; eauto.
    + destruct (print_fails F _ _); [discriminate|]. now injection Ht as <- _.
Qed.

(** X11. Every entry [fetch_all] returns has a theater label and a location
    label that are not empty and at most one normalized theater of the
    shape [normalize_showtimes] builds; grouping or flattening what
    [fetch_all] returns therefore does not raise. *)
Theorem fetch_all_builds_dataset theaters w fresh w' (zone : option tzinfo) (now : value) :
  fetch_all P F k h g theaters w = Done fresh w' ->
  Forall built_entry fresh /\
  group_movies_by_theater zone (VList fresh) now =
    Ok (List.filter nonempty (map (entry_items zone now) fresh)).
Proof.
  unfold fetch_all, bindM. destruct (py_iter theaters) as [ts|e]; [|discriminate].
  simpl. intros H.
  assert (Hb : Forall built_entry fresh)
    by (eapply fetch_entries_built; [exact H | constructor]).
  split; [exact Hb|].
  unfold group_movies_by_theater. simpl.
  apply (group_entries_built zone now fresh [] Hb).
Qed.


End WithPlatform.

End FetchFacts.

(* ===================================================================== *)
(** ** The rotation over any groups                                       *)
(* ===================================================================== *)

Module RotationFacts.
Import Engine.

Lemma offset_item (groups : list (list FlatMovieItem)) i g j :
  nth_error groups i = Some g -> (j < List.length g)%nat ->
  nth_error (List.concat groups) (offset groups i + j) = nth_error g j.
Proof.
  intros Hg Hj. apply nth_error_split in Hg as (l1 & l2 & -> & <-).
  unfold offset. rewrite take_app_length, concat_app. simpl.
  rewrite nth_error_app2 by lia.
  replace (List.length (List.concat l1) + j - List.length (List.concat l1))%nat
    with j by lia.
  now apply nth_error_app1.
Qed.

Lemma offset_next (groups : list (list FlatMovieItem)) i g :
  nth_error groups i = Some g ->
  offset groups (S i) = (offset groups i + List.length g)%nat.
Proof.
  intros Hg. apply nth_error_split in Hg as (l1 & l2 & -> & <-).
  unfold offset. rewrite take_app_length.
  replace (S (List.length l1)) with (List.length l1 + 1)%nat by lia.
  rewrite firstn_app_2. simpl. rewrite concat_app, length_app. simpl.
  now rewrite app_nil_r.
Qed.

Lemma offset_all (groups : list (list FlatMovieItem)) :
  offset groups (List.length groups) = List.length (List.concat groups).
Proof. unfold offset. now rewrite firstn_all. Qed.

Lemma offset_zero (groups : list (list FlatMovieItem)) : offset groups 0 = 0%nat.
Proof. reflexivity. Qed.

Lemma succ_mod t n :
  0 < n -> (t + 1) mod n = if Z.ltb (t mod n + 1) n then t mod n + 1 else 0.
Proof.
  intros Hn. rewrite <- Zplus_mod_idemp_l.
  pose proof (Z.mod_pos_bound t n Hn) as Hr.
  destruct (Z.ltb (t mod n + 1) n) eqn:Hlt.
  - apply Z.ltb_lt in Hlt. apply Z.mod_small. lia.
  - apply Z.ltb_ge in Hlt. replace (t mod n + 1) with n by lia.
    apply Z_mod_same_full.
Qed.

Section Rotation.

Variable groups : list (list FlatMovieItem).
Hypothesis some_group : groups <> [].
Hypothesis no_empty_group : Forall (fun g => g <> []) groups.

Let total : nat := List.length (List.concat groups).

Lemma group_count_positive : 0 < Z.of_nat (List.length groups).
Proof. destruct groups; [congruence | simpl; lia]. Qed.

Lemma group_has_item i g : nth_error groups i = Some g -> (0 < List.length g)%nat.
Proof.
  intros Hg. apply nth_error_In in Hg.
  rewrite Forall_forall in no_empty_group.
  apply list_elem_of_In, no_empty_group in Hg. destruct g; [congruence | simpl; lia].
Qed.

Lemma select_in_range st :
  in_range groups st ->
  exists sel,
    select st = Ok sel /\
    nth_error (List.concat groups) (linear groups st) = Some (item sel) /\
    nth_error groups (Z.to_nat (theater_idx st mod Z.of_nat (List.length groups)))
      = Some (current_theater sel).
Proof.
  intros (Hgr & Ht & g & Hg & Hm). destruct st as [gs t m]. simpl in *. subst gs.
  assert (Hlen : (0 < List.length g)%nat) by (eapply group_has_item; eauto).
  assert (Hmm : m mod Z.of_nat (List.length g) = m) by (apply Z.mod_small; lia).
  destruct (nth_error g (Z.to_nat m)) as [it|] eqn:Hit;
    [|apply nth_error_None in Hit; lia].
  eexists. split; [|split].
  - apply (CursorFacts.select_at groups t m g it); try lia.
    + pose proof group_count_positive. lia.
    + exact Hg.
    + now rewrite Hmm.
  - simpl. unfold linear. simpl. rewrite (offset_item groups _ g _ Hg); [exact Hit | lia].
  - exact Hg.
Qed.

Lemma cycle_in_range st :
  in_range groups st ->
  exists st',
    cycle st = Ok st' /\ in_range groups st' /\
    linear groups st' = ((linear groups st + 1) mod total)%nat.
Proof.
  intros Hin. destruct (select_in_range st Hin) as (sel & Hsel & Hitem & Hcur).
  destruct Hin as (Hgr & Ht & g & Hg & Hm).
  rewrite Hg in Hcur. injection Hcur as Hcur.
  unfold cycle. rewrite Hsel. simpl bind. eexists. split; [reflexivity|].
  destruct st as [gs t m]. simpl in *. subst gs.
  rewrite <- Hcur. unfold advance. simpl.
  pose proof group_count_positive as HG.
  pose proof (Z.mod_pos_bound t _ HG) as Hi.
  set (i := Z.to_nat (t mod Z.of_nat (List.length groups))) in *.
  assert (Hig : (i < List.length groups)%nat) by (apply nth_error_Some; congruence).
  assert (Hbound : (offset groups i + List.length g <= total)%nat).
  { rewrite <- (offset_next groups i g Hg). unfold total, offset.
    rewrite <- (firstn_skipn (S i) groups) at 2.
    rewrite concat_app, length_app. lia. }
  destruct (Z.leb (Z.of_nat (List.length g)) (m + 1)) eqn:Hwrap.
  - apply Z.leb_le in Hwrap.
    assert (Hlast : m + 1 = Z.of_nat (List.length g)) by lia.
    pose proof (succ_mod t _ HG) as Hsucc.
    destruct (Z.ltb (t mod Z.of_nat (List.length groups) + 1)
                    (Z.of_nat (List.length groups))) eqn:Hnext.
    + apply Z.ltb_lt in Hnext.
      assert (Hi' : Z.to_nat ((t + 1) mod Z.of_nat (List.length groups)) = S i)
        by (rewrite Hsucc; unfold i; lia).
      destruct (nth_error groups (S i)) as [g'|] eqn:Hg';
        [|apply nth_error_None in Hg'; lia].
      pose proof (group_has_item _ _ Hg') as Hlen'.
      assert (Hbound' : (offset groups (S i) + List.length g' <= total)%nat).
      { rewrite <- (offset_next groups (S i) g' Hg'). unfold total, offset.
        rewrite <- (firstn_skipn (S (S i)) groups) at 2.
        rewrite concat_app, length_app. lia. }
      split.
      * repeat split; simpl; try lia. exists g'. rewrite Hi'. split; [exact Hg' | lia].
      * unfold linear. simpl. rewrite Hi'. fold i.
        pose proof (offset_next groups i g Hg) as Hoff.
        rewrite Nat.mod_small by lia. lia.
    + apply Z.ltb_ge in Hnext.
      assert (Hi' : Z.to_nat ((t + 1) mod Z.of_nat (List.length groups)) = 0%nat)
        by (rewrite Hsucc; reflexivity).
      assert (HSi : S i = List.length groups) by (unfold i; lia).
      destruct (nth_error groups 0) as [g0|] eqn:Hg0;
        [|apply nth_error_None in Hg0; lia].
      pose proof (group_has_item _ _ Hg0) as Hlen0.
      split.
      * repeat split; simpl; try lia. exists g0. rewrite Hi'. split; [exact Hg0 | lia].
      * unfold linear. simpl. rewrite Hi'. fold i. rewrite offset_zero.
        pose proof (offset_next groups i g Hg) as Hoff.
        pose proof (offset_all groups) as Hall. rewrite <- HSi in Hall.
        replace (offset groups i + Z.to_nat m + 1)%nat with total
          by (unfold total; lia).
        symmetry. simpl. apply Nat.Div0.mod_same.
  - apply Z.leb_gt in Hwrap. split.
    + repeat split; simpl; try lia. exists g. split; [exact Hg | lia].
    + unfold linear. simpl. fold i.
      rewrite Nat.mod_small by lia. lia.
Qed.

Lemma cycles_in_range n st :
  in_range groups st ->
  exists st',
    cycles n st = Ok st' /\ in_range groups st' /\
    linear groups st' = ((linear groups st + n) mod total)%nat.
Proof.
  revert st. induction n as [|n IH]; intros st Hin.
  - exists st. split; [reflexivity|]. split; [exact Hin|].
    rewrite Nat.add_0_r. symmetry. apply Nat.mod_small.
    destruct (select_in_range st Hin) as (sel & _ & Hitem & _).
    apply nth_error_Some. unfold total in *. congruence.
  - destruct (cycle_in_range st Hin) as (st1 & Hc & Hin1 & Hl1).
    destruct (IH st1 Hin1) as (st' & Hcs & Hin' & Hl').
    exists st'. split; [simpl; now rewrite Hc|]. split; [exact Hin'|].
    rewrite Hl', Hl1, Nat.Div0.add_mod_idemp_l. f_equal. lia.
Qed.

Lemma start_in_range : in_range groups (mkState groups 0 0).
Proof.
  pose proof group_count_positive as HG.
  destruct (nth_error groups 0) as [g0|] eqn:Hg0;
    [|apply nth_error_None in Hg0; lia].
  pose proof (group_has_item _ _ Hg0) as Hlen0.
  repeat split; simpl; try lia. exists g0.
  split; [exact Hg0 | lia].
Qed.

(** Over any groups, none of them empty, [n] cycles of the cursor from
    (0,0) lead to the [n mod N]-th item of the concatenated groups, [N]
    being the number of items. *)
Lemma cycles_visit_all n :
  exists st sel,
    cycles n (mkState groups 0 0) = Ok st /\
    select st = Ok sel /\
    nth_error (List.concat groups) (n mod List.length (List.concat groups))%nat
      = Some (item sel).
Proof.
  destruct (cycles_in_range n _ start_in_range) as (st & Hc & Hin & Hl).
  destruct (select_in_range st Hin) as (sel & Hsel & Hitem & _).
  exists st, sel. split; [exact Hc|]. split; [exact Hsel|].
  rewrite Hl in Hitem. unfold linear in Hitem. simpl in Hitem.
  exact Hitem.
Qed.

End Rotation.

End RotationFacts.

(* ===================================================================== *)
(** ** Further properties of the display loop                             *)
(* ===================================================================== *)

Module LoopFacts.
Import Engine.

Section WithPlatform.

Variable P : platform.
Variable F : faults.
Variable L : locals.

Lemma backoff w :
  time_sleep P (VInt 5) w =
  let w' := mkWorld (files w) (clock_reads w) (requests w) (sleeps w ++ [VInt 5])
                    (printed w) in
  if interrupts P (List.length (sleeps w)) then Interrupted w' else Done tt w'.
Proof. unfold time_sleep. now rewrite (sleep_five P). Qed.

(** What [rollover] does when the cache is not of today. *)
Lemma rollover_stale st w :
  cache_path L <> "" ->
  stale (cache_path L) (today P L w) w ->
  rollover P F L st w =
  match refresh P F L (after_clock_read w) with
  | Done st' w2 =>
      match theater_groups st' with
      | [] =>
          match print_fails F (printed w2)
                  "No movies found after refresh. Retrying in 5 seconds..." with
          | Some e => Raised e w2
          | None =>
              if interrupts P (List.length (sleeps w2))
              then Interrupted (after_empty_refresh w2)
              else Done (inl st') (after_empty_refresh w2)
          end
      | _ => Done (inr st') w2
      end
  | Raised e w2 =>
      match print_fails F (printed w2)
              (newline ++ "Error refreshing daily data: " ++ exn_text P e) with
      | Some e' => Raised e' w2
      | None =>
          if interrupts P (List.length (sleeps w2))
          then Interrupted (after_refresh_backoff P e w2)
          else Done (inl st) (after_refresh_backoff P e w2)
      end
  | Interrupted w2 => Interrupted w2
  end.
Proof.
  intros Hp Hstale. unfold rollover, bindM at 1, now_in_tz.
  unfold bindM at 1. rewrite (EngineFacts.load_cached_file _ _ Hp). simpl files.
  fold (today P L w). fold (after_clock_read w).
  assert (Hcond :
    (if truthy (match files w !! cache_path L with Some (Json v) => v | _ => VNone end)
     then let* date := py_get (match files w !! cache_path L with
                               | Some (Json v) => v | _ => VNone end) "date" in
          Ok (negb (eq_str date (today P L w)))
     else Ok true) = Ok true).
  { destruct Hstale as [-> | [-> | (d & -> & Hne)]]; try reflexivity.
    destruct (truthy (VDict d)); [|reflexivity].
    rewrite py_get_dict. cbn [bind]. now rewrite Hne. }
  rewrite Hcond. unfold bindM at 1. simpl lift. unfold ret at 1.
  unfold bindM at 1, try_except, bindM at 1.
  destruct (refresh P F L (after_clock_read w)) as [st' w2|e w2|w2]; [| |reflexivity].
  - unfold ret at 1. destruct (theater_groups st') as [|g gs]; [|reflexivity].
    unfold bindM at 1, print. destruct (print_fails F _ _); [reflexivity|].
    unfold bindM. rewrite backoff. simpl.
    unfold after_empty_refresh. now destruct (interrupts P _).
  - unfold bindM at 1, print. destruct (print_fails F _ _); [reflexivity|].
    unfold bindM. rewrite backoff. simpl.
    unfold after_refresh_backoff. now destruct (interrupts P _).
Qed.

Lemma groups_not_empty zone entries now groups :
  group_movies_by_theater zone entries now = Ok groups ->
  Forall (fun g : list FlatMovieItem => g <> []) groups.
Proof.
  unfold group_movies_by_theater. intros H.
  apply bind_ok in H as (es & _ & H).
  apply group_entries_filter in H as (per & _ & ->). simpl.
  pose proof (filter_nonempty per) as Hf.
  eapply Forall_impl; [exact Hf|]. intros g Hg ->. simpl in Hg. lia.
Qed.

Lemma refresh_fresh w st w' :
  refresh P F L w = Done st w' -> fresh_state st.
Proof.
  unfold refresh, bindM. destruct (load_entries_for_today P F L w) as [r w1|e w1|w1];
    try discriminate.
  destruct (group_movies_by_theater _ _ _) as [groups|e] eqn:Hg; [|discriminate].
  simpl. unfold ret. intros [= <- _]. repeat split. simpl.
  eapply groups_not_empty; eauto.
Qed.

Lemma fresh_state_selects st :
  fresh_state st -> theater_groups st <> [] -> exists sel, select st = Ok sel.
Proof.
  intros (Ht & Hm & Hall) Hne. destruct st as [groups t m]. simpl in *. subst.
  destruct (RotationFacts.select_in_range groups Hne Hall (mkState groups 0 0)
              (RotationFacts.start_in_range groups Hne Hall)) as (sel & Hsel & _).
  eauto.
Qed.

Lemma no_groups_raises st w d :
  cache_path L <> "" ->
  files w !! cache_path L = Some (Json (VDict d)) ->
  dict_get d "date" VNone = VStr (today P L w) ->
  theater_groups st = [] ->
  iteration P F L st w = Raised ZeroDivisionError (after_clock_read w).
Proof.
  intros Hp Hf Hd Hg. unfold iteration, bindM at 1.
  rewrite (EngineFacts.rollover_fresh P F L st w d Hp Hf Hd).
  unfold display, bindM, select. rewrite Hg. reflexivity.
Qed.

(** X14. An iteration with no groups, entered while the cache file is of
    today, raises [ZeroDivisionError] at [theater_idx % len(theater_groups)]:
    the date check passes, nothing is refreshed, and the exception is
    raised outside the [try] of the display, so it leaves the loop. *)
Theorem iteration_without_groups st w d :
  cache_path L <> "" ->
  files w !! cache_path L = Some (Json (VDict d)) ->
  dict_get d "date" VNone = VStr (today P L w) ->
  theater_groups st = [] ->
  iteration P F L st w = Raised ZeroDivisionError (after_clock_read w).
Proof. apply no_groups_raises. Qed.

(** X15. When the cache is not of today and the refresh raises (the fetch
    fails, the answer cannot be normalized, the cache cannot be written, the
    cached entries cannot be grouped, a notice cannot be printed), the
    exception is caught and its report printed. When that print succeeds
    the loop sleeps 5 and the iteration ends with the groups and the cursor
    it had; only an interrupt during that sleep ends the loop. When the
    print of the report raises, nothing catches it: the exception leaves
    the loop. *)
Theorem refresh_error_contained st w e w2 :
  cache_path L <> "" ->
  stale (cache_path L) (today P L w) w ->
  refresh P F L (after_clock_read w) = Raised e w2 ->
  iteration P F L st w =
    match print_fails F (printed w2)
            (newline ++ "Error refreshing daily data: " ++ exn_text P e) with
    | Some e' => Raised e' w2
    | None =>
        if interrupts P (List.length (sleeps w2))
        then Interrupted (after_refresh_backoff P e w2)
        else Done st (after_refresh_backoff P e w2)
    end.
Proof.
  intros Hp Hstale Href. unfold iteration, bindM at 1.
  rewrite (rollover_stale st w Hp Hstale), Href.
  destruct (print_fails F _ _); [reflexivity|].
  now destruct (interrupts P _).
Qed.

(** X7. A write of the cache that fails leaves no cache of today. When the
    cache is not of today, [fetch_all] returns and [save_cached] raises,
    [load_entries_for_today] raises that exception after the requests were
    made and returns nothing; the cache file is what it was when [open]
    failed and is unreadable when [json.dump] failed, so it is still not of
    today and the next load fetches again. *)
Theorem failed_save_keeps_cache_stale w fresh w1 failure :
  cache_path L <> "" ->
  stale (cache_path L) (today P L w) w ->
  fetch_all P F (config_api_key L) (config_hl L) (config_gl L) (theaters L)
            (after_clock_read w) = Done fresh w1 ->
  write_fails F (cache_path L)
    (VDict [("date", VStr (today P L w)); ("entries", VList fresh)]) = Some failure ->
  exists e w',
    load_entries_for_today P F L w = Raised e w' /\
    (failure = OpenFails e \/ failure = DumpFails e) /\
    requests w' = requests w1 /\
    stale (cache_path L) (today P L w) w'.
Proof.
  intros Hp Hstale Hfetch Hwrite.
  assert (Hmiss :
    files w !! cache_path L = None \/
    files w !! cache_path L = Some Unreadable \/
    (exists v, files w !! cache_path L = Some (Json v) /\ truthy v = false) \/
    (exists d, files w !! cache_path L = Some (Json (VDict d)) /\
               eq_str (dict_get d "date" VNone) (today P L w) = false)).
  { destruct Hstale as [H | [H | H]]; auto. }
  rewrite (EngineFacts.load_entries_miss P F L w Hp Hmiss), Hfetch, Hwrite.
  pose proof (FetchFacts.fetch_all_adds P F (config_api_key L) (config_hl L)
                (config_gl L) (theaters L) (after_clock_read w)) as Hframe.
  rewrite Hfetch in Hframe. destruct Hframe as (Hfiles & _).
  simpl in Hfiles.
  destruct failure as [e|e].
  - exists e, w1. split; [reflexivity|]. split; [now left|]. split; [reflexivity|].
    unfold stale in *. now rewrite Hfiles.
  - exists e, (with_file (cache_path L) Unreadable w1).
    split; [reflexivity|]. split; [now right|]. split; [reflexivity|].
    right; left. simpl. now rewrite lookup_insert_eq.
Qed.

(** X17. A cache file that holds JSON which is neither an object nor falsy
    (a non-empty array, a number, a string) makes the iteration raise
    [AttributeError] at the date check, outside every [try]: the exception
    leaves the loop. *)
Theorem iteration_non_object_cache st w v :
  cache_path L <> "" ->
  files w !! cache_path L = Some (Json v) ->
  truthy v = true -> (forall d, v <> VDict d) ->
  iteration P F L st w = Raised AttributeError (after_clock_read w).
Proof.
  intros Hp Hf Ht Hv. unfold iteration, bindM at 1.
  unfold rollover, bindM at 1, now_in_tz.
  unfold bindM at 1. rewrite (EngineFacts.load_cached_file _ _ Hp). simpl files.
  rewrite Hf, Ht.
  destruct v as [|b|z|f|s|l|d]; try reflexivity. now destruct (Hv d).
Qed.

(** X18. When the first load finds movies, [run_display] enters its loop
    with the cursor at (0,0) over groups none of which is empty, and the
    first selection succeeds; when it finds none, it prints that there is
    nothing to display and returns. *)
Theorem startup_outcome w r w' :
  startup P F L w = Done r w' ->
  match r with
  | Some st => fresh_state st /\ theater_groups st <> [] /\
               exists sel, select st = Ok sel
  | None => exists loaded w1,
              load_entries_for_today P F L w = Done loaded w1 /\
              group_movies_by_theater (Some (display_tz L)) (fst loaded) (snd loaded)
                = Ok [] /\
              w' = add_lines w1
                     ["No movies found to display. Check your config or cache."]
  end.
Proof.
  unfold startup, bindM at 1.
  destruct (load_entries_for_today P F L w) as [loaded w1|e w1|w1]; try discriminate.
  unfold bindM at 1.
  destruct (group_movies_by_theater _ _ _) as [groups|e] eqn:Hg; [|discriminate].
  simpl lift. unfold ret at 1. destruct groups as [|g gs].
  - unfold bindM, print, ret. destruct (print_fails F _ _); [discriminate|].
    intros [= <- <-]. exists loaded, w1. auto.
  - unfold ret. intros [= <- <-].
    assert (Hfresh : fresh_state (mkState (g :: gs) 0 0)).
    { repeat split. simpl. eapply groups_not_empty; eauto. }
    split; [exact Hfresh|]. split; [discriminate|].
    apply fresh_state_selects; [exact Hfresh | discriminate].
Qed.

Lemma refresh_leaves_cache w st w' :
  cache_path L <> "" ->
  refresh P F L w = Done st w' ->
  exists d, files w' !! cache_path L = Some (Json (VDict d)) /\
            dict_get d "date" VNone = VStr (today P L w).
Proof.
  intros Hp. unfold refresh, bindM.
  destruct (load_entries_for_today P F L w) as [r w1|e w1|w1] eqn:Hload; try discriminate.
  destruct (group_movies_by_theater _ _ _) as [groups|e]; [|discriminate].
  simpl. unfold ret. intros [= _ <-].
  destruct (CacheFacts.load_entries_leaves_cache P F L w r w1 Hp Hload) as (d & Hf & Hd & _).
  eauto.
Qed.

End WithPlatform.

Section OutputSucceeds.

Variable P : platform.
Variable L : locals.

(** X16. When the cache is not of today and the refresh returns, the cursor
    is back at (0,0) and no group is empty. With at least one group the
    iteration goes on to display and the selection succeeds; with none it
    prints the notice, sleeps 5 and does not display. The terminal takes
    every line ([reliable]). *)
Theorem rollover_after_refresh st w st' w2 :
  cache_path L <> "" ->
  stale (cache_path L) (today P L w) w ->
  refresh P reliable L (after_clock_read w) = Done st' w2 ->
  fresh_state st' /\
  (theater_groups st' <> [] ->
   rollover P reliable L st w = Done (inr st') w2 /\ exists sel, select st' = Ok sel) /\
  (theater_groups st' = [] ->
   rollover P reliable L st w =
     if interrupts P (List.length (sleeps w2))
     then Interrupted (after_empty_refresh w2)
     else Done (inl st') (after_empty_refresh w2)).
Proof.
  intros Hp Hstale Href.
  pose proof (refresh_fresh _ _ _ _ _ _ Href) as Hfresh.
  split; [exact Hfresh|].
  rewrite (rollover_stale P reliable L st w Hp Hstale), Href. split.
  - intros Hne. split; [|now apply fresh_state_selects].
    destruct (theater_groups st'); [congruence | reflexivity].
  - intros ->. reflexivity.
Qed.

(** X24. The loop can reach the failing state by itself. When the cache is
    stale, the refresh returns no group (no theater has a movie), nobody
    interrupts the backoff and the date does not change, the iteration
    ends normally with the empty group list and the cache of today on
    disk, and the very next iteration raises [ZeroDivisionError], which
    leaves the loop. The terminal takes every line ([reliable]). *)
Theorem empty_refresh_then_crash st w st' w2 :
  cache_path L <> "" ->
  stale (cache_path L) (today P L w) w ->
  refresh P reliable L (after_clock_read w) = Done st' w2 ->
  theater_groups st' = [] ->
  interrupts P (List.length (sleeps w2)) = false ->
  today P L (after_empty_refresh w2) = today P L (after_clock_read w) ->
  iteration P reliable L st w = Done st' (after_empty_refresh w2) /\
  iteration P reliable L st' (after_empty_refresh w2) =
    Raised ZeroDivisionError (after_clock_read (after_empty_refresh w2)).
Proof.
  intros Hp Hstale Href Hg Hint Hday. split.
  - unfold iteration, bindM at 1.
    rewrite (rollover_stale P reliable L st w Hp Hstale), Href, Hg. simpl.
    rewrite Hint. reflexivity.
  - destruct (refresh_leaves_cache P reliable L _ _ _ Hp Href) as (d & Hf & Hd).
    apply (no_groups_raises P reliable L st' (after_empty_refresh w2) d Hp); auto.
    now rewrite Hday.
Qed.

End OutputSucceeds.

End LoopFacts.

(* ===================================================================== *)
(** ** Further properties of the renderer                                 *)
(* ===================================================================== *)

Module RenderFacts.
Import Engine.

Lemma substring_length n s : (String.length (String.substring 0 n s) <= n)%nat.
Proof.
  revert s. induction n as [|n IH]; intros s.
  - destruct s; simpl; lia.
  - destruct s as [|c s']; simpl; [lia|]. specialize (IH s'). lia.
Qed.

Section OutputSucceeds.

Variable P : platform.

Lemma add_lines_app w a b : add_lines (add_lines w a) b = add_lines w (a ++ b).
Proof. unfold add_lines. simpl. now rewrite <- app_assoc. Qed.

Lemma print_adds text w : print reliable text w = Done tt (add_lines w [text]).
Proof. reflexivity. Qed.

Lemma print_then {A} text (k : M A) w :
  (print reliable text ;;; k) w = k (add_lines w [text]).
Proof. reflexivity. Qed.

Lemma print_times ts w :
  for_eachM (fun _ t => print_time P reliable t) ts tt w =
  Done tt (add_lines w (map (fun t => ("  - " ++ py_str (repr P) t)%string) ts)).
Proof.
  revert w. induction ts as [|t rest IH]; intros w; simpl.
  - unfold ret, add_lines. simpl. rewrite app_nil_r. now destruct w.
  - unfold bindM, print_time. rewrite print_adds.
    rewrite IH, add_lines_app. reflexivity.
Qed.

Lemma now_then {A} zone (k : instant -> M A) w lines :
  (run now := now_in_tz P zone in k now) (add_lines w lines) =
  k (now_at P (clock_reads w) zone) (add_lines (after_clock_read w) lines).
Proof. reflexivity. Qed.

Lemma ret_then {A} (k : M A) w : (ret tt ;;; k) w = k w.
Proof. reflexivity. Qed.

Lemma add_no_lines w : add_lines w [] = w.
Proof. unfold add_lines. rewrite app_nil_r. now destruct w. Qed.

(** The renderer up to the title: the header is printed and the clock read. *)
Lemma render_header it w :
  format_single_movie_display P reliable it w =
  (run title := lift (first_60 (py_or (title it) (VStr "(title unknown)"))) in
   let times := py_or (times it) (VList []) in
   print reliable (py_str (repr P) title) ;;;
   (if truthy times then
      print reliable "Times:" ;;;
      run ts := lift (py_iter times) in
      for_eachM (fun _ t => print_time P reliable t) ts tt
    else print reliable "Times: (none listed)") ;;;
   print reliable rule)
    (add_lines (after_clock_read w)
               (header_lines P (stamp (now_at P (clock_reads w) (tz it))) it)).
Proof.
  unfold format_single_movie_display, header_lines.
  rewrite print_then, print_then, add_lines_app, now_then.
  rewrite print_then, add_lines_app, print_then, add_lines_app.
  rewrite print_then, add_lines_app, print_then, add_lines_app.
  destruct (truthy (address it)).
  - rewrite print_then, add_lines_app, print_then, add_lines_app.
    rewrite <- !app_assoc. reflexivity.
  - rewrite ret_then, print_then, add_lines_app.
    rewrite <- !app_assoc. reflexivity.
Qed.

Lemma truthy_or_empty_list a : truthy (py_or a (VList [])) = truthy a.
Proof. unfold py_or. now destruct (truthy a) eqn:Ha. Qed.

(** The renderer from the title on. *)
Lemma render_body it shown w :
  (print reliable (py_str (repr P) shown) ;;;
   (if truthy (py_or (times it) (VList [])) then
      print reliable "Times:" ;;;
      run ts := lift (py_iter (py_or (times it) (VList []))) in
      for_eachM (fun _ t => print_time P reliable t) ts tt
    else print reliable "Times: (none listed)") ;;;
   print reliable rule) w =
  match py_iter (py_or (times it) (VList [])) with
  | Ok ts =>
      Done tt (add_lines w
                 ([py_str (repr P) shown] ++
                  (if truthy (times it)
                   then "Times:" :: map (fun t => ("  - " ++ py_str (repr P) t)%string) ts
                   else ["Times: (none listed)"]) ++ [rule]))
  | Raise e => Raised e (add_lines w [py_str (repr P) shown; "Times:"])
  end.
Proof.
  rewrite print_then, truthy_or_empty_list.
  destruct (truthy (times it)) eqn:Ht.
  - unfold bindM at 1. rewrite print_then. unfold bindM at 1.
    destruct (py_iter (py_or (times it) (VList []))) as [ts|e]; simpl lift.
    + unfold ret at 1. rewrite print_times, print_adds, !add_lines_app.
      rewrite <- ?app_assoc. reflexivity.
    + unfold raise. rewrite add_lines_app. reflexivity.
  - unfold py_or. rewrite Ht. simpl py_iter.
    rewrite print_then, print_adds, !add_lines_app. reflexivity.
Qed.

(** X19. For an item whose title is a string or a list and whose times can
    be iterated, the renderer returns after one reading of the clock,
    having printed the frame: the header with the time stamp, the
    location, the theater label (the theater name when the label is
    empty), the address when there is one, the first 60 characters of the
    title, and one line per time, or the marker when there is none. The
    terminal takes every line ([reliable]). *)
Theorem render_frame it w shown ts :
  first_60 (py_or (title it) (VStr "(title unknown)")) = Ok shown ->
  py_iter (py_or (times it) (VList [])) = Ok ts ->
  format_single_movie_display P reliable it w =
  Done tt (add_lines (after_clock_read w)
             (frame_lines P (stamp (now_at P (clock_reads w) (tz it))) it shown ts)).
Proof.
  intros Hshown Hts. rewrite render_header. unfold bindM at 1. rewrite Hshown.
  simpl lift. unfold ret at 1. cbv zeta. rewrite render_body, Hts, add_lines_app.
  unfold header_lines, frame_lines. rewrite <- ?app_assoc. reflexivity.
Qed.

Lemma render_cases it w :
  format_single_movie_display P reliable it w =
  let header := header_lines P (stamp (now_at P (clock_reads w) (tz it))) it in
  match first_60 (py_or (title it) (VStr "(title unknown)")) with
  | Raise e => Raised e (add_lines (after_clock_read w) header)
  | Ok shown =>
      match py_iter (py_or (times it) (VList [])) with
      | Ok ts =>
          Done tt (add_lines (after_clock_read w)
                     (header ++ [py_str (repr P) shown] ++
                      (if truthy (times it)
                       then "Times:" ::
                            map (fun t => ("  - " ++ py_str (repr P) t)%string) ts
                       else ["Times: (none listed)"]) ++ [rule]))
      | Raise e =>
          Raised e (add_lines (after_clock_read w)
                      (header ++ [py_str (repr P) shown; "Times:"]))
      end
  end.
Proof.
  rewrite render_header. unfold bindM at 1. cbv zeta.
  destruct (first_60 _) as [shown|e]; simpl lift; [|reflexivity].
  unfold ret at 1. rewrite render_body.
  destruct (py_iter _) as [ts|e]; now rewrite add_lines_app.
Qed.

End OutputSucceeds.

Section WithFaults.

Variable P : platform.
Variable F : faults.

Lemma same_but_for_output {A} (m : M A) : but_for_output F m m.
Proof. intros w. now left. Qed.

Lemma print_but_for_output text :
  but_for_output F (print F text) (print reliable text).
Proof.
  intros w. unfold print. simpl.
  destruct (print_fails F (printed w) text) as [e|] eqn:H.
  - right. exists e, w, text. auto.
  - now left.
Qed.

Lemma bind_but_for_output {A B} (m m' : M A) (k k' : A -> M B) :
  but_for_output F m m' -> (forall a, but_for_output F (k a) (k' a)) ->
  but_for_output F (bindM m k) (bindM m' k').
Proof.
  intros Hm Hk w. unfold bindM. destruct (Hm w) as [-> | (e & w' & text & -> & Hf)].
  - destruct (m' w) as [a w1|e w1|w1]; [apply Hk | now left | now left].
  - right. exists e, w', text. auto.
Qed.

Lemma for_each_but_for_output {A S} (body body' : S -> A -> M S) xs :
  (forall s a, but_for_output F (body s a) (body' s a)) ->
  forall acc, but_for_output F (for_eachM body xs acc) (for_eachM body' xs acc).
Proof.
  intros Hb. induction xs as [|x rest IH]; intros acc; simpl.
  - apply same_but_for_output.
  - apply bind_but_for_output; [apply Hb | exact IH].
Qed.

(** The renderer does what it does on a terminal that works, unless a
    [print] raises. *)
Lemma render_but_for_output it :
  but_for_output F (format_single_movie_display P F it)
                   (format_single_movie_display P reliable it).
Proof.
  unfold format_single_movie_display. cbv zeta.
  repeat (apply bind_but_for_output;
          [first [apply print_but_for_output | apply same_but_for_output | idtac]
          | intros ?]);
    try apply print_but_for_output.
  - destruct (truthy (address it));
      [apply print_but_for_output | apply same_but_for_output].
  - destruct (truthy (py_or (times it) (VList []))); [|apply print_but_for_output].
    apply bind_but_for_output; [apply print_but_for_output | intros ?].
    apply bind_but_for_output; [apply same_but_for_output | intros ts].
    apply for_each_but_for_output. intros ? t. apply print_but_for_output.
Qed.

Lemma pure_output_and_clock {A} (r : result A) : output_and_clock 0 (lift r).
Proof.
  intros w. destruct r; simpl; repeat split; try lia. all: exists []; now rewrite app_nil_r.
Qed.

Lemma ret_output_and_clock {A} (a : A) : output_and_clock 0 (ret a).
Proof. exact (pure_output_and_clock (Ok a)). Qed.

Lemma print_output_and_clock text : output_and_clock 0 (print F text).
Proof.
  intros w. unfold print. destruct (print_fails F _ _); simpl; repeat split; try lia.
  - exists []. now rewrite app_nil_r.
  - eauto.
Qed.

Lemma now_output_and_clock zone : output_and_clock 1 (now_in_tz P zone).
Proof.
  intros w. simpl. repeat split; try lia. exists []. now rewrite app_nil_r.
Qed.

Lemma bind_output_and_clock {A B} n1 n2 (m : M A) (k : A -> M B) :
  output_and_clock n1 m -> (forall a, output_and_clock n2 (k a)) ->
  output_and_clock (n1 + n2) (bindM m k).
Proof.
  intros Hm Hk w. unfold bindM. specialize (Hm w).
  destruct (m w) as [a w1|e w1|w1]; simpl in Hm.
  - destruct Hm as (Hf & Hr & Hs & Hc & (ps & Hp)).
    destruct (Hk a w1) as (Hf' & Hr' & Hs' & Hc' & (ps' & Hp')).
    repeat split; try congruence; try lia.
    exists (ps ++ ps'). rewrite Hp', Hp. now rewrite <- app_assoc.
  - destruct Hm as (Hf & Hr & Hs & Hc & Hp). simpl. repeat split; auto; lia.
  - destruct Hm as (Hf & Hr & Hs & Hc & Hp). simpl. repeat split; auto; lia.
Qed.

Lemma for_each_output_and_clock {A S} (body : S -> A -> M S) xs :
  (forall s a, output_and_clock 0 (body s a)) ->
  forall acc, output_and_clock 0 (for_eachM body xs acc).
Proof.
  intros Hb. induction xs as [|x rest IH]; intros acc; simpl.
  - apply ret_output_and_clock.
  - apply (bind_output_and_clock 0 0); [apply Hb | exact IH].
Qed.

Lemma render_output_and_clock it :
  output_and_clock 1 (format_single_movie_display P F it).
Proof.
  unfold format_single_movie_display. cbv zeta.
  apply (bind_output_and_clock 0 1); [apply print_output_and_clock | intros _].
  apply (bind_output_and_clock 0 1); [apply print_output_and_clock | intros _].
  apply (bind_output_and_clock 1 0); [apply now_output_and_clock | intros now].
  repeat (apply (bind_output_and_clock 0 0);
          [first [apply print_output_and_clock | apply pure_output_and_clock | idtac]
          | intros ?]);
    try apply print_output_and_clock.
  - destruct (truthy (address it));
      [apply print_output_and_clock | apply ret_output_and_clock].
  - destruct (truthy (py_or (times it) (VList []))); [|apply print_output_and_clock].
    apply (bind_output_and_clock 0 0); [apply print_output_and_clock | intros _].
    apply (bind_output_and_clock 0 0); [apply pure_output_and_clock | intros ts].
    apply for_each_output_and_clock. intros ? t. apply print_output_and_clock.
Qed.

(** When the renderer returns, no [print] has raised and the frame is out. *)
Lemma render_returned it w w' :
  format_single_movie_display P F it w = Done tt w' ->
  exists shown ts,
    first_60 (py_or (title it) (VStr "(title unknown)")) = Ok shown /\
    py_iter (py_or (times it) (VList [])) = Ok ts /\
    w' = add_lines (after_clock_read w)
           (header_lines P (stamp (now_at P (clock_reads w) (tz it))) it
            ++ [py_str (repr P) shown]
            ++ (if truthy (times it)
                then "Times:" :: map (fun t => ("  - " ++ py_str (repr P) t)%string) ts
                else ["Times: (none listed)"])
            ++ [rule]).
Proof.
  intros H. destruct (render_but_for_output it w) as [Heq | (e & w1 & text & Hr & _)];
    [|congruence].
  rewrite H, render_cases in Heq. cbv zeta in Heq.
  destruct (first_60 _) as [shown|e]; [|discriminate].
  destruct (py_iter _) as [ts|e]; [|discriminate].
  injection Heq as ->. eauto.
Qed.

(** X20. The renderer raises for three reasons only: a [print] that
    raises, a title that is neither a string nor a list and cannot be
    sliced, times that are not empty and cannot be iterated. On a terminal
    that works, a title that cannot be sliced raises once the header is
    printed, and times that cannot be iterated raise once the header, the
    title and the line [Times:] are printed. *)
Theorem render_raises it w :
  (forall e w',
      format_single_movie_display P F it w = Raised e w' ->
      (exists text, print_fails F (printed w') text = Some e) \/
      first_60 (py_or (title it) (VStr "(title unknown)")) = Raise e \/
      (exists shown,
          first_60 (py_or (title it) (VStr "(title unknown)")) = Ok shown /\
          py_iter (py_or (times it) (VList [])) = Raise e)) /\
  (forall e,
      first_60 (py_or (title it) (VStr "(title unknown)")) = Raise e ->
      format_single_movie_display P reliable it w =
      Raised e (add_lines (after_clock_read w)
                  (header_lines P (stamp (now_at P (clock_reads w) (tz it))) it))) /\
  (forall shown e,
      first_60 (py_or (title it) (VStr "(title unknown)")) = Ok shown ->
      py_iter (py_or (times it) (VList [])) = Raise e ->
      format_single_movie_display P reliable it w =
      Raised e (add_lines (after_clock_read w)
                  (header_lines P (stamp (now_at P (clock_reads w) (tz it))) it
                   ++ [py_str (repr P) shown; "Times:"]))).
Proof.
  split; [|split].
  - intros e w' H.
    destruct (render_but_for_output it w) as [Heq | (e1 & w1 & text & Hr & Hf)].
    + rewrite H, render_cases in Heq. cbv zeta in Heq.
      destruct (first_60 _) as [shown|e1].
      * destruct (py_iter _) as [ts|e2]; [discriminate|].
        injection Heq as -> _. right; right. eauto.
      * injection Heq as -> _. right; left. reflexivity.
    + rewrite H in Hr. injection Hr as -> ->. left. eauto.
  - intros e He. rewrite render_cases. cbv zeta. now rewrite He.
  - intros shown e Hshown He. rewrite render_cases. cbv zeta. now rewrite Hshown, He.
Qed.

(** X21. However the renderer ends (it returns, it raises on the item, a
    [print] raises), it has written no file, made no request and slept for
    no time, it has read the clock at most once, and what it printed was
    added to the output. When it returns it has read the clock once. *)
Theorem render_touches_only_output it w :
  let o := format_single_movie_display P F it w in
  files (world_of o) = files w /\
  requests (world_of o) = requests w /\
  sleeps (world_of o) = sleeps w /\
  (clock_reads w <= clock_reads (world_of o) <= S (clock_reads w))%nat /\
  (exists lines, printed (world_of o) = printed w ++ lines) /\
  (forall w', o = Done tt w' -> clock_reads w' = S (clock_reads w)).
Proof.
  cbv zeta. destruct (render_output_and_clock it w) as (Hf & Hr & Hs & Hc & Hp).
  repeat split; auto; try lia.
  intros w' H. apply render_returned in H as (shown & ts & _ & _ & ->). reflexivity.
Qed.

(** X22. In a frame the renderer has printed, the line after the header is
    the title, and when the title is a string it is the title cut after 60
    characters (the default title when the title is empty): never longer
    than 60 characters. *)
Theorem title_line_short it s w w' :
  title it = VStr s ->
  format_single_movie_display P F it w = Done tt w' ->
  let line := String.substring 0 60 (if String.eqb s "" then "(title unknown)" else s) in
  (String.length line <= 60)%nat /\
  exists rest,
    printed w' =
      printed w ++ header_lines P (stamp (now_at P (clock_reads w) (tz it))) it
                ++ [line] ++ rest.
Proof.
  intros Ht H line. split; [apply substring_length|].
  apply render_returned in H as (shown & ts & Hshown & _ & ->).
  assert (Hline : shown = VStr line).
  { rewrite Ht in Hshown. unfold py_or in Hshown. simpl truthy in Hshown.
    revert Hshown. unfold line. destruct (String.eqb s ""); simpl; congruence. }
  subst shown. eexists. simpl printed. reflexivity.
Qed.

End WithFaults.

End RenderFacts.

(* ===================================================================== *)
(** ** An iteration that displays                                         *)
(* ===================================================================== *)

Module DisplayFacts.
Import Engine.

Section OutputSucceeds.

Variable P : platform.
Variable L : locals.

Lemma iteration_displays st w d sel shown ts :
  cache_path L <> "" ->
  files w !! cache_path L = Some (Json (VDict d)) ->
  dict_get d "date" VNone = VStr (today P L w) ->
  select st = Ok sel ->
  first_60 (py_or (title (item sel)) (VStr "(title unknown)")) = Ok shown ->
  py_iter (py_or (times (item sel)) (VList [])) = Ok ts ->
  sleep_rejects P (cycle_delay L) = None ->
  let lines := frame_lines P (stamp (now_at P (S (clock_reads w)) (tz (item sel))))
                           (item sel) shown ts in
  iteration P reliable L st w =
    (if interrupts P (List.length (sleeps w))
     then Interrupted (after_show w (cycle_delay L) lines)
     else Done (advance st (current_theater sel)) (after_show w (cycle_delay L) lines))
  /\ cycle st = Ok (advance st (current_theater sel)).
Proof.
  intros Hp Hf Hd Hsel Hshown Hts Hsleep lines. split.
  - unfold iteration, bindM at 1.
    rewrite (EngineFacts.rollover_fresh P reliable L st w d Hp Hf Hd).
    unfold display, bindM at 1. rewrite Hsel. simpl lift. unfold ret at 1.
    unfold try_except, bindM at 1, show, bindM at 1.
    rewrite (RenderFacts.render_cases P (item sel) (after_clock_read w)).
    cbv zeta. rewrite Hshown, Hts.
    unfold time_sleep. rewrite Hsleep.
    cbn [sleeps add_lines after_clock_read files clock_reads requests printed].
    unfold after_show, lines, frame_lines, header_lines.
    rewrite <- ?app_assoc.
    now destruct (interrupts P _).
  - unfold cycle. now rewrite Hsel.
Qed.

(** X25. An iteration entered while the cache file is of today, on an item
    that can be rendered, with a cycle delay that [time.sleep] accepts:
    the frame is printed, the loop sleeps for the cycle delay, and the
    cursor advances as [cycle] does; nothing is fetched or written. An
    interrupt during that sleep ends the loop instead. The terminal takes
    every line ([reliable]). *)
Theorem displayed_iteration st w d sel shown ts :
  cache_path L <> "" ->
  files w !! cache_path L = Some (Json (VDict d)) ->
  dict_get d "date" VNone = VStr (today P L w) ->
  select st = Ok sel ->
  first_60 (py_or (title (item sel)) (VStr "(title unknown)")) = Ok shown ->
  py_iter (py_or (times (item sel)) (VList [])) = Ok ts ->
  sleep_rejects P (cycle_delay L) = None ->
  let lines := frame_lines P (stamp (now_at P (S (clock_reads w)) (tz (item sel))))
                           (item sel) shown ts in
  iteration P reliable L st w =
    (if interrupts P (List.length (sleeps w))
     then Interrupted (after_show w (cycle_delay L) lines)
     else Done (advance st (current_theater sel)) (after_show w (cycle_delay L) lines))
  /\ cycle st = Ok (advance st (current_theater sel)).
Proof. apply iteration_displays. Qed.

End OutputSucceeds.

End DisplayFacts.

(* ===================================================================== *)
(** ** The loop over many iterations                                      *)
(* ===================================================================== *)

Module RunFacts.
Import Engine.

Section Undisturbed.

Variable P : platform.
Variable L : locals.
Variable day : string.

Hypothesis path_set : cache_path L <> "".
Hypothesis calm : undisturbed P L day.

(** One iteration of an undisturbed run: no refresh, the item shown for the
    cycle delay, the cursor moved. *)
Lemma undisturbed_iteration st w sel :
  cached_for (cache_path L) day w ->
  select st = Ok sel ->
  renderable (item sel) ->
  exists w',
    iteration P reliable L st w = Done (advance st (current_theater sel)) w' /\
    files w' = files w /\ requests w' = requests w /\
    sleeps w' = sleeps w ++ [cycle_delay L].
Proof.
  destruct calm as (Hday & Hsleep & Hint).
  intros (d & Hf & Hd) Hsel ((shown & Hshown) & (ts & Hts)).
  assert (Hd' : dict_get d "date" VNone = VStr (today P L w))
    by (unfold today; now rewrite Hday).
  destruct (DisplayFacts.iteration_displays P L st w d sel shown ts
              path_set Hf Hd' Hsel Hshown Hts Hsleep) as [Hit _].
  cbv zeta in Hit. rewrite Hint in Hit.
  eexists. split; [exact Hit|]. repeat split.
Qed.

Section Groups.

Variable groups : list (list FlatMovieItem).
Hypothesis some_group : groups <> [].
Hypothesis no_empty_group : Forall (fun g => g <> []) groups.
Hypothesis all_renderable : Forall renderable (List.concat groups).

(** [n] iterations of an undisturbed run move the cursor as [n] cycles do;
    nothing is requested or written, and the loop has slept [n] times for
    the cycle delay. *)
Lemma undisturbed_iterations n st w :
  in_range groups st ->
  cached_for (cache_path L) day w ->
  exists st' w',
    iterations P reliable L n st w = Done st' w' /\
    cycles n st = Ok st' /\
    files w' = files w /\ requests w' = requests w /\
    sleeps w' = sleeps w ++ List.repeat (cycle_delay L) n.
Proof.
  revert st w. induction n as [|n IH]; intros st w Hin Hcache.
  - exists st, w. repeat split. simpl. now rewrite app_nil_r.
  - destruct (RotationFacts.select_in_range groups some_group no_empty_group st Hin)
      as (sel & Hsel & Hitem & _).
    assert (Hr : renderable (item sel)).
    { rewrite Forall_forall in all_renderable. apply all_renderable.
      apply list_elem_of_In. eapply nth_error_In; eauto. }
    destruct (undisturbed_iteration st w sel Hcache Hsel Hr)
      as (w1 & Hit & Hf1 & Hr1 & Hs1).
    destruct (RotationFacts.cycle_in_range groups some_group no_empty_group st Hin)
      as (st1 & Hc & Hin1 & _).
    assert (Hst1 : st1 = advance st (current_theater sel)).
    { unfold cycle in Hc. rewrite Hsel in Hc. simpl in Hc. congruence. }
    assert (Hcache1 : cached_for (cache_path L) day w1).
    { destruct Hcache as (d & Hf & Hd). exists d. now rewrite Hf1. }
    destruct (IH st1 w1 Hin1 Hcache1) as (st' & w' & Hits & Hcs & Hf' & Hr' & Hs').
    exists st', w'. split; [|split; [|split; [|split]]].
    + simpl. unfold bindM. rewrite Hit, <- Hst1. exact Hits.
    + simpl. now rewrite Hc.
    + congruence.
    + congruence.
    + rewrite Hs', Hs1, <- app_assoc. reflexivity.
Qed.

(** X13. Over any groups, none of them empty, of items that can be
    rendered, the loop started at (0,0) on an undisturbed day never fails
    to select, and after [n] iterations the item it selects is the
    [n mod N]-th item of the concatenated groups, [N] being the number of
    items: every item is shown once per round, group after group. Nothing
    was requested meanwhile, and the loop has slept [n] times for the cycle
    delay. The terminal takes every line ([reliable]). *)
Theorem rotation_visits_all n w :
  cached_for (cache_path L) day w ->
  exists st w' sel,
    iterations P reliable L n (mkState groups 0 0) w = Done st w' /\
    select st = Ok sel /\
    nth_error (List.concat groups) (n mod List.length (List.concat groups))%nat
      = Some (item sel) /\
    requests w' = requests w /\
    sleeps w' = sleeps w ++ List.repeat (cycle_delay L) n.
Proof.
  intros Hcache.
  pose proof (RotationFacts.start_in_range groups some_group no_empty_group) as Hstart.
  destruct (undisturbed_iterations n _ w Hstart Hcache)
    as (st & w' & Hit & Hcs & _ & Hr & Hs).
  destruct (RotationFacts.cycles_visit_all groups some_group no_empty_group n)
    as (st2 & sel & Hcs2 & Hsel & Hitem).
  assert (st2 = st) by congruence. subst st2.
  exists st, w', sel. auto.
Qed.

End Groups.

(** C2. With groups of sizes 2 and 3 and the cursor started at (0,0), on a
    day on which nothing is refreshed and nothing raises, the item the loop
    resolves after [n] iterations is the [n mod 5]-th of: group 0 item 0,
    group 0 item 1, group 1 item 0, group 1 item 1, group 1 item 2. The
    rotation has period 5 and shows every item once per period; no request
    is made meanwhile. The day is undisturbed: the date does not change,
    the items can be rendered, the terminal takes every line ([reliable]),
    the cycle delay is accepted and nobody interrupts. *)
Theorem loop_cycle_two_three a b c d e n w :
  Forall renderable [a; b; c; d; e] ->
  cached_for (cache_path L) day w ->
  exists st w' sel,
    iterations P reliable L n (mkState [[a; b]; [c; d; e]] 0 0) w = Done st w' /\
    select st = Ok sel /\
    (theater_idx_normalized sel, movie_idx_normalized sel) =
      nth (n mod 5)%nat [(0, 0); (0, 1); (1, 0); (1, 1); (1, 2)] (0, 0) /\
    item sel = nth (n mod 5)%nat [a; b; c; d; e] a /\
    requests w' = requests w /\
    sleeps w' = sleeps w ++ List.repeat (cycle_delay L) n.
Proof.
  intros Hrender Hcache.
  assert (Hsome : [[a; b]; [c; d; e]] <> []) by discriminate.
  assert (Hfull : Forall (fun g : list FlatMovieItem => g <> []) [[a; b]; [c; d; e]])
    by (repeat constructor; discriminate).
  pose proof (RotationFacts.start_in_range _ Hsome Hfull) as Hstart.
  destruct (undisturbed_iterations _ Hsome Hfull Hrender n _ w Hstart Hcache)
    as (st & w' & Hit & Hcs & _ & Hr & Hs).
  destruct (CursorFacts.cycles_two_three a b c d e n)
    as (st2 & sel & Hcs2 & Hsel & Hidx & Hitem).
  assert (st2 = st) by congruence. subst st2.
  exists st, w', sel. auto 10.
Qed.

End Undisturbed.

End RunFacts.

(* ===================================================================== *)
(** ** Properties of load_config                                          *)
(* ===================================================================== *)

Module ConfigFacts.
Import Engine Config.

(** [load_config] on a file that holds a dictionary. *)
Lemma load_config_dict path w d :
  path <> "" ->
  files w !! path = Some (Json (VDict d)) ->
  load_config path w =
  match lookup_key d "api_key", lookup_key d "theaters" with
  | Some _, Some (VList _) => Done (VDict d) w
  | _, _ => Raised ValueError w
  end.
Proof.
  intros Hp Hf. unfold load_config, bindM at 1, read_json.
  destruct (String.eqb path "") eqn:H; [apply String.eqb_eq in H; contradiction|].
  rewrite Hf. unfold bindM at 1. simpl lift. unfold ret at 1.
  destruct (lookup_key d "api_key") as [key|]; simpl; [|reflexivity].
  unfold bindM at 1. unfold ret at 1. simpl.
  destruct (lookup_key d "theaters") as [listed|] eqn:Hl; simpl.
  - destruct listed; reflexivity.
  - reflexivity.
Qed.

(** X23. [load_config] returns exactly when the file holds a JSON object in
    which [api_key] is bound and [theaters] is bound to a list, and then it
    returns that object and leaves the world as it was. A missing file,
    content that is not JSON, JSON that is not an object, a missing key or
    a [theaters] that is not a list all raise. *)
Theorem load_config_returns_iff path w data w' :
  load_config path w = Done data w' <->
  w' = w /\ path <> "" /\ files w !! path = Some (Json data) /\
  exists d key ts,
    data = VDict d /\ lookup_key d "api_key" = Some key /\
    lookup_key d "theaters" = Some (VList ts).
Proof.
  split.
  - intros H.
    destruct (String.eqb path "") eqn:Hp.
    { unfold load_config, bindM, read_json in H. rewrite Hp in H. discriminate. }
    assert (Hne : path <> "") by (intros ->; discriminate).
    destruct (files w !! path) as [[v|]|] eqn:Hf.
    + destruct v as [|b|z|f|s|l|d].
      1-4: (unfold load_config, bindM, read_json in H; rewrite Hp, Hf in H;
            discriminate).
      * unfold load_config, bindM at 1, read_json in H. rewrite Hp, Hf in H.
        unfold bindM at 1 in H. simpl lift in H. unfold ret at 1 in H.
        destruct (negb _); [discriminate|].
        unfold bindM at 1 in H. simpl lift in H. unfold ret at 1 in H.
        destruct (negb _); unfold bindM in H; simpl in H; discriminate.
      * unfold load_config, bindM at 1, read_json in H. rewrite Hp, Hf in H.
        unfold bindM at 1 in H. simpl lift in H. unfold ret at 1 in H.
        destruct (negb _); [discriminate|].
        unfold bindM at 1 in H. simpl lift in H. unfold ret at 1 in H.
        destruct (negb _); unfold bindM in H; simpl in H; discriminate.
      * rewrite (load_config_dict path w d Hne Hf) in H.
        destruct (lookup_key d "api_key") as [key|] eqn:Hk; [|discriminate].
        destruct (lookup_key d "theaters") as [[| | | | |ts|]|] eqn:Ht;
          try discriminate.
        injection H as <- <-. repeat split; auto. exists d, key, ts. auto.
    + unfold load_config, bindM, read_json in H. rewrite Hp, Hf in H. discriminate.
    + unfold load_config, bindM, read_json in H. rewrite Hp, Hf in H. discriminate.
  - intros (-> & Hne & Hf & d & key & ts & -> & Hk & Ht).
    rewrite (load_config_dict path w d Hne Hf), Hk, Ht. reflexivity.
Qed.

End ConfigFacts.

(* ===================================================================== *)
(** ** Properties of format_showtime_display                              *)
(* ===================================================================== *)

Module TableFacts.
Import Engine Config Table.

Section OutputSucceeds.

Variable P : platform.

Lemma run_ok {A B} (a : A) (k : A -> M B) w :
  (run x := lift (Ok a) in k x) w = k a w.
Proof. reflexivity. Qed.

Lemma print_extra_times ts w :
  for_eachM (fun _ t => print_extra_time P reliable t) ts tt w =
  Done tt (add_lines w
             (map (fun x => (left_in_60 "" ++ " " ++ py_str (repr P) x)%string) ts)).
Proof.
  revert w. induction ts as [|t rest IH]; intros w; simpl.
  - unfold ret. now rewrite RenderFacts.add_no_lines.
  - unfold bindM, print_extra_time. rewrite RenderFacts.print_adds.
    rewrite IH, RenderFacts.add_lines_app. reflexivity.
Qed.

Lemma show_movie_listed total row w :
  listed_row row ->
  show_movie P reliable total row w =
  Done (total + Z.of_nat (List.length (elements (field "times" row))))
       (add_lines w (movie_lines P row)).
Proof.
  intros (s & ts & ->). unfold show_movie, movie_lines, title_text.
  change (field "title" (VDict [("title", VStr s); ("times", VList ts)]))
    with (VStr s).
  change (field "times" (VDict [("title", VStr s); ("times", VList ts)]))
    with (VList ts).
  change (py_item (VDict [("title", VStr s); ("times", VList ts)]) "title")
    with (Ok (VStr s)).
  rewrite run_ok.
  change (first_59 (VStr s)) with (Ok (SlicedStr (String.substring 0 59 s))).
  rewrite run_ok. cbn [elements].
  destruct ts as [|t rest].
  - change (py_get (VDict [("title", VStr s); ("times", VList [])]) "times"
            ||| Ok (VList [])) with (Ok (VList [])).
    rewrite run_ok. cbn [truthy negb title_cell]. rewrite run_ok.
    rewrite RenderFacts.print_then. unfold ret. cbn [List.length].
    now rewrite Z.add_0_r.
  - change (py_get (VDict [("title", VStr s); ("times", VList (t :: rest))]) "times"
            ||| Ok (VList [])) with (Ok (VList (t :: rest))).
    rewrite run_ok. cbn [truthy negb title_cell py_first]. rewrite !run_ok.
    rewrite RenderFacts.print_then. cbn [py_rest tail]. rewrite run_ok.
    unfold bindM at 1. rewrite print_extra_times.
    cbn [py_len]. rewrite run_ok. unfold ret.
    now rewrite RenderFacts.add_lines_app.
Qed.

Lemma show_movies_listed rows total w :
  Forall listed_row rows ->
  for_eachM (show_movie P reliable) rows total w =
  Done (total + count_times rows) (add_lines w (flat_map (movie_lines P) rows)).
Proof.
  intros Hrows. revert total w.
  induction Hrows as [|row rest Hrow Hrest IH]; intros total w; simpl.
  - unfold ret. now rewrite Z.add_0_r, RenderFacts.add_no_lines.
  - unfold bindM. rewrite (show_movie_listed total row w Hrow), IH.
    rewrite RenderFacts.add_lines_app. f_equal. lia.
Qed.

Lemma show_theater_listed total theater w :
  listed_theater theater ->
  show_theater P reliable total theater w =
  Done (total + count_times (elements (field "movies" theater)))
       (add_lines w (theater_lines P theater)).
Proof.
  intros (name & addr & rows & -> & Hrows). unfold show_theater, theater_lines.
  set (th := VDict [("theater", name); ("address", addr); ("movies", VList rows)]).
  change (py_item th "theater") with (Ok name).
  change (py_get th "address") with (Ok addr).
  change (py_item th "address") with (Ok addr).
  change (py_get_default th "movies" (VList [])) with (Ok (VList rows)).
  change (field "theater" th) with name.
  change (field "address" th) with addr.
  change (field "movies" th) with (VList rows).
  cbn [elements].
  rewrite run_ok, RenderFacts.print_then, run_ok.
  destruct (truthy addr).
  - unfold bindM at 1. rewrite run_ok, RenderFacts.print_adds.
    rewrite RenderFacts.add_lines_app, run_ok. cbn [py_iter]. rewrite run_ok.
    unfold bindM at 1. rewrite (show_movies_listed rows total _ Hrows).
    rewrite RenderFacts.print_then. unfold ret.
    rewrite !RenderFacts.add_lines_app, <- ?app_assoc. reflexivity.
  - rewrite RenderFacts.ret_then, run_ok. cbn [py_iter]. rewrite run_ok.
    unfold bindM at 1. rewrite (show_movies_listed rows total _ Hrows).
    rewrite RenderFacts.print_then. unfold ret.
    rewrite !RenderFacts.add_lines_app, <- ?app_assoc. reflexivity.
Qed.

Lemma show_theaters_listed theaters total w :
  Forall listed_theater theaters ->
  for_eachM (show_theater P reliable) theaters total w =
  Done (total + count_all_times theaters)
       (add_lines w (flat_map (theater_lines P) theaters)).
Proof.
  intros Hths. revert total w.
  induction Hths as [|th rest Hth Hrest IH]; intros total w; simpl.
  - unfold ret. now rewrite Z.add_0_r, RenderFacts.add_no_lines.
  - unfold bindM. rewrite (show_theater_listed total th w Hth), IH.
    rewrite RenderFacts.add_lines_app. f_equal. lia.
Qed.

Lemma table_header_printed {A} theater_label location_label zone (k : M A) w :
  (print reliable (escape ++ "[2J" ++ escape ++ "[H") ;;;
   print reliable (newline ++ rule) ;;;
   run now_time := now_in_tz P zone in
   print reliable ("MOVIE SHOWTIMES @ " ++ stamp now_time) ;;;
   print reliable rule ;;;
   print reliable ("Theater query: " ++ py_str (repr P) theater_label) ;;;
   print reliable ("Location: " ++ py_str (repr P) location_label) ;;;
   print reliable rule ;;;
   print reliable (left_in_60 "MOVIE" ++ " TIMES") ;;;
   print reliable dashes ;;;
   k) w =
  k (add_lines (after_clock_read w)
       (table_header P (stamp (now_at P (clock_reads w) zone))
                     theater_label location_label)).
Proof.
  unfold table_header.
  rewrite RenderFacts.print_then, RenderFacts.print_then, RenderFacts.add_lines_app,
    RenderFacts.now_then.
  do 7 rewrite RenderFacts.print_then, RenderFacts.add_lines_app.
  rewrite <- ?app_assoc. reflexivity.
Qed.

(** X26. [format_showtime_display] with no showtimes prints the table header
    and [No showtimes found]. With theaters whose rows have a string for a
    title and a list of times it returns, having printed for every theater
    its name, its address when there is one, one line per time of every
    movie (or the no-times line) with the title cut to 59 in a cell of 60,
    and a rule; the total it prints at the end is the number of times. The
    terminal takes every line ([reliable]). *)
Theorem showtime_table theater_label location_label zone w :
  (forall showtimes,
      truthy showtimes = false ->
      format_showtime_display P reliable theater_label location_label showtimes zone w =
      Done tt (add_lines (after_clock_read w)
                 (table_header P (stamp (now_at P (clock_reads w) zone))
                               theater_label location_label
                  ++ ["No showtimes found"]))) /\
  (forall th rest,
      Forall listed_theater (th :: rest) ->
      format_showtime_display P reliable theater_label location_label (VList (th :: rest)) zone w =
      Done tt (add_lines (after_clock_read w)
                 (table_header P (stamp (now_at P (clock_reads w) zone))
                               theater_label location_label
                  ++ flat_map (theater_lines P) (th :: rest)
                  ++ [("Total showtime entries: "
                       ++ pretty (count_all_times (th :: rest)))%string;
                      rule]))).
Proof.
  split.
  - intros showtimes Hs. unfold format_showtime_display.
    rewrite table_header_printed, Hs. cbn [negb].
    now rewrite RenderFacts.print_adds, RenderFacts.add_lines_app.
  - intros th rest Hths. unfold format_showtime_display.
    rewrite table_header_printed. cbn [truthy negb py_iter]. rewrite run_ok.
    unfold bindM at 1. rewrite (show_theaters_listed (th :: rest) 0 _ Hths).
    rewrite RenderFacts.print_then, RenderFacts.print_adds.
    rewrite !RenderFacts.add_lines_app, Z.add_0_l, <- ?app_assoc. reflexivity.
Qed.

End OutputSucceeds.

End TableFacts.

(* ===================================================================== *)
(** ** The further properties on sample data                              *)
(* ===================================================================== *)

Module CaseFacts.
Import Engine.

Lemma three_rows_ok :
  row_ok (VDict [("title", VStr "Dune"); ("times", Cases.three_times)]).
Proof. eexists _, _. split; [reflexivity|]. split; [reflexivity | simpl; lia]. Qed.

Lemma normalized_ok : Forall theater_ok Cases.normalized.
Proof.
  constructor; [|constructor]. eexists _, _, _. split; [reflexivity|].
  split; [reflexivity|]. split; [right; reflexivity|].
  constructor; [apply three_rows_ok | constructor].
Qed.

Lemma built_is_built : built_entry Cases.built.
Proof.
  eexists _, _, _. split; [reflexivity|]. split; [reflexivity|].
  split; [reflexivity|]. split; [apply normalized_ok | simpl; lia].
Qed.

Lemma normalized_listed : Forall listed_theater Cases.normalized.
Proof.
  constructor; [|constructor]. eexists _, _, _. split; [reflexivity|].
  constructor; [|constructor]. eexists _, _. reflexivity.
Qed.

Lemma built_twice : Forall built_entry [Cases.built; Cases.built].
Proof. repeat constructor; apply built_is_built. Qed.

End CaseFacts.

Lemma normalize_output_shape_witness :
  normalize_showtimes Samples.plain_repr (VDict Samples.two_days) = Ok Cases.normalized
  /\ Forall theater_ok Cases.normalized.
Proof.
  split; [reflexivity|].
  exact (normalize_output_shape Samples.plain_repr (VDict Samples.two_days)
           Cases.normalized eq_refl).
Defined.

Lemma normalize_rows_follow_movies_witness :
  exists rows,
    Cases.normalized =
      [VDict [("theater", theater_name_of Samples.today_entry);
              ("address", address_of Samples.today_entry);
              ("movies", VList rows)]] /\
    Forall2 (row_of Samples.plain_repr) [Samples.dune] rows.
Proof.
  exact (normalize_rows_follow_movies Samples.plain_repr Samples.two_days
           Samples.today_entry [VDict [("name", VStr "next day")]] [Samples.dune]
           Cases.normalized eq_refl eq_refl eq_refl).
Defined.

Lemma built_entry_flattens_witness :
  group_entry_movies None Samples.day Cases.built
    = Ok [Cases.dune_item None Samples.day] /\
  flatten_entry None Samples.day [] Cases.built
    = Ok [Cases.dune_item None Samples.day].
Proof.
  exact (built_entry_flattens None Samples.day Cases.built CaseFacts.built_is_built).
Defined.

Lemma built_dataset_groups_witness :
  group_movies_by_theater None (VList [Cases.built; Cases.built]) Samples.day
    = Ok [[Cases.dune_item None Samples.day]; [Cases.dune_item None Samples.day]] /\
  flatten_movies None (VList [Cases.built; Cases.built]) Samples.day
    = Ok [Cases.dune_item None Samples.day; Cases.dune_item None Samples.day].
Proof.
  exact (built_dataset_groups None Samples.day [Cases.built; Cases.built]
           CaseFacts.built_twice).
Defined.

Lemma groups_stamped_witness :
  Forall (Forall (stamped None Samples.day)) [[Cases.plain_item]] /\
  (List.length [[Cases.plain_item]] <=
   List.length [Samples.empty_entry; Samples.labelled_entry])%nat.
Proof.
  exact (groups_stamped None (VList [Samples.empty_entry; Samples.labelled_entry])
           Samples.day [Samples.empty_entry; Samples.labelled_entry]
           [[Cases.plain_item]] eq_refl eq_refl).
Defined.

Lemma load_entries_again_witness :
  Engine.load_entries_for_today Samples.quiet Engine.reliable Samples.settings
    (Cases.refreshed (Samples.cache_of "2024-04-30"))
  = Engine.Done (VList Samples.fetched, VStr "2024-05-01")
      (after_clock_read (Cases.refreshed (Samples.cache_of "2024-04-30"))).
Proof.
  assert (Hp : Engine.cache_path Samples.settings <> "") by discriminate.
  assert (Hfirst :
    Engine.load_entries_for_today Samples.quiet Engine.reliable Samples.settings
      (after_clock_read (Samples.cache_of "2024-04-30"))
    = Engine.Done (VList Samples.fetched, VStr "2024-05-01")
        (Cases.refreshed (Samples.cache_of "2024-04-30")))
    by (vm_compute; reflexivity).
  exact (CacheFacts.load_entries_again Samples.quiet Engine.reliable Samples.settings _ _ _ Hp Hfirst
           eq_refl).
Defined.

Lemma fetch_all_requests_witness :
  Engine.requests (Cases.requested 0 Samples.no_cache) =
    [] ++ map (request_of (VStr "key") (VStr "en") (VStr "us"))
              (List.filter valid_theater Cases.two_theaters) /\
  map (field "theater_label") Samples.fetched =
    map theater_query (List.filter valid_theater Cases.two_theaters) /\
  map (field "location_label") Samples.fetched =
    map theater_location (List.filter valid_theater Cases.two_theaters) /\
  Engine.printed (add_lines (Cases.requested 0 Samples.no_cache) [skip_notice]) =
    [] ++ List.repeat skip_notice
            (List.length (List.filter (fun t => negb (valid_theater t))
                                      Cases.two_theaters)).
Proof.
  assert (Hfetch :
    Engine.fetch_all Samples.quiet Engine.reliable (VStr "key") (VStr "en") (VStr "us")
      (VList Cases.two_theaters) Samples.no_cache
    = Engine.Done Samples.fetched
        (add_lines (Cases.requested 0 Samples.no_cache) [skip_notice]))
    by (vm_compute; reflexivity).
  exact (FetchFacts.fetch_all_requests Samples.quiet Engine.reliable (VStr "key") (VStr "en")
           (VStr "us") Cases.two_theaters Samples.no_cache _ _ Hfetch).
Defined.

Lemma fetch_all_builds_dataset_witness :
  Forall built_entry Samples.fetched /\
  group_movies_by_theater (Some UTC) (VList Samples.fetched) (VStr "2024-05-01") =
    Ok (List.filter nonempty
          (map (entry_items (Some UTC) (VStr "2024-05-01")) Samples.fetched)).
Proof.
  assert (Hfetch :
    Engine.fetch_all Samples.quiet Engine.reliable (VStr "key") (VStr "en") (VStr "us")
      (VList Cases.two_theaters) Samples.no_cache
    = Engine.Done Samples.fetched
        (add_lines (Cases.requested 0 Samples.no_cache) [skip_notice]))
    by (vm_compute; reflexivity).
  exact (FetchFacts.fetch_all_builds_dataset Samples.quiet Engine.reliable (VStr "key") (VStr "en")
           (VStr "us") (VList Cases.two_theaters) Samples.no_cache _ _
           (Some UTC) (VStr "2024-05-01") Hfetch).
Defined.


Lemma iteration_without_groups_witness :
  Engine.iteration Samples.quiet Engine.reliable Samples.settings (Engine.mkState [] 0 0)
    (Samples.cache_of "2024-05-01")
  = Engine.Raised ZeroDivisionError (after_clock_read (Samples.cache_of "2024-05-01")).
Proof.
  assert (Hp : Engine.cache_path Samples.settings <> "") by discriminate.
  assert (Hfile : Engine.files (Samples.cache_of "2024-05-01")
                    !! Engine.cache_path Samples.settings
                  = Some (Engine.Json (VDict [("date", VStr "2024-05-01");
                                              ("entries", VList [Samples.labelled_entry])])))
    by (vm_compute; reflexivity).
  exact (LoopFacts.iteration_without_groups Samples.quiet Engine.reliable Samples.settings
           (Engine.mkState [] 0 0) _ _ Hp Hfile eq_refl eq_refl).
Defined.

Lemma refresh_error_contained_witness :
  Engine.iteration Cases.unreachable Engine.reliable Samples.settings Samples.showing_numbered
    Samples.no_cache
  = Engine.Done Samples.showing_numbered
      (after_refresh_backoff Cases.unreachable OSError
         (Cases.requested 2 Samples.no_cache)).
Proof.
  assert (Hp : Engine.cache_path Samples.settings <> "") by discriminate.
  assert (Hstale : stale (Engine.cache_path Samples.settings)
                         (today Cases.unreachable Samples.settings Samples.no_cache)
                         Samples.no_cache)
    by (left; vm_compute; reflexivity).
  assert (Href :
    Engine.refresh Cases.unreachable Engine.reliable Samples.settings (after_clock_read Samples.no_cache)
    = Engine.Raised OSError (Cases.requested 2 Samples.no_cache))
    by (vm_compute; reflexivity).
  exact (LoopFacts.refresh_error_contained Cases.unreachable Engine.reliable Samples.settings
           Samples.showing_numbered _ _ _ Hp Hstale Href).
Defined.

Lemma rollover_after_refresh_witness :
  fresh_state Cases.showing_dune /\
  (Engine.theater_groups Cases.showing_dune <> [] ->
   Engine.rollover Samples.quiet Engine.reliable Samples.settings Samples.showing_numbered
     Samples.no_cache
   = Engine.Done (inr Cases.showing_dune) (Cases.refreshed Samples.no_cache) /\
   exists sel, Engine.select Cases.showing_dune = Ok sel) /\
  (Engine.theater_groups Cases.showing_dune = [] ->
   Engine.rollover Samples.quiet Engine.reliable Samples.settings Samples.showing_numbered
     Samples.no_cache
   = if Engine.interrupts Samples.quiet
          (List.length (Engine.sleeps (Cases.refreshed Samples.no_cache)))
     then Engine.Interrupted (after_empty_refresh (Cases.refreshed Samples.no_cache))
     else Engine.Done (inl Cases.showing_dune)
            (after_empty_refresh (Cases.refreshed Samples.no_cache))).
Proof.
  assert (Hp : Engine.cache_path Samples.settings <> "") by discriminate.
  assert (Hstale : stale (Engine.cache_path Samples.settings)
                         (today Samples.quiet Samples.settings Samples.no_cache)
                         Samples.no_cache)
    by (left; vm_compute; reflexivity).
  assert (Href :
    Engine.refresh Samples.quiet Engine.reliable Samples.settings (after_clock_read Samples.no_cache)
    = Engine.Done Cases.showing_dune (Cases.refreshed Samples.no_cache))
    by (vm_compute; reflexivity).
  exact (LoopFacts.rollover_after_refresh Samples.quiet Samples.settings
           Samples.showing_numbered _ _ _ Hp Hstale Href).
Defined.

Lemma iteration_non_object_cache_witness :
  Engine.iteration Samples.quiet Engine.reliable Samples.settings Samples.showing_numbered
    Cases.array_cache
  = Engine.Raised AttributeError (after_clock_read Cases.array_cache).
Proof.
  assert (Hp : Engine.cache_path Samples.settings <> "") by discriminate.
  assert (Hfile : Engine.files Cases.array_cache !! Engine.cache_path Samples.settings
                  = Some (Engine.Json (VList [VInt 1])))
    by (vm_compute; reflexivity).
  assert (Hobj : forall d, VList [VInt 1] <> VDict d) by discriminate.
  exact (LoopFacts.iteration_non_object_cache Samples.quiet Engine.reliable Samples.settings
           Samples.showing_numbered _ _ Hp Hfile eq_refl Hobj).
Defined.

Lemma startup_outcome_witness :
  fresh_state Cases.showing_dune /\
  Engine.theater_groups Cases.showing_dune <> [] /\
  exists sel, Engine.select Cases.showing_dune = Ok sel.
Proof.
  assert (Hstart :
    Engine.startup Samples.quiet Engine.reliable Samples.settings (after_clock_read Samples.no_cache)
    = Engine.Done (Some Cases.showing_dune) (Cases.refreshed Samples.no_cache))
    by (vm_compute; reflexivity).
  exact (LoopFacts.startup_outcome Samples.quiet Engine.reliable Samples.settings _ _ _ Hstart).
Defined.

Lemma render_frame_witness :
  Engine.format_single_movie_display Samples.quiet Engine.reliable
    (Cases.dune_item (Some UTC) (VStr "2024-05-01")) Samples.no_cache
  = Engine.Done tt
      (add_lines (after_clock_read Samples.no_cache)
         (frame_lines Samples.quiet "2024-05-01 12:00:00 UTC"
            (Cases.dune_item (Some UTC) (VStr "2024-05-01")) (VStr "Dune")
            [VStr "7:30 PM (IMAX)"; VStr "9:45 PM"; VStr "10:15 PM"])).
Proof.
  exact (RenderFacts.render_frame Samples.quiet
           (Cases.dune_item (Some UTC) (VStr "2024-05-01")) Samples.no_cache
           (VStr "Dune") [VStr "7:30 PM (IMAX)"; VStr "9:45 PM"; VStr "10:15 PM"]
           eq_refl eq_refl).
Defined.

Lemma render_raises_witness :
  ((exists text,
       Engine.print_fails (Cases.closed_after 2)
         (Engine.printed (add_lines (after_clock_read Samples.no_cache)
                            [(Engine.escape ++ "[2J" ++ Engine.escape ++ "[H")%string;
                             (Engine.newline ++ Engine.rule)%string])) text
       = Some OSError) \/
   Engine.first_60 (py_or (title Samples.numbered) (VStr "(title unknown)"))
     = Raise OSError \/
   (exists shown,
       Engine.first_60 (py_or (title Samples.numbered) (VStr "(title unknown)"))
         = Ok shown /\
       py_iter (py_or (times Samples.numbered) (VList [])) = Raise OSError)) /\
  Engine.format_single_movie_display Samples.quiet Engine.reliable Samples.numbered
    Samples.no_cache
  = Engine.Raised TypeError
      (add_lines (after_clock_read Samples.no_cache)
         (header_lines Samples.quiet "2024-05-01 12:00:00 UTC" Samples.numbered)).
Proof.
  assert (Hcut :
    Engine.format_single_movie_display Samples.quiet (Cases.closed_after 2)
      Samples.numbered Samples.no_cache
    = Engine.Raised OSError
        (add_lines (after_clock_read Samples.no_cache)
           [(Engine.escape ++ "[2J" ++ Engine.escape ++ "[H")%string;
            (Engine.newline ++ Engine.rule)%string]))
    by (vm_compute; reflexivity).
  split.
  - exact (proj1 (RenderFacts.render_raises Samples.quiet (Cases.closed_after 2)
                    Samples.numbered Samples.no_cache) _ _ Hcut).
  - exact (proj1 (proj2 (RenderFacts.render_raises Samples.quiet (Cases.closed_after 2)
                           Samples.numbered Samples.no_cache)) TypeError eq_refl).
Defined.

Lemma title_line_short_witness :
  (String.length (String.substring 0 60 "Dune") <= 60)%nat /\
  exists rest,
    Engine.printed
      (add_lines (after_clock_read Samples.no_cache)
         (frame_lines Samples.quiet "2024-05-01 12:00:00 UTC" Cases.plain_item
                      (VStr "Dune") []))
    = [] ++ header_lines Samples.quiet "2024-05-01 12:00:00 UTC" Cases.plain_item
         ++ ["Dune"] ++ rest.
Proof.
  assert (Hdone :
    Engine.format_single_movie_display Samples.quiet Engine.reliable Cases.plain_item
      Samples.no_cache
    = Engine.Done tt
        (add_lines (after_clock_read Samples.no_cache)
           (frame_lines Samples.quiet "2024-05-01 12:00:00 UTC" Cases.plain_item
                        (VStr "Dune") [])))
    by (vm_compute; reflexivity).
  exact (RenderFacts.title_line_short Samples.quiet Engine.reliable Cases.plain_item
           "Dune" Samples.no_cache _ eq_refl Hdone).
Defined.

Lemma empty_refresh_then_crash_witness :
  Engine.iteration Cases.nothing_on Engine.reliable Samples.settings Samples.showing_numbered
    Samples.no_cache
  = Engine.Done (Engine.mkState [] 0 0)
      (after_empty_refresh (Cases.nothing_refreshed Samples.no_cache)) /\
  Engine.iteration Cases.nothing_on Engine.reliable Samples.settings (Engine.mkState [] 0 0)
    (after_empty_refresh (Cases.nothing_refreshed Samples.no_cache))
  = Engine.Raised ZeroDivisionError
      (after_clock_read (after_empty_refresh (Cases.nothing_refreshed Samples.no_cache))).
Proof.
  assert (Hp : Engine.cache_path Samples.settings <> "") by discriminate.
  assert (Hstale : stale (Engine.cache_path Samples.settings)
                         (today Cases.nothing_on Samples.settings Samples.no_cache)
                         Samples.no_cache)
    by (left; vm_compute; reflexivity).
  assert (Href :
    Engine.refresh Cases.nothing_on Engine.reliable Samples.settings (after_clock_read Samples.no_cache)
    = Engine.Done (Engine.mkState [] 0 0) (Cases.nothing_refreshed Samples.no_cache))
    by (vm_compute; reflexivity).
  exact (LoopFacts.empty_refresh_then_crash Cases.nothing_on Samples.settings
           Samples.showing_numbered _ _ _ Hp Hstale Href eq_refl eq_refl eq_refl).
Defined.

Lemma displayed_iteration_witness :
  Engine.iteration Samples.quiet Engine.reliable Samples.settings Cases.showing_dune
    (Samples.cache_of "2024-05-01")
  = Engine.Done
      (Engine.mkState [[Cases.dune_item (Some UTC) (VStr "2024-05-01")]] 1 0)
      (after_show (Samples.cache_of "2024-05-01") (VInt 10)
         (frame_lines Samples.quiet "2024-05-01 12:00:00 UTC"
            (Cases.dune_item (Some UTC) (VStr "2024-05-01")) (VStr "Dune")
            [VStr "7:30 PM (IMAX)"; VStr "9:45 PM"; VStr "10:15 PM"]))
  /\ Engine.cycle Cases.showing_dune
     = Ok (Engine.mkState [[Cases.dune_item (Some UTC) (VStr "2024-05-01")]] 1 0).
Proof.
  assert (Hp : Engine.cache_path Samples.settings <> "") by discriminate.
  assert (Hfile : Engine.files (Samples.cache_of "2024-05-01")
                    !! Engine.cache_path Samples.settings
                  = Some (Engine.Json (VDict [("date", VStr "2024-05-01");
                                              ("entries", VList [Samples.labelled_entry])])))
    by (vm_compute; reflexivity).
  assert (Hsel :
    Engine.select Cases.showing_dune
    = Ok (Engine.mkSelection 0 [Cases.dune_item (Some UTC) (VStr "2024-05-01")] 0
            (Cases.dune_item (Some UTC) (VStr "2024-05-01"))))
    by (vm_compute; reflexivity).
  exact (DisplayFacts.displayed_iteration Samples.quiet Samples.settings
           Cases.showing_dune _ _ _ (VStr "Dune")
           [VStr "7:30 PM (IMAX)"; VStr "9:45 PM"; VStr "10:15 PM"]
           Hp Hfile eq_refl Hsel eq_refl eq_refl eq_refl).
Defined.

Lemma showtime_table_witness :
  Table.format_showtime_display Samples.quiet Engine.reliable (VStr "Alamo") (VStr "Austin") VNone
    (Some UTC) Samples.no_cache
  = Engine.Done tt
      (add_lines (after_clock_read Samples.no_cache)
         (table_header Samples.quiet "2024-05-01 12:00:00 UTC" (VStr "Alamo")
                       (VStr "Austin")
          ++ ["No showtimes found"])) /\
  Table.format_showtime_display Samples.quiet Engine.reliable (VStr "Alamo") (VStr "Austin")
    (VList Cases.normalized) (Some UTC) Samples.no_cache
  = Engine.Done tt
      (add_lines (after_clock_read Samples.no_cache)
         (table_header Samples.quiet "2024-05-01 12:00:00 UTC" (VStr "Alamo")
                       (VStr "Austin")
          ++ flat_map (theater_lines Samples.quiet) Cases.normalized
          ++ ["Total showtime entries: 3"; Engine.rule])).
Proof.
  split.
  - exact (proj1 (TableFacts.showtime_table Samples.quiet (VStr "Alamo") (VStr "Austin")
                    (Some UTC) Samples.no_cache) VNone eq_refl).
  - exact (proj2 (TableFacts.showtime_table Samples.quiet (VStr "Alamo") (VStr "Austin")
                    (Some UTC) Samples.no_cache) _ _ CaseFacts.normalized_listed).
Defined.

Lemma normalize_empty_iff_witness :
  normalize_showtimes Samples.plain_repr (VDict [("search_metadata", VDict [])]) = Ok []
  /\ truthy (dict_get Samples.two_days "showtimes" VNone) <> false.
Proof.
  split.
  - exact (proj2 (normalize_empty_iff Samples.plain_repr
                    [("search_metadata", VDict [])]) eq_refl).
  - intros H.
    pose proof (proj2 (normalize_empty_iff Samples.plain_repr Samples.two_days) H) as Hn.
    discriminate Hn.
Defined.

Lemma load_config_returns_iff_witness :
  Engine.Done (VDict Cases.configuration) Cases.configured
  = Config.load_config Config.DEFAULT_CONGIG_FILE Cases.configured.
Proof.
  assert (Hfile : Engine.files Cases.configured !! Config.DEFAULT_CONGIG_FILE
                  = Some (Engine.Json (VDict Cases.configuration)))
    by (vm_compute; reflexivity).
  assert (Hp : Config.DEFAULT_CONGIG_FILE <> "") by discriminate.
  symmetry.
  apply (proj2 (ConfigFacts.load_config_returns_iff Config.DEFAULT_CONGIG_FILE
                  Cases.configured (VDict Cases.configuration) Cases.configured)).
  split; [reflexivity|]. split; [exact Hp|]. split; [exact Hfile|].
  exists Cases.configuration, (VStr "key"), Cases.two_theaters.
  split; [reflexivity|]. split; reflexivity.
Defined.

Lemma failed_save_keeps_cache_stale_witness :
  exists e w',
    Engine.load_entries_for_today Samples.quiet Cases.read_only Samples.settings
      Samples.no_cache = Engine.Raised e w' /\
    (Engine.OpenFails OSError = Engine.OpenFails e \/
     Engine.OpenFails OSError = Engine.DumpFails e) /\
    Engine.requests w' = Engine.requests (Samples.after_fetch Samples.no_cache) /\
    stale (Engine.cache_path Samples.settings)
          (today Samples.quiet Samples.settings Samples.no_cache) w'.
Proof.
  assert (Hp : Engine.cache_path Samples.settings <> "") by discriminate.
  assert (Hstale : stale (Engine.cache_path Samples.settings)
                         (today Samples.quiet Samples.settings Samples.no_cache)
                         Samples.no_cache)
    by (left; vm_compute; reflexivity).
  assert (Hfetch :
    Engine.fetch_all Samples.quiet Cases.read_only
      (Engine.config_api_key Samples.settings) (Engine.config_hl Samples.settings)
      (Engine.config_gl Samples.settings) (Engine.theaters Samples.settings)
      (after_clock_read Samples.no_cache)
    = Engine.Done Samples.fetched (Samples.after_fetch Samples.no_cache))
    by (vm_compute; reflexivity).
  exact (LoopFacts.failed_save_keeps_cache_stale Samples.quiet Cases.read_only
           Samples.settings Samples.no_cache Samples.fetched
           (Samples.after_fetch Samples.no_cache) (Engine.OpenFails OSError)
           Hp Hstale Hfetch eq_refl).
Defined.

Lemma rotation_visits_all_witness :
  exists st w' sel,
    Engine.iterations Samples.quiet Engine.reliable Samples.settings 7
      (Engine.mkState [[Cases.plain_item];
                       [Cases.dune_item None Samples.day; Cases.plain_item]] 0 0)
      (Samples.cache_of "2024-05-01") = Engine.Done st w' /\
    Engine.select st = Ok sel /\
    Some (Cases.dune_item None Samples.day) = Some (Engine.item sel) /\
    Engine.requests w' = [] /\
    Engine.sleeps w' = [] ++ List.repeat (VInt 10) 7.
Proof.
  assert (Hp : Engine.cache_path Samples.settings <> "") by discriminate.
  assert (Hcalm : undisturbed Samples.quiet Samples.settings "2024-05-01")
    by (repeat split).
  assert (Hcache : cached_for (Engine.cache_path Samples.settings) "2024-05-01"
                              (Samples.cache_of "2024-05-01")).
  { exists [("date", VStr "2024-05-01"); ("entries", VList [Samples.labelled_entry])].
    split; [vm_compute; reflexivity | reflexivity]. }
  assert (Hsome : [[Cases.plain_item];
                   [Cases.dune_item None Samples.day; Cases.plain_item]] <> [])
    by discriminate.
  assert (Hall : Forall (fun g : list FlatMovieItem => g <> [])
                        [[Cases.plain_item];
                         [Cases.dune_item None Samples.day; Cases.plain_item]])
    by (repeat constructor; discriminate).
  assert (Hrender : Forall renderable
                      (List.concat [[Cases.plain_item];
                                    [Cases.dune_item None Samples.day; Cases.plain_item]])).
  { simpl. repeat (constructor; [split; eexists; reflexivity|]). constructor. }
  exact (RunFacts.rotation_visits_all Samples.quiet Samples.settings "2024-05-01"
           Hp Hcalm _ Hsome Hall Hrender 7 _ Hcache).
Defined.

Lemma loop_cycle_two_three_witness :
  exists st w' sel,
    Engine.iterations Samples.quiet Engine.reliable Samples.settings 7
      (Engine.mkState
         [[Cases.plain_item; Cases.dune_item None Samples.day];
          [Cases.dune_item (Some UTC) Samples.day; Cases.plain_item;
           Cases.dune_item None (VStr "2024-05-01")]] 0 0)
      (Samples.cache_of "2024-05-01") = Engine.Done st w' /\
    Engine.select st = Ok sel /\
    (Engine.theater_idx_normalized sel, Engine.movie_idx_normalized sel) = (1, 0) /\
    Engine.item sel = Cases.dune_item (Some UTC) Samples.day /\
    Engine.requests w' = [] /\
    Engine.sleeps w' = [] ++ List.repeat (VInt 10) 7.
Proof.
  assert (Hp : Engine.cache_path Samples.settings <> "") by discriminate.
  assert (Hcalm : undisturbed Samples.quiet Samples.settings "2024-05-01")
    by (repeat split).
  assert (Hcache : cached_for (Engine.cache_path Samples.settings) "2024-05-01"
                              (Samples.cache_of "2024-05-01")).
  { exists [("date", VStr "2024-05-01"); ("entries", VList [Samples.labelled_entry])].
    split; [vm_compute; reflexivity | reflexivity]. }
  assert (Hrender : Forall renderable
                      [Cases.plain_item; Cases.dune_item None Samples.day;
                       Cases.dune_item (Some UTC) Samples.day; Cases.plain_item;
                       Cases.dune_item None (VStr "2024-05-01")]).
  { repeat (constructor; [split; eexists; reflexivity|]). constructor. }
  exact (RunFacts.loop_cycle_two_three Samples.quiet Samples.settings "2024-05-01"
           Hp Hcalm _ _ _ _ _ 7 _ Hrender Hcache).
Defined.
